(** * Verification of the data-processing pipeline of
    [lightning/data/cache/processor.py]

    The development is a shallow embedding of the Python module: integers
    are [Z] (Python's unbounded [int]), lists are [list], strings are
    [string], a dictionary used as a store is a [gmap], and every function
    that can raise returns a [result].  Processes that talk through queues
    are embedded as functions from the sequence of messages they read to
    the effects they produce. *)

From Stdlib Require Import ZArith Lia String Ascii.
From stdpp Require Import base numbers list strings pretty gmap sets.

#[local] Set Warnings "-register-all".

Local Open Scope Z_scope.

(** ** Exceptions and results *)

Inductive exn : Type :=
| ValueError
| TypeError
| IndexError
| ZeroDivisionError
| UnicodeEncodeError.

Inductive result (A : Type) : Type :=
| Ok (a : A)
| Raise (e : exn).
Arguments Ok {A} a.
Arguments Raise {A} e.

(** Sequencing stops at the first exception; [x ← m; k] is stdpp's
    notation for it. *)
#[global] Instance result_bind : MBind result := λ A B k m,
match m with
| Ok a => k a
| Raise e => Raise e
end.
#[global] Instance result_ret : MRet result := λ A a, Ok a.

(** ** Python built-ins on lists and integers *)

Module Py.

(** [len(l)] *)
Definition len {A} (l : list A) : Z := Z.of_nat (length l).

(** [range(n)]: empty when [n <= 0]. *)
Definition range (n : Z) : list Z := Z.of_nat <$> seq 0 (Z.to_nat n).

(** Index clamping of a slice bound, as [PySlice_AdjustIndices] does for
    step 1: negative bounds count from the end, everything is clamped to
    [0 .. len]. *)
Definition clamp (n i : Z) : Z :=
  if i <? 0 then Z.max (i + n) 0 else Z.min i n.

(** [l[a:b]] *)
Definition slice {A} (l : list A) (a b : Z) : list A :=
  let a' := clamp (len l) a in
  let b' := clamp (len l) b in
  take (Z.to_nat (b' - a')) (drop (Z.to_nat a') l).

(** [l[i]]: negative indices count from the end, anything outside
    [-len .. len-1] raises [IndexError]. *)
Definition index {A} (l : list A) (i : Z) : result A :=
  let j := if i <? 0 then i + len l else i in
  if j <? 0 then Raise IndexError
  else match l !! Z.to_nat j with
       | Some x => Ok x
       | None => Raise IndexError
       end.

(** [l[i] = f(l[i])], as in [queues[i].put(x)]: the element at [i] is
    replaced, with the same index rules. *)
Definition update {A} (l : list A) (i : Z) (f : A → A) : result (list A) :=
  let j := if i <? 0 then i + len l else i in
  if j <? 0 then Raise IndexError
  else match l !! Z.to_nat j with
       | Some x => Ok (<[Z.to_nat j := f x]> l)
       | None => Raise IndexError
       end.

(** [enumerate(l)] *)
Definition enumerate {A} (l : list A) : list (Z * A) :=
  imap (λ i x, (Z.of_nat i, x)) l.

(** [a // b] *)
Definition floordiv (a b : Z) : result Z :=
  if b =? 0 then Raise ZeroDivisionError else Ok (a / b).

(** [a % b] *)
Definition modulo (a b : Z) : result Z :=
  if b =? 0 then Raise ZeroDivisionError else Ok (a mod b).

End Py.

(** ** [DataProcessor._associated_items_to_workers] *)

Module Partition.
Section assoc.
Context {A : Type}.

(** The fields and environment values the method reads:
    [self.num_workers], [int(os.getenv("NUM_NODES", 1))] and
    [int(os.getenv("NODE_RANK", 0))]. *)
Variables (num_workers num_nodes current_node_rank : Z).
Variable user_items : list A.

(** The inner [for worker_idx in range(self.num_workers)] loop; the
    accumulator is the pair [(begins, workers_user_items)]. *)
Fixpoint worker_loop (node_len worker_size : Z) (idxs : list Z)
    (acc : list Z * list (list A)) : list Z * list (list A) :=
  match idxs with
  | [] => acc
  | worker_idx :: rest =>
      let is_last := worker_idx =? num_workers - 1 in
      let begin := worker_idx * worker_size in
      let end_ := if is_last then node_len else (worker_idx + 1) * worker_size in
      worker_loop node_len worker_size rest
        (acc.1 ++ [begin], acc.2 ++ [Py.slice user_items begin end_])
  end.

(** The body of the outer loop for the node rank that is not skipped. *)
Definition node_body (node_size node_rank : Z)
    : result (list Z * list (list A)) :=
  let is_last_node := node_rank =? num_nodes - 1 in
  let start_node := node_rank * node_size in
  let end_node :=
    if is_last_node then Py.len user_items else (node_rank + 1) * node_size in
  let node_user_items := Py.slice user_items start_node end_node in
  worker_size ← Py.floordiv (Py.len node_user_items) num_workers;
  Ok (worker_loop (Py.len node_user_items) worker_size
        (Py.range num_workers) ([], [])).

(** The outer [for node_rank in range(num_nodes)] loop: ranks other than
    the current one are skipped, the first match returns, and falling off
    the loop returns [None]. *)
Fixpoint node_loop (node_size : Z) (ranks : list Z)
    : result (option (list Z * list (list A))) :=
  match ranks with
  | [] => Ok None
  | node_rank :: rest =>
      if negb (node_rank =? current_node_rank) then node_loop node_size rest
      else r ← node_body node_size node_rank; Ok (Some r)
  end.

Definition _associated_items_to_workers
    : result (option (list Z * list (list A))) :=
  node_size ← Py.floordiv (Py.len user_items) num_nodes;
  node_loop node_size (Py.range num_nodes).

(** The slice of the item list that belongs to a node: what the method
    binds to [node_user_items]. *)
Definition node_slice (node_rank : Z) : list A :=
  let node_size := Py.len user_items / num_nodes in
  Py.slice user_items (node_rank * node_size)
    (if node_rank =? num_nodes - 1 then Py.len user_items
     else (node_rank + 1) * node_size).

(** The line of [DataProcessor.run] that unpacks the result:
    [begins, workers_user_items = self._associated_items_to_workers(..)].
    Unpacking [None] raises [TypeError]. *)
Definition run_unpack : result (list Z * list (list A)) :=
  r ← _associated_items_to_workers;
  match r with
  | Some p => Ok p
  | None => Raise TypeError
  end.

End assoc.
End Partition.

(** ** Python string methods and [posixpath] helpers *)

Module PyStr.

Definition LF : ascii := "010"%char.
Definition CR : ascii := "013"%char.
Definition slash : ascii := "/"%char.

(** [s.startswith(p)] *)
Definition startswith (s p : string) : bool := String.prefix p s.

(** [s.endswith(c)] for a single character. *)
Fixpoint endswith_char (s : string) (c : ascii) : bool :=
  match s with
  | EmptyString => false
  | String d EmptyString => bool_decide (d = c)
  | String _ rest => endswith_char rest c
  end.

(** The scan of [s.replace(old, new)] for a non-empty [old]: occurrences
    are found left to right and do not overlap; [skip] counts the
    characters of a matched occurrence that are still to be dropped. *)
Fixpoint replace_scan (old new : string) (skip : nat) (s : string) : string :=
  match s with
  | EmptyString => EmptyString
  | String c rest =>
      match skip with
      | S k => replace_scan old new k rest
      | O =>
          if String.prefix old s
          then new +:+ replace_scan old new (String.length old - 1) rest
          else String c (replace_scan old new 0 rest)
      end
  end.

(** With an empty [old], Python puts [new] before every character and at
    the end. *)
Fixpoint replace_empty (new : string) (s : string) : string :=
  match s with
  | EmptyString => new
  | String c rest => new +:+ String c (replace_empty new rest)
  end.

(** [s.replace(old, new)] *)
Definition replace (s old new : string) : string :=
  match old with
  | EmptyString => replace_empty new s
  | _ => replace_scan old new 0 s
  end.

(** [s.lstrip("/")] *)
Fixpoint lstrip_slash (s : string) : string :=
  match s with
  | String c rest => if bool_decide (c = slash) then lstrip_slash rest else s
  | EmptyString => EmptyString
  end.

(** [c in s] for a single character. *)
Fixpoint has_char (c : ascii) (s : string) : bool :=
  match s with
  | EmptyString => false
  | String d rest => bool_decide (d = c) || has_char c rest
  end.

(** [posixpath.join(a, b)] *)
Definition path_join (a b : string) : string :=
  if startswith b "/" then b
  else if bool_decide (a = EmptyString) || endswith_char a slash then a +:+ b
  else a +:+ "/" +:+ b.

(** [posixpath.dirname(p)]: everything up to the last slash, without
    trailing slashes unless it consists of slashes only.  The scan
    returns the head and whether a slash was seen at or after the
    current position. *)
Fixpoint dirname_scan (p : string) : string * bool :=
  match p with
  | EmptyString => (EmptyString, false)
  | String c rest =>
      let '(h, seen) := dirname_scan rest in
      if seen then (String c h, true)
      else if bool_decide (c = slash) then (String c EmptyString, true)
      else (EmptyString, false)
  end.

Fixpoint all_slashes (s : string) : bool :=
  match s with
  | EmptyString => true
  | String c rest => bool_decide (c = slash) && all_slashes rest
  end.

(** [s.rstrip("/")] *)
Fixpoint rstrip_slash (s : string) : string :=
  match s with
  | EmptyString => EmptyString
  | String c rest =>
      if all_slashes s then EmptyString else String c (rstrip_slash rest)
  end.

Definition dirname (p : string) : string :=
  let head := (dirname_scan p).1 in
  if all_slashes head then head else rstrip_slash head.

(** Reading a file opened in text mode with the default [newline=None]:
    the decoder turns the line endings CR LF and CR into LF. *)
Fixpoint universal_newlines (s : string) : string :=
  match s with
  | EmptyString => EmptyString
  | String c rest =>
      if bool_decide (c = CR) then
        match rest with
        | String d rest' =>
            if bool_decide (d = LF) then String LF (universal_newlines rest')
            else String LF (universal_newlines rest)
        | EmptyString => String LF EmptyString
        end
      else String c (universal_newlines rest)
  end.

(** [f.readlines()] on decoded text: every line keeps its final LF, the
    last line may lack one. *)
Fixpoint readlines (s : string) : list string :=
  match s with
  | EmptyString => []
  | String c rest =>
      if bool_decide (c = LF) then String c EmptyString :: readlines rest
      else match readlines rest with
           | [] => [String c EmptyString]
           | l :: ls => String c l :: ls
           end
  end.

End PyStr.

(** ** The world outside the module *)

(** What [urllib.parse.urlparse] returns, as far as the module reads it. *)
Record ParseResult := { scheme : string; netloc : string; path : string }.

(** Library functions the module calls and whose code is not part of it:
    [hashlib]'s SHA-256 hex digest of a string, [urllib.parse.urlparse],
    and the bytes that [boto3]'s [download_fileobj] fetches for a bucket
    and a key. *)
Class Externals := {
  sha256_hexdigest : string → string;
  urlparse : string → ParseResult;
  s3_object : string → string → string;
}.

(** Text encodings.  A Python [str] can hold code points that no encoding
    writes: [os.walk] yields a lone surrogate for every byte of a file
    name that is not valid in the encoding of the file system, and both
    [s.encode("utf-8")] and the write to a text file raise
    [UnicodeEncodeError] on it. *)
Class TextCodec := {
  (** whether [s.encode("utf-8")] succeeds *)
  utf8_encodable : string → bool;
  (** whether [f.write(s)] succeeds on a file opened with [open(p, "w")],
      that is, whether the encoding of the locale can encode [s] *)
  file_encodable : string → bool;
}.

(** The file system, as the operations the module performs on it.  Every
    operation is taken to succeed: I/O errors are outside the model. *)
Class FileSystem (Disk : Type) := {
  (** [os.path.exists(p)] *)
  path_exists : Disk → string → bool;
  (** the content of the file at [p] *)
  read_file : Disk → string → string;
  (** [open(p, "w")] or [open(p, "wb")], the writes, and the close *)
  write_file : string → string → Disk → Disk;
  (** [os.makedirs(d, exist_ok=True)] *)
  makedirs : string → Disk → Disk;
  (** [os.remove(p)] *)
  os_remove : string → Disk → Disk;
  (** [os.walk(root)]: the pairs (dirpath, filenames) in the order they
      are yielded *)
  os_walk : Disk → string → list (string * list string);
}.

(** The behaviour of a POSIX file system that the proofs rely on. *)
Class FileSystemLaws (Disk : Type) `{FileSystem Disk} : Prop := {
  exists_write_file p c fs : path_exists (write_file p c fs) p = true;
  exists_write_file_mono p c fs q :
    path_exists fs q = true → path_exists (write_file p c fs) q = true;
  read_write_file p c fs : read_file (write_file p c fs) p = c;
  exists_makedirs_mono d fs q :
    path_exists fs q = true → path_exists (makedirs d fs) q = true;
  exists_os_remove p fs : path_exists (os_remove p fs) p = false;
  exists_os_remove_ne p q fs :
    p ≠ q → path_exists (os_remove p fs) q = path_exists fs q;
}.

(** How a process that loops on [queue.get()] ends when it is run on a
    finite sequence of messages: it returns, it blocks on the empty queue,
    or it dies with an exception.  Each case carries the state reached. *)
Inductive outcome (S : Type) : Type :=
| Returned (s : S)
| Blocked (s : S)
| Raised (e : exn) (s : S).
Arguments Returned {S} s.
Arguments Blocked {S} s.
Arguments Raised {S} e s.

Definition final_state {S} (o : outcome S) : S :=
match o with
| Returned s | Blocked s | Raised _ s => s
end.

(** ** [_download_data_target] *)

Module Downloader.

(** One call of [s3.download_fileobj(bucket, key, f)] with [f] opened on
    [dest]. *)
Record request := { bucket : string; key : string; dest : string }.

Record state (Disk : Type) := {
  fs : Disk;
  downloads : list request;
  queue_out : list (option Z);
}.
Arguments fs {Disk} _.
Arguments downloads {Disk} _.
Arguments queue_out {Disk} _.

Section downloader.
Context `{Externals} `{FileSystem Disk}.
Variables (root remote_root cache_dir : string).

(** [queue_out.put(msg)] *)
Definition put (msg : option Z) (st : state Disk) : state Disk :=
  {| fs := fs st; downloads := downloads st;
     queue_out := queue_out st ++ [msg] |}.

(** [all(os.path.exists(p.replace(root, cache_dir)) for p in paths)] *)
Definition all_downloaded (paths : list string) (st : state Disk) : bool :=
  forallb (λ p, path_exists (fs st) (PyStr.replace p root cache_dir)) paths.

(** The [for path in paths] loop; it stops at the first path whose
    remote counterpart is not an [s3] URL. *)
Fixpoint download_paths (paths : list string) (st : state Disk)
    : state Disk * option exn :=
  match paths with
  | [] => (st, None)
  | path_ :: rest =>
      let remote_path := PyStr.replace path_ root remote_root in
      let obj := urlparse remote_path in
      if negb (String.eqb (scheme obj) "s3") then (st, Some ValueError)
      else
        let local_path := PyStr.replace path_ root cache_dir in
        let dirpath := PyStr.dirname local_path in
        let fs1 := makedirs dirpath (fs st) in
        let k := PyStr.lstrip_slash (path obj) in
        let fs2 := write_file local_path (s3_object (netloc obj) k) fs1 in
        download_paths rest
          {| fs := fs2;
             downloads := downloads st
               ++ [{| bucket := netloc obj; key := k; dest := local_path |}];
             queue_out := queue_out st |}
  end.

(** The request that the loop issues for a path, and whether the remote
    counterpart of a path is an [s3] URL. *)
Definition request_of (p : string) : request :=
  let obj := urlparse (PyStr.replace p root remote_root) in
  {| bucket := netloc obj; key := PyStr.lstrip_slash (path obj);
     dest := PyStr.replace p root cache_dir |}.

Definition is_s3 (p : string) : Prop :=
  scheme (urlparse (PyStr.replace p root remote_root)) = "s3"%string.

(** The [while True] loop, run on the messages that [queue_in] holds. *)
Fixpoint _download_data_target (queue_in : list (option (Z * list string)))
    (st : state Disk) : outcome (state Disk) :=
  match queue_in with
  | [] => Blocked st
  | None :: _ => Returned (put None st)
  | Some (index, paths) :: rest =>
      if all_downloaded paths st
      then _download_data_target rest (put (Some index) st)
      else
        match download_paths paths st with
        | (st', Some e) => Raised e st'
        | (st', None) => _download_data_target rest (put (Some index) st')
        end
  end.

End downloader.
End Downloader.

(** ** [_remove_target] *)

Module Remover.

Record state (Disk : Type) := {
  fs : Disk;
  removed : list string;
}.
Arguments fs {Disk} _.
Arguments removed {Disk} _.

(** How many times a path was given to [os.remove]. *)
Definition occurrences (x : string) (l : list string) : nat :=
  length (filter (λ y, y = x) l).

Section remover.
Context `{FileSystem Disk}.
Variables (root cache_dir : string).

(** The [for path in paths] loop; [removed] logs the [os.remove] calls. *)
Fixpoint remove_paths (paths : list string) (st : state Disk) : state Disk :=
  match paths with
  | [] => st
  | path_ :: rest =>
      let cached_filepath := PyStr.replace path_ root cache_dir in
      if path_exists (fs st) cached_filepath
      then remove_paths rest
             {| fs := os_remove cached_filepath (fs st);
                removed := removed st ++ [cached_filepath] |}
      else remove_paths rest st
  end.

Fixpoint _remove_target (queue_in : list (option (list string)))
    (st : state Disk) : outcome (state Disk) :=
  match queue_in with
  | [] => Blocked st
  | None :: _ => Returned st
  | Some paths :: rest => _remove_target rest (remove_paths paths st)
  end.

End remover.
End Remover.

(** ** Items: [torch.utils._pytree] *)

Module PyTree.

(** The values that a pytree treats as leaves. *)
Inductive leaf : Type :=
  | LStr (s : string)
  | LInt (n : Z)
  | LNone.

(** The containers that a pytree opens. *)
Inductive container : Type :=
  | CList
  | CTuple
  | CDict (keys : list string).

Inductive pytree : Type :=
  | Leaf (x : leaf)
  | Node (c : container) (children : list pytree).

Inductive TreeSpec : Type :=
  | LeafSpec
  | NodeSpec (c : container) (children : list TreeSpec).

(** Induction on trees and on shapes, with the hypothesis for every
    child. *)
Fixpoint pytree_rect' (P : pytree → Prop)
    (Hleaf : ∀ x, P (Leaf x))
    (Hnode : ∀ c ts, Forall P ts → P (Node c ts)) (t : pytree) : P t :=
  match t with
  | Leaf x => Hleaf x
  | Node c ts =>
      Hnode c ts
        ((fix go (ts : list pytree) : Forall P ts :=
            match ts with
            | [] => List.Forall_nil P
            | t :: ts' => List.Forall_cons P t ts' (pytree_rect' P Hleaf Hnode t) (go ts')
            end) ts)
  end.

Fixpoint TreeSpec_rect' (P : TreeSpec → Prop)
    (Hleaf : P LeafSpec)
    (Hnode : ∀ c ss, Forall P ss → P (NodeSpec c ss)) (s : TreeSpec) : P s :=
  match s with
  | LeafSpec => Hleaf
  | NodeSpec c ss =>
      Hnode c ss
        ((fix go (ss : list TreeSpec) : Forall P ss :=
            match ss with
            | [] => List.Forall_nil P
            | s :: ss' => List.Forall_cons P s ss' (TreeSpec_rect' P Hleaf Hnode s) (go ss')
            end) ss)
  end.

(** [tree_flatten(t)]: the leaves from left to right and the shape. *)
Fixpoint tree_flatten (t : pytree) : list leaf * TreeSpec :=
  match t with
  | Leaf x => ([x], LeafSpec)
  | Node c ts =>
      let rs := map tree_flatten ts in
      (concat (map fst rs), NodeSpec c (map snd rs))
  end.

Fixpoint num_leaves (spec : TreeSpec) : nat :=
  match spec with
  | LeafSpec => 1
  | NodeSpec _ ss => list_sum (map num_leaves ss)
  end.

(** Rebuilding the children of a node, one after the other, from the front
    of [leaves]; [rebuild] rebuilds one child. *)
Definition unflatten_children
    (rebuild : TreeSpec → list leaf → option (pytree * list leaf))
    : list TreeSpec → list leaf → option (list pytree * list leaf) :=
  fix go (ss : list TreeSpec) (leaves : list leaf) :=
    match ss with
    | [] => Some ([], leaves)
    | s :: ss' =>
        match rebuild s leaves with
        | Some (t, rest) =>
            match go ss' rest with
            | Some (ts, rest') => Some (t :: ts, rest')
            | None => None
            end
        | None => None
        end
    end.

(** Rebuilding a tree of shape [spec] from the front of [leaves]; the
    leaves that are left over are returned too. *)
Fixpoint unflatten_from (spec : TreeSpec) (leaves : list leaf)
    : option (pytree * list leaf) :=
  match spec with
  | LeafSpec =>
      match leaves with
      | x :: rest => Some (Leaf x, rest)
      | [] => None
      end
  | NodeSpec c ss =>
      match unflatten_children unflatten_from ss leaves with
      | Some (ts, rest) => Some (Node c ts, rest)
      | None => None
      end
  end.

(** [tree_unflatten(leaves, spec)]: raises [ValueError] when the number
    of leaves is not the one of the shape. *)
Definition tree_unflatten (leaves : list leaf) (spec : TreeSpec)
    : result pytree :=
  if negb (length leaves =? num_leaves spec)%nat then Raise ValueError
  else match unflatten_from spec leaves with
       | Some (t, _) => Ok t
       | None => Raise ValueError
       end.

End PyTree.

(** ** [BaseWorker] *)

Module Worker.
Import PyTree.

(** The effects of the main loop, in the order they happen. *)
Inductive event : Type :=
  | CacheSet (slot : Z) (v : pytree)
  | ProgressPut (index counter : Z)
  | RemovePut (msg : option (list string))
  | CacheDone.

(** Modelled from the spec: the chunking cache [lightning.data.cache.Cache]
    is not among the sources; the specification describes it as an object
    that accepts [cache[index] = value] and is closed by [done()].  It is
    embedded as the finite map from slot to value, and the calls are
    logged in [trace]. *)
Record state := {
  cache : gmap Z pytree;
  _counter : Z;
  trace : list event;
}.

Definition init : state := {| cache := ∅; _counter := 0; trace := [] |}.

Definition emit (e : event) (st : state) : state :=
  {| cache := cache st; _counter := _counter st; trace := trace st ++ [e] |}.

(** [self._remove_queue], as the messages put on it so far. *)
Definition remove_queue (st : state) : list (option (list string)) :=
  omap (λ e, match e with RemovePut m => Some m | _ => None end) (trace st).

(** Whether [self.cache.done()] has been called. *)
Definition cache_done (st : state) : bool :=
  existsb (λ e, match e with CacheDone => true | _ => false end) (trace st).

(** The number of [None] messages in a sequence read from a queue. *)
Definition count_none {A} (msgs : list (option A)) : Z :=
  Py.len (filter (λ m, m = None) msgs).

Section worker.
Context `{Externals}.

(** The constructor arguments that the methods read. *)
Variables (index start_index node_rank : Z).
Variable prepare_item : option (pytree → pytree).
Variables (root remote_root : string).
Variable has_worker_queue : bool.
Variable num_downloaders : Z.
Variable remove : bool.

(** [_create_cache]: the directory of the worker's chunks and the
    directory [self.cache_dir] that receives the downloaded files. *)
Definition worker_cache_dir : string :=
  "/cache/" +:+ sha256_hexdigest root +:+ "/w_"
    +:+ pretty node_rank +:+ "_" +:+ pretty index.

Definition cache_dir : string :=
  "/cache/" +:+ sha256_hexdigest root +:+ "/data".

Definition _create_cache `{FileSystem Disk} (d : Disk) : Disk :=
  makedirs cache_dir (makedirs worker_cache_dir d).

(** *** [_collect_paths] *)

(** The dictionary comprehension: the positions and values of the string
    leaves that start with [self.root], in increasing position. *)
Fixpoint indexed_paths (pos : nat) (flattened_item : list leaf)
    : list (nat * string) :=
  match flattened_item with
  | [] => []
  | element :: rest =>
      match element with
      | LStr s =>
          if PyStr.startswith s root
          then (pos, s) :: indexed_paths (S pos) rest
          else indexed_paths (S pos) rest
      | _ => indexed_paths (S pos) rest
      end
  end.

(** The [for index, path in indexed_paths.items()] loop. *)
Fixpoint rewrite_paths (ip : list (nat * string))
    (flattened_item : list leaf) (paths : list string)
    : list leaf * list string :=
  match ip with
  | [] => (flattened_item, paths)
  | (pos, path_) :: rest =>
      let tmp_path := PyStr.replace path_ root cache_dir in
      rewrite_paths rest (<[pos := LStr tmp_path]> flattened_item)
        (paths ++ [path_])
  end.

(** The body of the loop over the items: the paths of the item and the
    item with its paths moved under the cache directory. *)
Definition collect_item (item : pytree) : result (list string * pytree) :=
  let '(flattened_item, spec) := tree_flatten item in
  let ip := indexed_paths 0 flattened_item in
  if (length ip =? 0)%nat then Raise ValueError
  else
    let '(flattened_item', paths) := rewrite_paths ip flattened_item [] in
    t ← tree_unflatten flattened_item' spec;
    Ok (paths, t).

(** The fields that [_collect_paths] writes. *)
Record collected := {
  _paths : list (list string);
  items : list pytree;
  _collected_items : Z;
}.

Fixpoint collect_loop (todo : list pytree) (acc : collected)
    : result collected :=
  match todo with
  | [] => Ok acc
  | item :: rest =>
      r ← collect_item item;
      collect_loop rest
        {| _paths := _paths acc ++ [r.1];
           items := items acc ++ [r.2];
           _collected_items := _collected_items acc + 1 |}
  end.

Definition _collect_paths (self_items : list pytree) : result collected :=
  collect_loop self_items
    {| _paths := []; items := []; _collected_items := 0 |}.

(** *** [_start_downloaders] *)

Abbreviation work_queue := (list (option (Z * list string))).

(** [for index, paths in enumerate(self._paths)]: the unit goes to the
    queue [index % num_downloaders]. *)
Fixpoint put_units (units : list (Z * list string)) (queues : list work_queue)
    : result (list work_queue) :=
  match units with
  | [] => Ok queues
  | u :: rest =>
      d ← Py.modulo u.1 num_downloaders;
      queues' ← Py.update queues d (λ q, q ++ [Some u]);
      put_units rest queues'
  end.

(** [for downloader_index in range(num_downloaders)]: one [None] each. *)
Fixpoint put_sentinels (ds : list Z) (queues : list work_queue)
    : result (list work_queue) :=
  match ds with
  | [] => Ok queues
  | d :: rest =>
      queues' ← Py.update queues d (λ q, q ++ [None]);
      put_sentinels rest queues'
  end.

(** The queues handed to the downloader processes, with their content
    once the method has returned. *)
Definition _start_downloaders (paths : list (list string))
    : result (list work_queue) :=
  let queues := replicate (Z.to_nat num_downloaders) [] in
  queues' ← put_units (Py.enumerate paths) queues;
  put_sentinels (Py.range num_downloaders) queues'.

(** *** The main loop of [run] *)

(** What the loop stores for an item: [prepare_item(item)], or the item
    itself without a [prepare_item]. *)
Definition prepared (item : pytree) : pytree :=
  match prepare_item with
  | Some f => f item
  | None => item
  end.

Section loop.
Variable c : collected.

(** The loop, run on the messages that arrive on
    [self._download_is_ready_queue]. *)
Fixpoint run_loop (ready : list (option Z)) (is_none : Z) (st : state)
    : outcome state :=
  match ready with
  | [] => Blocked st
  | None :: rest =>
      let is_none := is_none + 1 in
      if is_none =? num_downloaders
      then Returned (emit CacheDone (emit (RemovePut None) st))
      else run_loop rest is_none st
  | Some r :: rest =>
      match Py.index (items c) r with
      | Raise e => Raised e st
      | Ok item =>
          let v := match prepare_item with
                   | Some f => f item
                   | None => item
                   end in
          let st1 :=
            {| cache := <[r + start_index := v]> (cache st);
               _counter := _counter st + 1;
               trace := trace st ++ [CacheSet (r + start_index) v] |} in
          let st2 :=
            if has_worker_queue
            then emit (ProgressPut index (_counter st1)) st1 else st1 in
          if remove then
            match Py.index (_paths c) r with
            | Raise e => Raised e st2
            | Ok ps => run_loop rest is_none (emit (RemovePut (Some ps)) st2)
            end
          else run_loop rest is_none st2
      end
  end.
End loop.

(** *** Words of the specification *)

(** An item has a file path when one of its leaves is a string that starts
    with the root. *)
Definition has_root_path (item : pytree) : Prop :=
  ∃ s, LStr s ∈ (tree_flatten item).1 ∧ PyStr.startswith s root = true.

(** The string leaves that start with the root, from left to right, and
    the file paths of an item. *)
Fixpoint root_paths (flattened_item : list leaf) : list string :=
  match flattened_item with
  | [] => []
  | LStr s :: rest =>
      if PyStr.startswith s root then s :: root_paths rest else root_paths rest
  | _ :: rest => root_paths rest
  end.

Definition item_paths (item : pytree) : list string :=
  root_paths (tree_flatten item).1.

(** The work units that go to the downloader [d]. *)
Definition units_of (d : nat) (units : list (Z * list string))
    : list (Z * list string) :=
  filter (λ u, u.1 `mod` num_downloaders = Z.of_nat d) units.

(** The indices among the messages of the ready queue. *)
Definition indices (ready : list (option Z)) : list Z := omap id ready.

(** An index that the downloaders can report: a position of the items. *)
Definition in_range (c : collected) (r : Z) : Prop :=
  0 ≤ r < Py.len (items c).

(** One pass of the loop for an index in range, and the passes for a
    sequence of indices. *)
Definition pass (c : collected) (st : state) (r : Z) : state :=
  let v := prepared (default (Leaf LNone) (items c !! Z.to_nat r)) in
  let st1 :=
    {| cache := <[r + start_index := v]> (cache st);
       _counter := _counter st + 1;
       trace := trace st ++ [CacheSet (r + start_index) v] |} in
  let st2 :=
    if has_worker_queue
    then emit (ProgressPut index (_counter st1)) st1 else st1 in
  if remove
  then emit (RemovePut (Some (default [] (_paths c !! Z.to_nat r)))) st2
  else st2.

Definition passes (c : collected) (rs : list Z) (st : state) : state :=
  foldl (pass c) st rs.


(** [run]: the set-up calls, then the loop.  [_create_cache] makes the two
    directories and the empty cache of [init]; [_start_downloaders] fills
    the queues of the downloader processes, each of which runs
    [Downloader._download_data_target]; [_start_remover] starts the
    process that runs [Remover._remove_target] on the remove queue.
    [ready] is the sequence of messages that the downloaders put on the
    ready queue. *)
Definition run (self_items : list pytree) (ready : list (option Z))
    : outcome state :=
  let st := init in
  match _collect_paths self_items with
  | Raise e => Raised e st
  | Ok c =>
      match _start_downloaders (_paths c) with
      | Raise e => Raised e st
      | Ok _ => run_loop c ready 0 st
      end
  end.

End worker.
End Worker.

(** ** [DataProcessor._cached_list_filepaths] *)

Module Listing.

Record state (Disk : Type) := {
  fs : Disk;
  walked : list string;
}.
Arguments fs {Disk} _.
Arguments walked {Disk} _.

Section listing.
Context `{Externals} `{TextCodec} `{FileSystem Disk}.

Definition LFs : string := String PyStr.LF EmptyString.

Definition filepaths_txt (root : string) : string :=
  "/cache/" +:+ sha256_hexdigest root +:+ "/filepaths.txt".


(** The two nested loops over [os.walk(root)]. *)
Fixpoint walk_filepaths (w : list (string * list string)) : list string :=
  match w with
  | [] => []
  | (dirpath, filenames) :: rest =>
      map (PyStr.path_join dirpath) filenames ++ walk_filepaths rest
  end.

(** The [for filepath in filepaths: f.write(f"{filepath}\n")] loop;
    [text] is what the earlier writes have put in the file.  A line that
    cannot be encoded makes [f.write] raise, and nothing of the line is
    written. *)
Fixpoint write_lines (filepaths : list string) (text : string)
    : string * option exn :=
  match filepaths with
  | [] => (text, None)
  | filepath :: rest =>
      let line := filepath +:+ LFs in
      if file_encodable line then write_lines rest (text +:+ line)
      else (text, Some UnicodeEncodeError)
  end.

(** The method returns a list or raises, and leaves a state; [walked]
    logs the calls of [os.walk].  The [with] block closes the file, with
    the lines written so far, also when the loop raises. *)
Definition _cached_list_filepaths (root : string) (st : state Disk)
    : result (list string) * state Disk :=
  if negb (utf8_encodable root) then (Raise UnicodeEncodeError, st)
  else
    let filepath := filepaths_txt root in
    if path_exists (fs st) filepath then
      let text := PyStr.universal_newlines (read_file (fs st) filepath) in
      (Ok (map (λ line, PyStr.replace line LFs "") (PyStr.readlines text)), st)
    else
      let filepaths := walk_filepaths (os_walk (fs st) root) in
      let fs1 := makedirs (PyStr.dirname filepath) (fs st) in
      let '(text, e) := write_lines filepaths EmptyString in
      let fs2 := write_file filepath text fs1 in
      let st1 := {| fs := fs2; walked := walked st ++ [root] |} in
      (match e with
       | Some e => Raise e
       | None => Ok filepaths
       end, st1).

End listing.
End Listing.

(** ** [DataProcessor.run]: starting the workers and following them *)

Module Coordinator.

(** What [setup] may return: the code takes [len] and slices of it, which
    a list and a one-dimensional numpy array both have, and calls
    [tolist()] on the slices, which only the slices of an array have. *)
Inductive seq_kind : Type :=
  | PyList
  | NdArray.

Inductive spawn_exn : Type :=
  | AttributeError
  | Other (e : exn).

(** The constructor arguments of a worker that differ between workers or
    come from the configuration. *)
Record worker_args (A : Type) : Type := {
  w_index : Z;
  w_start_index : Z;
  w_node_rank : Z;
  w_items : list A;
  w_num_downloaders : Z;
  w_remove : bool;
}.
Arguments w_index {A} _.
Arguments w_start_index {A} _.
Arguments w_node_rank {A} _.
Arguments w_items {A} _.
Arguments w_num_downloaders {A} _.
Arguments w_remove {A} _.

Section create.
Context {A : Type}.
Variable kind : seq_kind.
Variables (num_workers num_nodes node_rank num_downloaders : Z).
Variable delete_cached_files : bool.

(** [worker_user_items.tolist()] *)
Definition tolist (l : list A) : option (list A) :=
  match kind with
  | NdArray => Some l
  | PyList => None
  end.

(** The loop of [_create_process_workers]; the accumulator is
    [self.workers], the workers started so far. *)
Fixpoint create_loop (begins : list Z) (todo : list (Z * list A))
    (workers : list (worker_args A))
    : list (worker_args A) * option spawn_exn :=
  match todo with
  | [] => (workers, None)
  | (worker_idx, worker_user_items) :: rest =>
      match Py.index begins worker_idx with
      | Raise e => (workers, Some (Other e))
      | Ok start_index =>
          match tolist worker_user_items with
          | None => (workers, Some AttributeError)
          | Some items =>
              create_loop begins rest
                (workers ++ [{| w_index := worker_idx;
                                w_start_index := start_index;
                                w_node_rank := node_rank;
                                w_items := items;
                                w_num_downloaders := num_downloaders;
                                w_remove := delete_cached_files |}])
          end
      end
  end.

Definition _create_process_workers (begins : list Z)
    (workers_user_items : list (list A))
    : list (worker_args A) * option spawn_exn :=
  create_loop begins (Py.enumerate workers_user_items) [].

(** The part of [run] from the partition to the started workers, in
    process mode. *)
Definition start_workers (user_items : list A)
    : list (worker_args A) * option spawn_exn :=
  match Partition.run_unpack num_workers num_nodes node_rank user_items with
  | Raise e => ([], Some (Other e))
  | Ok (begins, workers_user_items) =>
      _create_process_workers begins workers_user_items
  end.

(** The worker that the loop starts for the block at position [i]. *)
Definition started (begins : list Z) (i : nat) (block : list A)
    : worker_args A :=
  {| w_index := Z.of_nat i;
     w_start_index := default 0 (begins !! i);
     w_node_rank := node_rank;
     w_items := block;
     w_num_downloaders := num_downloaders;
     w_remove := delete_cached_files |}.

(** [sum([len(items) for items in workers_user_items])] *)
Definition num_items (workers_user_items : list (list A)) : Z :=
  foldr Z.add 0 (Py.len <$> workers_user_items).

End create.

(** The state of the progress loop of the process mode: the dictionary
    [self.workers_tracker], [current_total], and the arguments of the
    calls of [pbar.update]. *)
Record progress : Type := {
  workers_tracker : gmap Z Z;
  current_total : Z;
  pbar : list Z;
}.

Definition start : progress :=
  {| workers_tracker := ∅; current_total := 0; pbar := [] |}.

(** [sum(self.workers_tracker.values())] *)
Definition tracker_total (m : gmap Z Z) : Z :=
  map_fold (λ _ v acc, v + acc) 0 m.

(** The [while True] loop, run on the messages [(index, counter)] that
    arrive on [self.worker_queue]. *)
Fixpoint progress_loop (num_items : Z) (msgs : list (Z * Z)) (st : progress)
    : outcome progress :=
  match msgs with
  | [] => Blocked st
  | (index, counter) :: rest =>
      let tracker := <[index := counter]> (workers_tracker st) in
      let new_total := tracker_total tracker in
      let st' :=
        {| workers_tracker := tracker;
           current_total := new_total;
           pbar := pbar st ++ [new_total - current_total st] |} in
      if new_total =? num_items then Returned st'
      else progress_loop num_items rest st'
  end.

(** Messages as the workers send them: the first message of a worker
    carries the counter 1 and each later one the next number.  [seen] maps
    a worker to the last counter it sent. *)
Fixpoint in_sequence (seen : gmap Z Z) (msgs : list (Z * Z)) : Prop :=
  match msgs with
  | [] => True
  | (index, counter) :: rest =>
      counter = default 0 (seen !! index) + 1
      ∧ in_sequence (<[index := counter]> seen) rest
  end.

End Coordinator.

(** ** Words for the properties of the worker *)

Module Observe.
Import PyTree Worker.

(** What [_collect_paths] does to a leaf: a string that starts with the
    root is moved under the cache directory. *)
Definition relocate (root cache_dir : string) (e : leaf) : leaf :=
  match e with
  | LStr s =>
      if PyStr.startswith s root then LStr (PyStr.replace s root cache_dir)
      else e
  | _ => e
  end.

(** The messages put on [self._worker_queue] so far. *)
Definition progress_queue (st : state) : list (Z * Z) :=
  omap (λ e, match e with ProgressPut i c => Some (i, c) | _ => None end)
    (trace st).

(** The messages [(index, c + 1)], ..., [(index, c + n)]. *)
Definition counters (index c : Z) (n : nat) : list (Z * Z) :=
  (λ k, (index, c + Z.of_nat k)) <$> seq 1 n.

(** The cache locations of a list of paths. *)
Definition targets (root cache_dir : string) (paths : list string)
    : list string :=
  (λ p, PyStr.replace p root cache_dir) <$> paths.

End Observe.

(** ** Several writers on one queue *)

Module Schedule.

(** [interleaved streams l]: the queue content [l] is made of the messages
    of the writers, every writer's messages in the order it put them. *)
Inductive interleaved {A : Type} : list (list A) → list A → Prop :=
  | interleaved_nil streams :
      Forall (λ s, s = []) streams → interleaved streams []
  | interleaved_cons streams d x s l :
      streams !! d = Some (x :: s) →
      interleaved (<[d := s]> streams) l →
      interleaved streams (x :: l).

End Schedule.

(** ** An in-memory world to run the model on *)

Module Sim.

(** A disk as the content of its files; a directory is an entry with
    empty content.  What [os.walk] yields is fixed by [listing]. *)
Record disk := {
  files : gmap string string;
  listing : list (string * list string);
}.

#[export] Instance disk_fs : FileSystem disk := {|
  path_exists d p := bool_decide (is_Some (files d !! p));
  read_file d p := default EmptyString (files d !! p);
  write_file p c d := {| files := <[p := c]> (files d); listing := listing d |};
  makedirs p d :=
    match files d !! p with
    | Some _ => d
    | None => {| files := <[p := EmptyString]> (files d); listing := listing d |}
    end;
  os_remove p d := {| files := delete p (files d); listing := listing d |};
  os_walk d _ := listing d;
|}.

Definition empty_disk : disk := {| files := ∅; listing := [] |}.

(** The part of an URL before the first colon, and the rest. *)
Fixpoint split_colon (s : string) : option (string * string) :=
  match s with
  | EmptyString => None
  | String c rest =>
      if bool_decide (c = ":"%char) then Some (EmptyString, rest)
      else match split_colon rest with
           | Some (a, b) => Some (String c a, b)
           | None => None
           end
  end.

(** The part of a string before the first slash, and the rest with its
    slash. *)
Fixpoint split_slash (s : string) : string * string :=
  match s with
  | EmptyString => (EmptyString, EmptyString)
  | String c rest =>
      if bool_decide (c = "/"%char) then (EmptyString, s)
      else let '(a, b) := split_slash rest in (String c a, b)
  end.

(** A parser for URLs of the form [scheme://netloc/path]; a string
    without a colon has the empty scheme. *)
Definition simple_urlparse (url : string) : ParseResult :=
  match split_colon url with
  | Some (sch, String "/" (String "/" rest)) =>
      let '(nl, p) := split_slash rest in
      {| scheme := sch; netloc := nl; path := p |}
  | Some (sch, rest) => {| scheme := sch; netloc := EmptyString; path := rest |}
  | None => {| scheme := EmptyString; netloc := EmptyString; path := url |}
  end.

(** The digest is replaced by a fixed string and every object by a fixed
    content. *)
#[export] Instance externals : Externals := {|
  sha256_hexdigest _ := "0f";
  urlparse := simple_urlparse;
  s3_object _ _ := "data";
|}.

(** The byte 255 stands for a lone surrogate: it occurs in no valid UTF-8
    text, so that [os.walk] yields [U+DCFF] for it. *)
#[export] Instance codec : TextCodec := {|
  utf8_encodable s := negb (PyStr.has_char "255"%char s);
  file_encodable s := negb (PyStr.has_char "255"%char s);
|}.

(** A disk that holds the given files, each with the content "x". *)
Definition disk_with (paths : list string) : disk :=
  {| files := list_to_map ((λ p, (p, "x"%string)) <$> paths); listing := [] |}.

(** A disk without files on which [os.walk] finds the given files. *)
Definition disk_listing (l : list (string * list string)) : disk :=
  {| files := ∅; listing := l |}.

Definition listing_on (d : disk) : Listing.state disk :=
  {| Listing.fs := d; Listing.walked := [] |}.

Definition remover_on (d : disk) : Remover.state disk :=
  {| Remover.fs := d; Remover.removed := [] |}.

(** Two items under the root [/r]: a list with two paths and a number,
    and a single path; and what [_collect_paths] makes of them. *)
Definition sample_items : list PyTree.pytree :=
  [PyTree.Node PyTree.CList
     [PyTree.Leaf (PyTree.LStr "/r/a"); PyTree.Leaf (PyTree.LInt 7);
      PyTree.Leaf (PyTree.LStr "/r/b")];
   PyTree.Leaf (PyTree.LStr "/r/c")].

Definition sample_collected : Worker.collected :=
  {| Worker._paths := [["/r/a"; "/r/b"]; ["/r/c"]]%string;
     Worker.items :=
       [PyTree.Node PyTree.CList
          [PyTree.Leaf (PyTree.LStr "/cache/0f/data/a");
           PyTree.Leaf (PyTree.LInt 7);
           PyTree.Leaf (PyTree.LStr "/cache/0f/data/b")];
        PyTree.Leaf (PyTree.LStr "/cache/0f/data/c")];
     Worker._collected_items := 2 |}.

Definition downloader_on (d : disk) : Downloader.state disk :=
  {| Downloader.fs := d; Downloader.downloads := [];
     Downloader.queue_out := [] |}.

End Sim.

(** * Properties *)

(** ** The in-memory disk is a file system *)

Module SimFacts.
Import Sim.

#[export] Instance disk_laws : FileSystemLaws disk.
Proof.
  split; unfold path_exists, read_file, write_file, makedirs, os_remove; simpl.
  - intros p c d. by rewrite lookup_insert_eq.
  - intros p c d q Hq. apply bool_decide_eq_true in Hq.
    apply bool_decide_eq_true. rewrite lookup_insert.
    by destruct (decide (p = q)).
  - intros p c d. by rewrite lookup_insert_eq.
  - intros p d q Hq. destruct (files d !! p) eqn:E; [done|]. simpl.
    apply bool_decide_eq_true in Hq. apply bool_decide_eq_true.
    rewrite lookup_insert. by destruct (decide (p = q)).
  - intros p d. apply bool_decide_eq_false. rewrite lookup_delete_eq.
    by intros [? ?].
  - intros p q d Hne. by rewrite lookup_delete_ne.
Qed.

Lemma sample_collect :
  Worker._collect_paths (H := externals) "/r" sample_items = Ok sample_collected.
Proof. reflexivity. Qed.

End SimFacts.

(** ** The partition of the items *)

Module PartitionFacts.
Import Partition.

Section facts.
Context {A : Type}.
Implicit Types (items : list A) (nw nn rank : Z).

Lemma worker_loop_map nw items node_len ws idxs acc :
  worker_loop nw items node_len ws idxs acc =
    (acc.1 ++ map (λ w, w * ws) idxs,
     acc.2 ++ map (λ w, Py.slice items (w * ws)
                          (if w =? nw - 1 then node_len else (w + 1) * ws)) idxs).
Proof.
  revert acc. induction idxs as [|w idxs IH]; intros [bs ps]; simpl.
  - by rewrite !app_nil_r.
  - rewrite IH. simpl. by rewrite <- !app_assoc.
Qed.

Lemma node_loop_skip nw nn rank items node_size ranks :
  rank ∉ ranks → node_loop nw nn rank items node_size ranks = Ok None.
Proof.
  induction ranks as [|r ranks IH]; intros Hnotin; simpl; [done|].
  apply not_elem_of_cons in Hnotin as [Hne Hnotin].
  destruct (Z.eqb_spec r rank); [done|]. simpl. by apply IH.
Qed.

Lemma node_loop_some nw nn rank items node_size ranks p :
  node_loop nw nn rank items node_size ranks = Ok (Some p) → rank ∈ ranks.
Proof.
  induction ranks as [|r ranks IH]; simpl; [done|].
  destruct (r =? rank) eqn:E; simpl.
  - intros _. apply Z.eqb_eq in E as ->. left.
  - intros Hp. right. by apply IH.
Qed.

Lemma node_loop_hit nw nn rank items node_size ranks :
  NoDup ranks → rank ∈ ranks →
  node_loop nw nn rank items node_size ranks =
    (r ← node_body nw nn items node_size rank; Ok (Some r)).
Proof.
  induction ranks as [|r ranks IH]; intros Hnd Hin; [by inversion Hin|].
  simpl. destruct (r =? rank) eqn:E; simpl.
  - by apply Z.eqb_eq in E as ->.
  - apply NoDup_cons in Hnd as [_ Hnd].
    apply Z.eqb_neq in E.
    apply elem_of_cons in Hin as [->|Hin]; [done|]. by apply IH.
Qed.

Lemma elem_of_range n i : i ∈ Py.range n ↔ 0 ≤ i < n.
Proof.
  unfold Py.range. rewrite list_elem_of_fmap. split.
  - intros (k & -> & Hk). apply elem_of_seq in Hk. lia.
  - intros Hi. exists (Z.to_nat i). split; [lia|]. apply elem_of_seq. lia.
Qed.

Lemma NoDup_range n : NoDup (Py.range n).
Proof.
  unfold Py.range. apply NoDup_fmap; [|apply NoDup_seq].
  intros x y. lia.
Qed.

Lemma slice_full items : Py.slice items 0 (Py.len items) = items.
Proof.
  unfold Py.slice, Py.clamp, Py.len.
  change (0 <? 0) with false. cbv iota.
  destruct (Z.ltb_spec (Z.of_nat (length items)) 0); [lia|].
  replace (Z.to_nat (Z.min 0 _)) with 0%nat by lia.
  replace (Z.to_nat _) with (length items) by lia.
  rewrite drop_0. apply firstn_all.
Qed.

(** With one node, the method returns the contiguous blocks of
    [len // num_workers] items, the last block running to the end. *)
Lemma assoc_single_node nw items :
  nw ≠ 0 →
  _associated_items_to_workers nw 1 0 items =
    let ws := Py.len items / nw in
    Ok (Some (map (λ w, w * ws) (Py.range nw),
              map (λ w, Py.slice items (w * ws)
                          (if w =? nw - 1 then Py.len items else (w + 1) * ws))
                  (Py.range nw))).
Proof.
  intros Hnw. unfold _associated_items_to_workers, Py.floordiv. simpl.
  unfold node_body. simpl. rewrite Z.div_1_r.
  change (Z.of_nat 0 * Py.len items) with 0. rewrite slice_full.
  unfold Py.floordiv. destruct (Z.eqb_spec nw 0); [lia|]. simpl.
  by rewrite worker_loop_map.
Qed.

Lemma slice_nonneg items a b :
  0 ≤ a ≤ b → b ≤ Py.len items →
  Py.slice items a b = take (Z.to_nat (b - a)) (drop (Z.to_nat a) items).
Proof.
  intros Hab Hb. unfold Py.slice, Py.clamp.
  destruct (Z.ltb_spec a 0); [lia|]. destruct (Z.ltb_spec b 0); [lia|].
  by rewrite !Z.min_l by lia.
Qed.

Lemma slice_app items a b c :
  0 ≤ a ≤ b → b ≤ c → c ≤ Py.len items →
  Py.slice items a b ++ Py.slice items b c = Py.slice items a c.
Proof.
  intros Hab Hbc Hc. rewrite !slice_nonneg by lia.
  replace (Z.to_nat b) with (Z.to_nat a + Z.to_nat (b - a))%nat by lia.
  rewrite <- drop_drop, take_take_drop. f_equal. lia.
Qed.

Lemma len_slice_le items a b : Py.len (Py.slice items a b) ≤ Py.len items.
Proof.
  unfold Py.slice, Py.len. rewrite length_take, length_drop. lia.
Qed.

Lemma range_succ k : 0 ≤ k → Py.range (k + 1) = Py.range k ++ [k].
Proof.
  intros Hk. unfold Py.range.
  replace (Z.to_nat (k + 1)) with (S (Z.to_nat k)) by lia.
  rewrite seq_S, fmap_app. simpl. do 3 f_equal. lia.
Qed.

(** The blocks before the last one, put end to end. *)
Lemma concat_inner_blocks items n nw ws (k : nat) :
  0 ≤ ws → Z.of_nat k * ws ≤ n → n ≤ Py.len items → Z.of_nat k ≤ nw - 1 →
  concat (map (λ w, Py.slice items (w * ws)
                      (if w =? nw - 1 then n else (w + 1) * ws))
              (Py.range (Z.of_nat k)))
  = Py.slice items 0 (Z.of_nat k * ws).
Proof.
  intros Hws. induction k as [|k IH]; intros Hk Hn Hnw.
  - simpl. rewrite slice_nonneg by lia. done.
  - replace (Z.of_nat (S k)) with (Z.of_nat k + 1) in * by lia.
    rewrite range_succ, map_app, concat_app by lia. simpl.
    rewrite IH by nia. rewrite app_nil_r.
    destruct (Z.eqb_spec (Z.of_nat k) (nw - 1)); [lia|].
    apply slice_app; nia.
Qed.

Lemma concat_blocks items n nw :
  1 ≤ nw → 0 ≤ n ≤ Py.len items →
  concat (map (λ w, Py.slice items (w * (n / nw))
                      (if w =? nw - 1 then n else (w + 1) * (n / nw)))
              (Py.range nw))
  = Py.slice items 0 n.
Proof.
  intros Hnw Hn.
  assert (0 ≤ n / nw) as Hws by (apply Z.div_pos; lia).
  assert ((nw - 1) * (n / nw) ≤ n) as Hlast.
  { pose proof (Z.mul_div_le n nw). nia. }
  assert (Py.range nw = Py.range (nw - 1) ++ [nw - 1]) as ->.
  { rewrite <- range_succ by lia. f_equal. lia. }
  rewrite map_app, concat_app. simpl.
  rewrite Z.eqb_refl, app_nil_r.
  pose proof (concat_inner_blocks items n nw (n / nw) (Z.to_nat (nw - 1))) as H.
  rewrite !Z2Nat.id in H by lia. rewrite H by lia.
  apply slice_app; nia.
Qed.

(** With a valid rank and at least one worker the method returns a pair,
    and its blocks put end to end are the first items of the list, as
    many as the node owns. *)
Lemma assoc_valid nw nn rank items :
  1 ≤ nw → 0 ≤ rank < nn →
  ∃ begins parts,
    _associated_items_to_workers nw nn rank items = Ok (Some (begins, parts))
    ∧ concat parts = Py.slice items 0 (Py.len (node_slice nn items rank)).
Proof.
  intros Hnw Hrank. unfold _associated_items_to_workers, Py.floordiv.
  destruct (Z.eqb_spec nn 0); [lia|]. simpl.
  rewrite node_loop_hit by (apply NoDup_range || by apply elem_of_range).
  unfold node_body, Py.floordiv. destruct (Z.eqb_spec nw 0); [lia|]. simpl.
  rewrite worker_loop_map. simpl. eexists _, _. split; [done|].
  unfold node_slice. apply concat_blocks; [done|]. split.
  - unfold Py.len. lia.
  - apply len_slice_le.
Qed.

End facts.
End PartitionFacts.

(** C1.  The blocks are cut out of the whole item list and not out of the
    node's slice: with two nodes, one worker and the items [0, 1, 2, 3],
    the node of rank 1 owns the slice [2, 3], and the method gives its
    worker the block [0, 1].  The claim (the blocks of a node put end to
    end are that node's slice) fails there. *)
Theorem C1_second_node_gets_first_items :
Partition.node_slice 2 [0; 1; 2; 3] 1 = [2; 3]
∧ Partition._associated_items_to_workers 1 2 1 [0; 1; 2; 3]
= Ok (Some ([0], [[0; 1]])).
Proof. split; reflexivity. Qed.

(** C2, as the claim states it: the result for two workers and the items
    [0 .. 4] is not the interleaved [[0, 2, 4], [1, 3]]. *)
Lemma C2_not_interleaved :
¬ ∃ begins,
  Partition._associated_items_to_workers 2 1 0 [0; 1; 2; 3; 4]
  = Ok (Some (begins, [[0; 2; 4]; [1; 3]])).
Proof. intros [begins Heq]. vm_compute in Heq. congruence. Qed.

(** C2, amended.  With one node, two workers and the items [0 .. 4] the
    method returns the begins [0, 2] and the blocks [[0, 1], [2, 3, 4]];
    in general worker [w] gets the contiguous block
    [items[w*s : (w+1)*s]] with [s = len(items) // num_workers], and the
    block of the last worker runs to the end of the list. *)
Theorem C2_contiguous_blocks :
Partition._associated_items_to_workers 2 1 0 [0; 1; 2; 3; 4]
= Ok (Some ([0; 2], [[0; 1]; [2; 3; 4]]))
∧ ∀ (A : Type) (num_workers : Z) (user_items : list A),
  1 ≤ num_workers →
  Partition._associated_items_to_workers num_workers 1 0 user_items =
    let s := Py.len user_items / num_workers in
    Ok (Some
      (map (λ w, w * s) (Py.range num_workers),
       map (λ w, Py.slice user_items (w * s)
                   (if w =? num_workers - 1 then Py.len user_items
                    else (w + 1) * s))
           (Py.range num_workers))).
Proof.
split; [reflexivity|].
intros A nw items Hnw. apply PartitionFacts.assoc_single_node. lia.
Qed.

Lemma C2_contiguous_blocks_witness :
1 ≤ 3 ∧
Partition._associated_items_to_workers 3 1 0 [10; 11; 12; 13; 14; 15; 16]
= Ok (Some ([0; 2; 4], [[10; 11]; [12; 13]; [14; 15; 16]])).
Proof.
split; [lia|].
rewrite (proj2 C2_contiguous_blocks Z 3 [10; 11; 12; 13; 14; 15; 16]) by lia.
reflexivity.
Defined.

(** C10, as the claim states it: with NUM_NODES = 0 and NODE_RANK = 0 the
    rank is not below the number of nodes, and the method does not return
    [None]: the division [len(user_items) // num_nodes] raises. *)
Lemma C10_zero_nodes_raises :
0 >= 0
∧ Partition._associated_items_to_workers 1 0 0 [0; 1; 2; 3] ≠ Ok None
∧ Partition._associated_items_to_workers 1 0 0 [0; 1; 2; 3]
= Raise ZeroDivisionError.
Proof. split; [lia|]. split; [discriminate|reflexivity]. Qed.

(** C10, amended.  When NUM_NODES is not 0 and NODE_RANK >= NUM_NODES, no
    pass of the loop produces a partition: the method returns [None], and
    [DataProcessor.run] fails when it unpacks the result.  A pair is
    produced only when [0 <= NODE_RANK < NUM_NODES]. *)
Theorem C10_rank_out_of_range {A : Type}
(num_workers num_nodes node_rank : Z) (user_items : list A) :
num_nodes ≠ 0 →
(node_rank >= num_nodes →
 Partition._associated_items_to_workers num_workers num_nodes node_rank
   user_items = Ok None
 ∧ Partition.run_unpack num_workers num_nodes node_rank user_items
   = Raise TypeError)
∧ (∀ p, Partition._associated_items_to_workers num_workers num_nodes
        node_rank user_items = Ok (Some p) →
      0 ≤ node_rank < num_nodes).
Proof.
intros Hnn. split.
- intros Hge.
assert (Partition._associated_items_to_workers num_workers num_nodes
          node_rank user_items = Ok None) as Hnone.
{ unfold Partition._associated_items_to_workers, Py.floordiv.
  destruct (Z.eqb_spec num_nodes 0); [done|]. simpl.
  apply PartitionFacts.node_loop_skip.
  rewrite PartitionFacts.elem_of_range. lia. }
split; [done|]. unfold Partition.run_unpack. by rewrite Hnone.
- intros p. unfold Partition._associated_items_to_workers, Py.floordiv.
destruct (Z.eqb_spec num_nodes 0); [done|]. simpl.
intros Hp%PartitionFacts.node_loop_some.
by apply PartitionFacts.elem_of_range in Hp.
Qed.

Lemma C10_rank_out_of_range_witness :
2 ≠ 0 ∧ 2 >= 2
∧ Partition._associated_items_to_workers 1 2 2 [0; 1; 2; 3] = Ok None
∧ Partition.run_unpack 1 2 2 [0; 1; 2; 3] = Raise TypeError.
Proof.
split; [lia|]. split; [lia|].
apply (C10_rank_out_of_range 1 2 2 [0; 1; 2; 3]); lia.
Defined.

(** ** The downloader *)

Module DownloaderFacts.
Import Downloader.

Section facts.
Context `{Externals} `{FileSystem Disk}.
Variables (root remote_root cache_dir : string).

Abbreviation remote p := (PyStr.replace p root remote_root).
Abbreviation target p := (PyStr.replace p root cache_dir).
Abbreviation download_paths := (download_paths root remote_root cache_dir).
Abbreviation request_of := (request_of root remote_root cache_dir).
Abbreviation is_s3 := (is_s3 root remote_root).

Lemma download_paths_queue_out paths (st : state Disk) :
  queue_out (download_paths paths st).1 = queue_out st.
Proof.
  revert st. induction paths as [|p paths IH]; intros st; simpl; [done|].
  destruct (String.eqb _ _); simpl; [|done]. by rewrite IH.
Qed.

Lemma download_paths_raises paths (st : state Disk) :
  (∃ p, p ∈ paths ∧ ¬ is_s3 p) →
  (download_paths paths st).2 = Some ValueError.
Proof.
  revert st. induction paths as [|p paths IH]; intros st (q & Hq & Hbad).
  - by inversion Hq.
  - simpl. destruct (String.eqb_spec (scheme (urlparse (remote p))) "s3") as [Hs|Hs];
      simpl; [|done].
    apply elem_of_cons in Hq as [->|Hq]; [done|]. apply IH. eauto.
Qed.

Lemma download_paths_only_value_error paths (st : state Disk) e :
  (download_paths paths st).2 = Some e → e = ValueError.
Proof.
  revert st. induction paths as [|p paths IH]; intros st; simpl; [done|].
  destruct (String.eqb _ _); simpl; [apply IH|congruence].
Qed.

Lemma download_paths_s3 paths (st : state Disk) :
  (∀ p, p ∈ paths → is_s3 p) →
  (download_paths paths st).2 = None
  ∧ downloads (download_paths paths st).1
    = downloads st ++ map request_of paths.
Proof.
  revert st. induction paths as [|p paths IH]; intros st Hall; simpl.
  - by rewrite app_nil_r.
  - assert (is_s3 p) as Hp by (apply Hall; left). unfold is_s3 in Hp.
    rewrite Hp. simpl.
    match goal with
    | |- context [download_paths paths ?st0] =>
        destruct (IH st0) as [IH1 IH2]; [intros q Hq; apply Hall; by right|]
    end.
    split; [exact IH1|]. rewrite IH2. simpl. by rewrite <- app_assoc.
Qed.

Lemma all_downloaded_true paths (st : state Disk) :
  all_downloaded root cache_dir paths st = true
  ↔ ∀ p, p ∈ paths → path_exists (fs st) (target p) = true.
Proof.
  unfold all_downloaded. rewrite forallb_forall. split.
  - intros Hall p Hp. apply Hall. by apply list_elem_of_In.
  - intros Hall p Hp. apply Hall. by apply list_elem_of_In.
Qed.

(** After the loop every target exists; nothing that existed is lost. *)
Lemma download_paths_exists `{!FileSystemLaws Disk} paths (st : state Disk) :
  (∀ p, p ∈ paths → is_s3 p) →
  ∀ q, (path_exists (fs st) q = true ∨ ∃ p, p ∈ paths ∧ q = target p) →
       path_exists (fs (download_paths paths st).1) q = true.
Proof.
  revert st. induction paths as [|p paths IH]; intros st Hall q Hq; simpl.
  - destruct Hq as [Hq|(p & Hp & _)]; [done|by inversion Hp].
  - assert (is_s3 p) as Hp by (apply Hall; left). unfold is_s3 in Hp.
    rewrite Hp. simpl. apply IH; [intros; apply Hall; by right|]. simpl.
    destruct Hq as [Hq|(p' & Hp' & ->)].
    + left. by apply exists_write_file_mono, exists_makedirs_mono.
    + apply elem_of_cons in Hp' as [->|Hp'].
      * left. apply exists_write_file.
      * right. eauto.
Qed.

Abbreviation _download_data_target :=
  (_download_data_target root remote_root cache_dir).


(** On a queue that ends with the sentinel and holds units with [s3]
    paths only, the downloader reports every unit and returns. *)
Lemma downloader_returns units rest (st : state Disk) :
  (∀ u p, u ∈ units → p ∈ u.2 → is_s3 p) →
  ∃ st',
    _download_data_target ((Some <$> units) ++ None :: rest) st = Returned st'
    ∧ queue_out st' = queue_out st ++ (Some <$> units.*1) ++ [None].
Proof.
  revert st. induction units as [|[index paths] units IH]; intros st Hs3.
  - exists (put None st). done.
  - simpl. destruct (all_downloaded root cache_dir paths st).
    + destruct (IH (put (Some index) st)) as (st' & Hrun & Hq).
      { intros u p Hu. apply Hs3. by right. }
      exists st'. split; [exact Hrun|]. rewrite Hq. simpl. by rewrite <- app_assoc.
    + pose proof (download_paths_queue_out paths st) as Hq1.
      destruct (download_paths_s3 paths st) as [Hnone _].
      { intros p Hp. apply (Hs3 (index, paths)); [left|done]. }
      destruct (download_paths paths st) as [st1 e]. simpl in *. subst e.
      destruct (IH (put (Some index) st1)) as (st' & Hrun & Hq).
      { intros u p Hu. apply Hs3. by right. }
      exists st'. split; [exact Hrun|]. rewrite Hq. simpl.
      by rewrite Hq1, <- app_assoc.
Qed.

End facts.
End DownloaderFacts.

(** C7.  When the cache location of every path of a work unit exists, the
    downloader that reads the unit puts its index on the ready queue at
    once and waits for the next message: no download is issued and the
    disk is untouched.  Whatever follows the unit is handled from that
    state; a sentinel that follows it makes the downloader forward the
    sentinel and return. *)
Theorem C7_already_downloaded `{Externals} `{FileSystem Disk}
    (root remote_root cache_dir : string) (index : Z) (paths : list string)
    (rest : list (option (Z * list string))) (st : Downloader.state Disk) :
  (∀ p, p ∈ paths →
      path_exists (Downloader.fs st) (PyStr.replace p root cache_dir) = true) →
  ∃ st',
    Downloader._download_data_target root remote_root cache_dir
      [Some (index, paths)] st = Blocked st'
    ∧ Downloader.queue_out st' = Downloader.queue_out st ++ [Some index]
    ∧ Downloader.downloads st' = Downloader.downloads st
    ∧ Downloader.fs st' = Downloader.fs st
    ∧ Downloader._download_data_target root remote_root cache_dir
        (Some (index, paths) :: rest) st
      = Downloader._download_data_target root remote_root cache_dir rest st'
    ∧ ∃ st'',
        Downloader._download_data_target root remote_root cache_dir
          (Some (index, paths) :: None :: rest) st = Returned st''
        ∧ Downloader.queue_out st''
          = Downloader.queue_out st ++ [Some index; None]
        ∧ Downloader.downloads st'' = Downloader.downloads st
        ∧ Downloader.fs st'' = Downloader.fs st.
Proof.
  intros Hall. exists (Downloader.put (Some index) st). simpl.
  apply DownloaderFacts.all_downloaded_true in Hall. rewrite Hall.
  split; [done|]. split; [done|]. split; [done|]. split; [done|].
  split; [done|]. eexists. split; [done|]. simpl.
  by rewrite <- app_assoc.
Qed.

(** C5.  For a work unit whose files are not all in the cache: if the
    remote counterpart of some path has a scheme other than [s3], the
    downloader dies with [ValueError] and has put nothing on the ready
    queue for the unit; if all of them have the scheme [s3], the unit is
    downloaded, its index is put on the ready queue and the loop goes
    on. *)
Theorem C5_only_s3 `{Externals} `{FileSystem Disk}
(root remote_root cache_dir : string) (index : Z) (paths : list string)
(rest : list (option (Z * list string))) (st : Downloader.state Disk) :
Downloader.all_downloaded root cache_dir paths st = false →
((∃ p, p ∈ paths
     ∧ scheme (urlparse (PyStr.replace p root remote_root)) ≠ "s3"%string) →
∃ st',
 Downloader._download_data_target root remote_root cache_dir
   (Some (index, paths) :: rest) st = Raised ValueError st'
 ∧ Downloader.queue_out st' = Downloader.queue_out st)
∧ ((∀ p, p ∈ paths →
       scheme (urlparse (PyStr.replace p root remote_root)) = "s3"%string) →
 ∃ st',
   Downloader._download_data_target root remote_root cache_dir
     (Some (index, paths) :: rest) st
   = Downloader._download_data_target root remote_root cache_dir rest st'
   ∧ Downloader.queue_out st' = Downloader.queue_out st ++ [Some index]).
Proof.
intros Hnot. split.
- intros Hbad. simpl. rewrite Hnot.
pose proof (DownloaderFacts.download_paths_raises root remote_root
              cache_dir paths st Hbad) as Hr.
pose proof (DownloaderFacts.download_paths_queue_out root remote_root
              cache_dir paths st) as Hq.
destruct (Downloader.download_paths _ _ _ paths st) as [st' e].
simpl in *. subst e. eauto.
- intros Hs3. simpl. rewrite Hnot.
pose proof (DownloaderFacts.download_paths_s3 root remote_root
              cache_dir paths st Hs3) as [Hr _].
pose proof (DownloaderFacts.download_paths_queue_out root remote_root
              cache_dir paths st) as Hq.
destruct (Downloader.download_paths _ _ _ paths st) as [st' e].
simpl in *. subst e. exists (Downloader.put (Some index) st').
split; [done|]. simpl. by rewrite Hq.
Qed.

Section downloader_runs.
#[local] Existing Instances Sim.externals Sim.disk_fs.

Lemma C7_already_downloaded_witness :
  ∃ st' : Downloader.state Sim.disk,
    Downloader._download_data_target "/r" "s3://b/r" "/c"
      [Some (0, ["/r/a"; "/r/b"]%string)]
      (Sim.downloader_on (Sim.disk_with ["/c/a"; "/c/b"]%string))
    = Blocked st'
    ∧ Downloader.queue_out st' = [] ++ [Some 0]
    ∧ Downloader.downloads st' = []
    ∧ Downloader.fs st' = Sim.disk_with ["/c/a"; "/c/b"]%string
    ∧ Downloader._download_data_target "/r" "s3://b/r" "/c"
        (Some (0, ["/r/a"; "/r/b"]%string) :: [Some (1, ["/r/a"]%string)])
        (Sim.downloader_on (Sim.disk_with ["/c/a"; "/c/b"]%string))
      = Downloader._download_data_target "/r" "s3://b/r" "/c"
          [Some (1, ["/r/a"]%string)] st'
    ∧ ∃ st'' : Downloader.state Sim.disk,
        Downloader._download_data_target "/r" "s3://b/r" "/c"
          (Some (0, ["/r/a"; "/r/b"]%string) :: None
             :: [Some (1, ["/r/a"]%string)])
          (Sim.downloader_on (Sim.disk_with ["/c/a"; "/c/b"]%string))
        = Returned st''
        ∧ Downloader.queue_out st'' = [] ++ [Some 0; None]
        ∧ Downloader.downloads st'' = []
        ∧ Downloader.fs st'' = Sim.disk_with ["/c/a"; "/c/b"]%string.
Proof.
  apply (C7_already_downloaded "/r" "s3://b/r" "/c" 0
           ["/r/a"; "/r/b"]%string [Some (1, ["/r/a"]%string)]
           (Sim.downloader_on (Sim.disk_with ["/c/a"; "/c/b"]%string))).
  intros p Hp. repeat (apply elem_of_cons in Hp as [->|Hp]; [reflexivity|]).
  by inversion Hp.
Defined.

Lemma C5_only_s3_witness :
(∃ st',
   Downloader._download_data_target "/r" "gs://b/r" "/c"
     [Some (0, ["/r/a"]%string); None] (Sim.downloader_on Sim.empty_disk)
   = Raised ValueError st'
   ∧ Downloader.queue_out st' = [])
∧ (∃ st',
     Downloader._download_data_target "/r" "s3://b/r" "/c"
       [Some (0, ["/r/a"]%string); None] (Sim.downloader_on Sim.empty_disk)
     = Downloader._download_data_target "/r" "s3://b/r" "/c" [None] st'
     ∧ Downloader.queue_out st' = [] ++ [Some 0]).
Proof.
split.
- apply (C5_only_s3 "/r" "gs://b/r" "/c" 0
           ["/r/a"]%string [None] (Sim.downloader_on Sim.empty_disk));
    [reflexivity|].
  exists "/r/a"%string. split; [left|]. vm_compute. discriminate.
- apply (C5_only_s3 "/r" "s3://b/r" "/c" 0
           ["/r/a"]%string [None] (Sim.downloader_on Sim.empty_disk));
    [reflexivity|].
  intros p Hp. apply elem_of_cons in Hp as [->|Hp]; [reflexivity|].
  by inversion Hp.
Defined.

End downloader_runs.

(** ** Flattening and rebuilding items *)

Module PyTreeFacts.
Import PyTree.

Lemma num_leaves_flatten t :
  num_leaves (tree_flatten t).2 = length (tree_flatten t).1.
Proof.
  induction t as [x|c ts IH] using pytree_rect'; [done|]. simpl.
  induction IH as [|t ts Ht _ IHts]; [done|]. simpl.
  rewrite length_app. congruence.
Qed.

(** Rebuilding succeeds as soon as there are enough leaves, and uses as
    many as the shape has. *)
Lemma unflatten_from_enough spec :
  ∀ leaves, (num_leaves spec ≤ length leaves)%nat →
  ∃ t rest, unflatten_from spec leaves = Some (t, rest)
            ∧ length rest = (length leaves - num_leaves spec)%nat.
Proof.
  induction spec as [|c ss IH] using TreeSpec_rect'; intros leaves Hlen.
  - destruct leaves as [|x rest]; simpl in *; [lia|].
    exists (Leaf x), rest. split; [done|lia].
  - simpl in *.
    assert (∃ ts rest, unflatten_children unflatten_from ss leaves = Some (ts, rest)
              ∧ length rest = (length leaves - list_sum (map num_leaves ss))%nat)
      as (ts & rest & Hts & Hrest).
    { clear c. revert leaves Hlen.
      induction IH as [|s ss Hs _ IHss]; intros leaves Hlen; simpl in *.
      - exists [], leaves. split; [done|lia].
      - destruct (Hs leaves) as (t & rest & -> & Hrest); [lia|].
        destruct (IHss rest) as (ts & rest' & -> & Hrest'); [lia|].
        exists (t :: ts), rest'. split; [done|lia]. }
    rewrite Hts. exists (Node c ts), rest. done.
Qed.

Lemma tree_unflatten_ok t leaves :
  length leaves = length (tree_flatten t).1 →
  ∃ t', tree_unflatten leaves (tree_flatten t).2 = Ok t'.
Proof.
  intros Hlen. unfold tree_unflatten.
  rewrite num_leaves_flatten, <- Hlen, Nat.eqb_refl. simpl.
  destruct (unflatten_from_enough (tree_flatten t).2 leaves)
    as (t' & rest & -> & _); [rewrite num_leaves_flatten; lia|].
  by exists t'.
Qed.

End PyTreeFacts.

(** ** Collecting the paths of the items *)

Module CollectFacts.
Import PyTree Worker.

Section facts.
Context `{Externals}.
Variable root : string.

Abbreviation root_paths := (root_paths root).
Abbreviation item_paths := (item_paths root).

Lemma indexed_paths_values pos flat :
  (indexed_paths root pos flat).*2 = root_paths flat.
Proof.
  revert pos. induction flat as [|e flat IH]; intros pos; simpl; [done|].
  destruct e as [s| |]; simpl; try apply IH.
  destruct (PyStr.startswith s root); simpl; by rewrite IH.
Qed.

Lemma elem_of_root_paths s flat :
  s ∈ root_paths flat ↔ LStr s ∈ flat ∧ PyStr.startswith s root = true.
Proof.
  induction flat as [|e flat IH]; simpl.
  - split; [by inversion 1|]. intros [Hs _]. by inversion Hs.
  - rewrite (elem_of_cons flat (LStr s) e).
    destruct e as [s'| |].
    + destruct (PyStr.startswith s' root) eqn:E.
      * rewrite elem_of_cons, IH. split.
        -- intros [->|[? ?]]; [split; [by left|done]|split; [by right|done]].
        -- intros [[Heq|?] ?]; [left; congruence|by right].
      * rewrite IH. split.
        -- intros [? ?]. split; [by right|done].
        -- intros [[Heq|?] ?]; [|done]. injection Heq as ->. congruence.
    + rewrite IH. split; [intros [? ?]; split; [by right|done]|].
      intros [[Heq|?] ?]; [discriminate|done].
    + rewrite IH. split; [intros [? ?]; split; [by right|done]|].
      intros [[Heq|?] ?]; [discriminate|done].
Qed.

Lemma rewrite_paths_length ip flat paths :
  length (rewrite_paths root ip flat paths).1 = length flat.
Proof.
  revert flat paths. induction ip as [|[pos p] ip IH]; intros flat paths; simpl;
    [done|].
  by rewrite IH, length_insert.
Qed.

Lemma rewrite_paths_paths ip flat paths :
  (rewrite_paths root ip flat paths).2 = paths ++ ip.*2.
Proof.
  revert flat paths. induction ip as [|[pos p] ip IH]; intros flat paths; simpl.
  - by rewrite app_nil_r.
  - by rewrite IH, <- app_assoc.
Qed.

Lemma has_root_path_paths item :
  has_root_path root item ↔ item_paths item ≠ [].
Proof.
  unfold has_root_path, item_paths. split.
  - intros (s & Hs). apply elem_of_root_paths in Hs. intros Hnil.
    rewrite Hnil in Hs. by inversion Hs.
  - destruct (root_paths (tree_flatten item).1) as [|s l] eqn:E; [done|].
    intros _. exists s. apply elem_of_root_paths. rewrite E. left.
Qed.

Lemma no_root_path_paths item :
  ¬ has_root_path root item ↔ item_paths item = [].
Proof.
  rewrite has_root_path_paths. destruct (item_paths item) as [|s l].
  - split; [done|]. intros _ Hne. by apply Hne.
  - split; [|done]. intros Hne. exfalso. by apply Hne.
Qed.

#[local] Instance has_root_path_dec item : Decision (has_root_path root item).
Proof.
  destruct (item_paths item) as [|s l] eqn:E.
  - right. by apply no_root_path_paths.
  - left. apply has_root_path_paths. by rewrite E.
Defined.

Lemma collect_item_raises item :
  ¬ has_root_path root item → collect_item root item = Raise ValueError.
Proof.
  rewrite no_root_path_paths. intros Hno.
  unfold collect_item, item_paths in *.
  destruct (tree_flatten item) as [flat spec]. simpl in *.
  rewrite <- indexed_paths_values with (pos := 0%nat) in Hno.
  destruct (indexed_paths root 0 flat); [done|discriminate].
Qed.

Lemma collect_item_ok item :
  has_root_path root item →
  ∃ t, collect_item root item = Ok (item_paths item, t).
Proof.
  rewrite has_root_path_paths. intros Hsome.
  unfold collect_item, item_paths in *.
  pose proof (PyTreeFacts.tree_unflatten_ok item) as Hunfl.
  destruct (tree_flatten item) as [flat spec]. simpl in *.
  rewrite <- indexed_paths_values with (pos := 0%nat) in *.
  destruct (indexed_paths root 0 flat) as [|ip0 ip] eqn:E; [done|].
  simpl length. simpl Nat.eqb. cbv iota.
  pose proof (rewrite_paths_length (ip0 :: ip) flat []) as Hlen.
  pose proof (rewrite_paths_paths (ip0 :: ip) flat []) as Hpaths.
  destruct (rewrite_paths root (ip0 :: ip) flat []) as [flat' paths].
  simpl in Hlen, Hpaths. destruct (Hunfl flat' Hlen) as [t' ->].
  exists t'. simpl. by rewrite Hpaths.
Qed.

Lemma collect_loop_raises todo acc :
  (∃ item, item ∈ todo ∧ ¬ has_root_path root item) →
  collect_loop root todo acc = Raise ValueError.
Proof.
  revert acc. induction todo as [|item todo IH]; intros acc (bad & Hin & Hbad).
  - by inversion Hin.
  - simpl. destruct (decide (has_root_path root item)) as [Hok|Hno].
    + destruct (collect_item_ok item Hok) as [t ->]. simpl.
      apply elem_of_cons in Hin as [->|Hin]; [done|]. apply IH. eauto.
    + by rewrite (collect_item_raises item Hno).
Qed.

Lemma collect_loop_ok todo acc :
  (∀ item, item ∈ todo → has_root_path root item) →
  ∃ c, collect_loop root todo acc = Ok c
       ∧ _paths c = _paths acc ++ map item_paths todo
       ∧ length (items c) = (length (items acc) + length todo)%nat.
Proof.
  revert acc. induction todo as [|item todo IH]; intros acc Hall; simpl.
  - exists acc. rewrite app_nil_r. split; [done|]. split; [done|lia].
  - destruct (collect_item_ok item) as [t ->]; [apply Hall; left|]. simpl.
    edestruct IH as (c & -> & Hp & Hl); [intros; apply Hall; by right|].
    exists c. split; [done|]. simpl in *.
    rewrite Hp, <- app_assoc, Hl, length_app. simpl. split; [done|lia].
Qed.

Lemma collect_paths_lengths self_items c :
  _collect_paths root self_items = Ok c →
  _paths c = map item_paths self_items
  ∧ length (items c) = length self_items
  ∧ length (_paths c) = length (items c).
Proof.
  intros Hc. unfold _collect_paths in Hc.
  destruct (decide (Forall (has_root_path root) self_items)) as [Hall|Hno].
  - rewrite Forall_forall in Hall.
    edestruct collect_loop_ok as (c' & Hc' & Hp & Hl); [exact Hall|].
    rewrite Hc in Hc'. injection Hc' as <-. simpl in *.
    rewrite Hp, Hl, length_map. done.
  - apply not_Forall_Exists in Hno; [|apply _]. rewrite Exists_exists in Hno.
    destruct Hno as (item & Hin & Hbad).
    rewrite collect_loop_raises in Hc; [done|].
    by exists item.
Qed.

End facts.
End CollectFacts.

(** ** The main loop of the worker *)

Module LoopFacts.
Import PyTree Worker.

Lemma count_none_nil {A} : count_none (@nil (option A)) = 0.
Proof. done. Qed.

Lemma count_none_cons_None {A} (l : list (option A)) :
  count_none (None :: l) = 1 + count_none l.
Proof.
  unfold count_none, Py.len. rewrite filter_cons_True by done. simpl. lia.
Qed.

Lemma count_none_cons_Some {A} (x : A) (l : list (option A)) :
  count_none (Some x :: l) = count_none l.
Proof. unfold count_none. by rewrite filter_cons_False. Qed.

Lemma count_none_nonneg {A} (l : list (option A)) : 0 ≤ count_none l.
Proof. unfold count_none, Py.len. lia. Qed.

Lemma count_none_perm {A} (l1 l2 : list (option A)) :
  l1 ≡ₚ l2 → count_none l1 = count_none l2.
Proof. intros Hp. unfold count_none, Py.len. by rewrite Hp. Qed.

Lemma index_in_range {A} (l : list A) (r : Z) :
  0 ≤ r < Py.len l →
  ∃ x, l !! Z.to_nat r = Some x ∧ Py.index l r = Ok x.
Proof.
  intros Hr. unfold Py.index. cbv zeta.
  destruct (Z.ltb_spec r 0); [lia|]. cbv iota.
  destruct (Z.ltb_spec r 0); [lia|].
  destruct (l !! Z.to_nat r) as [x|] eqn:E; [by exists x|].
  apply lookup_ge_None in E. unfold Py.len in Hr. lia.
Qed.

Section facts.
Variables (index start_index : Z).
Variable prepare_item : option (pytree → pytree).
Variable has_worker_queue : bool.
Variable num_downloaders : Z.
Variable remove : bool.
Variable c : collected.
Hypothesis paths_items : length (_paths c) = length (items c).

Abbreviation run_loop :=
  (run_loop index start_index prepare_item has_worker_queue num_downloaders
     remove c).
Abbreviation pass :=
  (pass index start_index prepare_item has_worker_queue remove c).
Abbreviation passes :=
  (passes index start_index prepare_item has_worker_queue remove c).

(** A pass of the loop for an index in range is [pass]. *)
Lemma run_loop_pass r rest is_none st :
  in_range c r →
  run_loop (Some r :: rest) is_none st = run_loop rest is_none (pass st r).
Proof.
  intros Hr. simpl. unfold Worker.pass.
  destruct (index_in_range (items c) r Hr) as (item & -> & ->).
  destruct (index_in_range (_paths c) r) as (ps & -> & ->).
  { unfold in_range, Py.len in *. lia. }
  simpl. by destruct remove.
Qed.

(** Before the last sentinel the loop handles every index and waits. *)
Lemma run_loop_blocked ready is_none st :
  (∀ r, Some r ∈ ready → in_range c r) →
  is_none + count_none ready < num_downloaders →
  run_loop ready is_none st = Blocked (passes (indices ready) st).
Proof.
  revert is_none st. induction ready as [|[r|] ready IH]; intros is_none st Hv Hn.
  - done.
  - rewrite run_loop_pass by (apply Hv; left).
    rewrite count_none_cons_Some in Hn.
    rewrite IH; [done| |done]. intros; apply Hv; by right.
  - rewrite count_none_cons_None in Hn. simpl.
    pose proof (count_none_nonneg ready).
    destruct (Z.eqb_spec (is_none + 1) num_downloaders); [lia|].
    apply IH; [|lia]. intros; apply Hv; by right.
Qed.

(** The sentinel that completes the count makes the loop return, after
    the two shutdown calls. *)
Lemma run_loop_returned pre rest is_none st :
  (∀ r, Some r ∈ pre → in_range c r) →
  is_none + count_none pre = num_downloaders - 1 →
  run_loop (pre ++ None :: rest) is_none st
  = Returned (emit CacheDone (emit (RemovePut None) (passes (indices pre) st))).
Proof.
  revert is_none st. induction pre as [|[r|] pre IH]; intros is_none st Hv Hn.
  - rewrite count_none_nil in Hn. simpl.
    destruct (Z.eqb_spec (is_none + 1) num_downloaders); [done|lia].
  - rewrite <- app_comm_cons, run_loop_pass by (apply Hv; left).
    rewrite count_none_cons_Some in Hn.
    rewrite IH; [done| |done]. intros; apply Hv; by right.
  - rewrite count_none_cons_None in Hn. simpl.
    pose proof (count_none_nonneg pre).
    destruct (Z.eqb_spec (is_none + 1) num_downloaders); [lia|].
    apply IH; [|lia]. intros; apply Hv; by right.
Qed.


(** The cache after the passes for [rs]: the slots of the indices hold the
    prepared items, the other slots are as before. *)
Lemma cache_pass st r :
  cache (pass st r)
  = <[r + start_index :=
        prepared prepare_item (default (Leaf LNone) (items c !! Z.to_nat r))]>
      (cache st).
Proof. unfold Worker.pass. destruct has_worker_queue, remove; done. Qed.

Lemma cache_passes rs st k :
  cache (passes rs st) !! k =
    if decide (k - start_index ∈ rs)
    then Some (prepared prepare_item
                 (default (Leaf LNone) (items c !! Z.to_nat (k - start_index))))
    else cache st !! k.
Proof.
  revert st. induction rs as [|r rs IH]; intros st.
  - simpl. destruct (decide (k - start_index ∈ [])) as [Hin|]; [|done].
    by inversion Hin.
  - change (passes (r :: rs) st) with (passes rs (pass st r)).
    rewrite IH, cache_pass.
    destruct (decide (k - start_index ∈ rs)) as [Hin|Hnotin].
    + destruct (decide (k - start_index ∈ r :: rs)) as [|Hno]; [done|].
      exfalso. apply Hno. by right.
    + destruct (decide (k = r + start_index)) as [->|Hne].
      * rewrite lookup_insert_eq.
        replace (r + start_index - start_index) with r by lia.
        destruct (decide (r ∈ r :: rs)) as [|Hno]; [done|].
        exfalso. apply Hno. left.
      * rewrite lookup_insert_ne by done.
        destruct (decide (k - start_index ∈ r :: rs)) as [Hin|]; [|done].
        apply elem_of_cons in Hin as [Heq|?]; [lia|done].
Qed.

Lemma cache_passes_perm rs1 rs2 st :
  rs1 ≡ₚ rs2 → cache (passes rs1 st) = cache (passes rs2 st).
Proof.
  intros Hp. apply map_eq. intros k. rewrite !cache_passes.
  destruct (decide (k - start_index ∈ rs1)) as [Hin|Hnotin];
    destruct (decide (k - start_index ∈ rs2)) as [Hin2|Hnotin2]; try done.
  - exfalso. apply Hnotin2. by rewrite <- Hp.
  - exfalso. apply Hnotin. by rewrite Hp.
Qed.

End facts.

Lemma elem_of_indices (ready : list (option Z)) r :
  r ∈ indices ready ↔ Some r ∈ ready.
Proof.
  unfold indices. rewrite list_elem_of_omap. split.
  - intros (x & Hx & Hid). simpl in Hid. by subst.
  - intros Hr. by exists (Some r).
Qed.

Lemma indices_perm (l1 l2 : list (option Z)) :
  l1 ≡ₚ l2 → indices l1 ≡ₚ indices l2.
Proof. intros Hp. unfold indices. by rewrite Hp. Qed.

End LoopFacts.

(** ** The queues of the downloaders *)

Module QueueFacts.
Import Worker.

Lemma update_in_range {A} (l : list A) (d : Z) (f : A → A) :
  0 ≤ d < Py.len l →
  ∃ x, l !! Z.to_nat d = Some x
       ∧ Py.update l d f = Ok (<[Z.to_nat d := f x]> l).
Proof.
  intros Hd. unfold Py.update. cbv zeta.
  destruct (Z.ltb_spec d 0); [lia|]. cbv iota.
  destruct (Z.ltb_spec d 0); [lia|].
  destruct (l !! Z.to_nat d) as [x|] eqn:E; [by exists x|].
  apply lookup_ge_None in E. unfold Py.len in Hd. lia.
Qed.

Section facts.
Variable num_downloaders : Z.
Hypothesis some_downloader : 1 ≤ num_downloaders.

Abbreviation units_of := (units_of num_downloaders).

Lemma put_units_spec units queues :
  Py.len queues = num_downloaders →
  ∃ queues',
    put_units num_downloaders units queues = Ok queues'
    ∧ length queues' = length queues
    ∧ ∀ (d : nat) q, queues !! d = Some q →
        queues' !! d = Some (q ++ (Some <$> units_of d units)).
Proof.
  revert queues. induction units as [|u units IH]; intros queues Hlen.
  - exists queues. split; [done|]. split; [done|]. intros d q ->.
    by rewrite app_nil_r.
  - simpl. unfold Py.modulo.
    destruct (Z.eqb_spec num_downloaders 0); [lia|]. simpl.
    pose proof (Z.mod_pos_bound u.1 num_downloaders) as Hmod.
    destruct (update_in_range queues (u.1 `mod` num_downloaders)
                (λ q, q ++ [Some u])) as (q0 & Hq0 & ->); [lia|].
    simpl.
    destruct (IH (<[Z.to_nat (u.1 `mod` num_downloaders) := q0 ++ [Some u]]> queues))
      as (queues' & Hput & Hl & Hq).
    { unfold Py.len in *. by rewrite length_insert. }
    exists queues'. split; [exact Hput|]. rewrite Hl, length_insert. split; [done|].
    intros d q Hd. unfold units_of. 
    destruct (decide (u.1 `mod` num_downloaders = Z.of_nat d)) as [Heq|Hne].
    + rewrite filter_cons_True by done. rewrite fmap_cons.
      rewrite Heq, Nat2Z.id in Hq0.
      assert (q0 = q) as -> by congruence.
      rewrite (Hq d (q ++ [Some u])).
      * by rewrite <- app_assoc.
      * rewrite Heq, Nat2Z.id. apply list_lookup_insert_eq.
        by apply lookup_lt_Some in Hd.
    + rewrite filter_cons_False by done. apply Hq.
      rewrite list_lookup_insert_ne; [done|]. lia.
Qed.

Lemma put_sentinels_spec ds queues :
  NoDup ds → (∀ d, d ∈ ds → 0 ≤ d < Py.len queues) →
  ∃ queues',
    put_sentinels ds queues = Ok queues'
    ∧ length queues' = length queues
    ∧ ∀ (d : nat) q, queues !! d = Some q →
        queues' !! d = Some (q ++ if decide (Z.of_nat d ∈ ds) then [None] else []).
Proof.
  revert queues. induction ds as [|d0 ds IH]; intros queues Hnd Hin.
  - exists queues. split; [done|]. split; [done|]. intros d q ->.
    destruct (decide (Z.of_nat d ∈ [])) as [Hd|]; [by inversion Hd|].
    by rewrite app_nil_r.
  - apply NoDup_cons in Hnd as [Hd0 Hnd]. simpl.
    destruct (update_in_range queues d0 (λ q, q ++ [None]))
      as (q0 & Hq0 & ->); [apply Hin; left|]. simpl.
    destruct (IH (<[Z.to_nat d0 := q0 ++ [None]]> queues))
      as (queues' & Hput & Hl & Hq).
    { done. }
    { intros d Hd. unfold Py.len. rewrite length_insert. apply Hin. by right. }
    exists queues'. split; [exact Hput|]. rewrite Hl, length_insert. split; [done|].
    intros d q Hd.
    assert (0 ≤ d0) as Hd0pos by (apply Hin; left).
    destruct (decide (Z.of_nat d = d0)) as [<-|Hne].
    + rewrite Nat2Z.id in Hq0.
      assert (q0 = q) as -> by congruence.
      rewrite (Hq d (q ++ [None])).
      * destruct (decide (Z.of_nat d ∈ ds)); [done|].
        destruct (decide (Z.of_nat d ∈ Z.of_nat d :: ds)) as [|Hno].
        -- by rewrite app_nil_r.
        -- exfalso. apply Hno. left.
      * rewrite Nat2Z.id. apply list_lookup_insert_eq.
        by apply lookup_lt_Some in Hd.
    + rewrite (Hq d q) by (rewrite list_lookup_insert_ne; [done|lia]).
      destruct (decide (Z.of_nat d ∈ ds)) as [Hds|Hds].
      * destruct (decide (Z.of_nat d ∈ d0 :: ds)) as [|Hno]; [done|].
        exfalso. apply Hno. by right.
      * destruct (decide (Z.of_nat d ∈ d0 :: ds)) as [Hyes|]; [|done].
        apply elem_of_cons in Hyes as [?|?]; done.
Qed.

(** Every downloader gets a queue that holds its units, in the order of
    the items, and then one [None]. *)
Lemma start_downloaders_spec paths :
  ∃ queues,
    _start_downloaders num_downloaders paths = Ok queues
    ∧ length queues = Z.to_nat num_downloaders
    ∧ ∀ d, (d < Z.to_nat num_downloaders)%nat →
        queues !! d = Some ((Some <$> units_of d (Py.enumerate paths)) ++ [None]).
Proof.
  unfold _start_downloaders.
  destruct (put_units_spec (Py.enumerate paths)
              (replicate (Z.to_nat num_downloaders) [])) as (qs1 & -> & Hl1 & Hq1).
  { unfold Py.len. rewrite length_replicate. lia. }
  simpl. rewrite length_replicate in Hl1.
  destruct (put_sentinels_spec (Py.range num_downloaders) qs1)
    as (qs2 & -> & Hl2 & Hq2).
  { apply PartitionFacts.NoDup_range. }
  { intros d Hd%PartitionFacts.elem_of_range. unfold Py.len. lia. }
  exists qs2. split; [done|]. split; [lia|]. intros d Hd.
  rewrite (Hq2 d (Some <$> units_of d (Py.enumerate paths))).
  - destruct (decide (Z.of_nat d ∈ Py.range num_downloaders)) as [|Hno]; [done|].
    exfalso. apply Hno, PartitionFacts.elem_of_range. lia.
  - rewrite (Hq1 d []); [done|]. by apply lookup_replicate_2.
Qed.

End facts.
End QueueFacts.

(** ** The remover *)

Module RemoverFacts.
Import Remover.

Lemma occurrences_app x l1 l2 :
  occurrences x (l1 ++ l2) = (occurrences x l1 + occurrences x l2)%nat.
Proof. unfold occurrences. by rewrite filter_app, length_app. Qed.

Lemma occurrences_one x y :
  occurrences x [y] = if decide (y = x) then 1%nat else 0%nat.
Proof.
  unfold occurrences. destruct (decide (y = x)).
  - by rewrite filter_cons_True.
  - by rewrite filter_cons_False.
Qed.

Section facts.
Context `{FileSystemLaws Disk}.
Variables (root cache_dir : string).

Abbreviation target p := (PyStr.replace p root cache_dir).
Abbreviation remove_paths := (remove_paths root cache_dir).

(** The loop removes a file exactly when it is the cache location of one
    of the paths and exists, and it removes it once. *)
Lemma remove_paths_spec paths (st : state Disk) x :
  (x ∈ (λ p, target p) <$> paths → path_exists (fs st) x = true →
     occurrences x (removed (remove_paths paths st))
     = S (occurrences x (removed st))
     ∧ path_exists (fs (remove_paths paths st)) x = false)
  ∧ (¬ (x ∈ (λ p, target p) <$> paths ∧ path_exists (fs st) x = true) →
     occurrences x (removed (remove_paths paths st))
     = occurrences x (removed st)
     ∧ path_exists (fs (remove_paths paths st)) x = path_exists (fs st) x).
Proof.
  revert st. induction paths as [|p paths IH]; intros st.
  - simpl. split; [by inversion 1|done].
  - simpl.
    destruct (path_exists (fs st) (target p)) eqn:Et.
    + destruct (IH {| fs := os_remove (target p) (fs st);
                      removed := removed st ++ [target p] |}) as [IH1 IH2].
      simpl in IH1, IH2. rewrite occurrences_app, occurrences_one in IH1, IH2.
      destruct (decide (target p = x)) as [<-|Hne].
      * rewrite exists_os_remove in IH1, IH2.
        destruct IH2 as [Ho He]; [by intros [_ ?]|].
        split; [intros _ _; split; [lia|done]|].
        intros Hno. exfalso. apply Hno. split; [left|done].
      * rewrite exists_os_remove_ne in IH1, IH2 by done.
        rewrite Nat.add_0_r in IH1, IH2. split.
        -- intros [?|Hin]%elem_of_cons Hx; [congruence|]. by apply IH1.
        -- intros Hno. apply IH2. intros [Hin Hx]. apply Hno.
           split; [by right|done].
    + destruct (IH st) as [IH1 IH2]. split.
      * intros [->|Hin]%elem_of_cons Hx; [congruence|]. by apply IH1.
      * intros Hno. apply IH2. intros [Hin Hx]. apply Hno.
        split; [by right|done].
Qed.

(** Every file that exists at the cache location of one of the paths is
    removed exactly once, and is gone afterwards. *)
Lemma remove_paths_once paths (st : state Disk) p :
  p ∈ paths → path_exists (fs st) (target p) = true →
  occurrences (target p) (removed (remove_paths paths st))
  = S (occurrences (target p) (removed st))
  ∧ path_exists (fs (remove_paths paths st)) (target p) = false.
Proof.
  intros Hp Hx. apply remove_paths_spec; [|done].
  apply list_elem_of_fmap. by exists p.
Qed.

End facts.
End RemoverFacts.

(** ** The worker as a whole *)

Module RunFacts.
Import PyTree Worker.

Section facts.
Context `{Externals}.
Variables (index start_index : Z).
Variable prepare_item : option (pytree → pytree).
Variable root : string.
Variable has_worker_queue : bool.
Variable num_downloaders : Z.
Variable remove : bool.

Abbreviation run :=
  (run index start_index prepare_item root has_worker_queue num_downloaders
     remove).
Abbreviation run_loop :=
  (run_loop index start_index prepare_item has_worker_queue num_downloaders
     remove).

Lemma run_collect_raises self_items ready e :
  _collect_paths root self_items = Raise e →
  run self_items ready = Raised e init.
Proof. intros Hc. unfold Worker.run. by rewrite Hc. Qed.

Lemma run_is_loop self_items c ready :
  1 ≤ num_downloaders →
  _collect_paths root self_items = Ok c →
  run self_items ready = run_loop c ready 0 init.
Proof.
  intros HN Hc. unfold Worker.run. rewrite Hc.
  by destruct (QueueFacts.start_downloaders_spec num_downloaders HN (_paths c))
    as (queues & -> & _).
Qed.

End facts.
End RunFacts.

(** C4.  An item none of whose leaves is a string that starts with the
    root makes [_collect_paths] raise [ValueError]; the run of the worker
    then ends with that error before the loop, with an empty cache and no
    call made on it.  An item with such a leaf is collected without an
    error, and so is a list of such items. *)
Theorem C4_item_without_path `{Externals} (index start_index : Z)
    (prepare_item : option (PyTree.pytree → PyTree.pytree)) (root : string)
    (has_worker_queue : bool) (num_downloaders : Z) (remove : bool)
    (self_items : list PyTree.pytree) :
  ((∃ item, item ∈ self_items ∧ ¬ Worker.has_root_path root item) →
     Worker._collect_paths root self_items = Raise ValueError
     ∧ ∀ ready, ∃ st,
         Worker.run index start_index prepare_item root has_worker_queue
           num_downloaders remove self_items ready = Raised ValueError st
         ∧ Worker.cache st = ∅ ∧ Worker.trace st = [])
  ∧ (∀ item, Worker.has_root_path root item →
       ∃ r, Worker.collect_item root item = Ok r)
  ∧ ((∀ item, item ∈ self_items → Worker.has_root_path root item) →
       ∃ c, Worker._collect_paths root self_items = Ok c).
Proof.
  split; [|split].
  - intros Hbad.
    assert (Worker._collect_paths root self_items = Raise ValueError) as Hc.
    { by apply CollectFacts.collect_loop_raises. }
    split; [done|]. intros ready. exists Worker.init.
    by rewrite (RunFacts.run_collect_raises _ _ _ _ _ _ _ _ _ _ Hc).
  - intros item Hitem.
    destruct (CollectFacts.collect_item_ok root item Hitem) as [t Ht]. eauto.
  - intros Hall. unfold Worker._collect_paths.
    edestruct CollectFacts.collect_loop_ok as (c & Hc & _); [exact Hall|]. eauto.
Qed.

(** C3.  Let the ready queue deliver the messages [pre] and then the last
    sentinel.  For every index [r] among them the loop has stored
    [prepare_item(items[r])] (or [items[r]]) in the cache slot
    [r + start_index]; nothing else is in the cache; distinct indices have
    distinct slots; and any other order of arrival of the same messages
    leaves the same cache. *)
Theorem C3_slots_by_index `{Externals} (index start_index : Z)
    (prepare_item : option (PyTree.pytree → PyTree.pytree)) (root : string)
    (has_worker_queue : bool) (num_downloaders : Z) (remove : bool)
    (self_items : list PyTree.pytree) (c : Worker.collected)
    (pre1 pre2 : list (option Z)) :
  Worker._collect_paths root self_items = Ok c →
  Worker.count_none pre1 = num_downloaders - 1 →
  (∀ r, Some r ∈ pre1 → Worker.in_range c r) →
  pre1 ≡ₚ pre2 →
  ∃ st1 st2,
    Worker.run index start_index prepare_item root has_worker_queue
      num_downloaders remove self_items (pre1 ++ [None]) = Returned st1
    ∧ Worker.run index start_index prepare_item root has_worker_queue
        num_downloaders remove self_items (pre2 ++ [None]) = Returned st2
    ∧ (∀ r, Some r ∈ pre1 →
         ∃ item, Worker.items c !! Z.to_nat r = Some item
                 ∧ Worker.cache st1 !! (r + start_index)
                   = Some (Worker.prepared prepare_item item))
    ∧ (∀ k v, Worker.cache st1 !! k = Some v →
         ∃ r, Some r ∈ pre1 ∧ k = r + start_index)
    ∧ (∀ r1 r2 : Z, r1 ≠ r2 → r1 + start_index ≠ r2 + start_index)
    ∧ Worker.cache st1 = Worker.cache st2.
Proof.
  intros Hc Hn Hv Hperm.
  pose proof (LoopFacts.count_none_nonneg pre1) as Hnn.
  destruct (CollectFacts.collect_paths_lengths root self_items c Hc)
    as (_ & _ & Hlen).
  assert (∀ r, Some r ∈ pre2 → Worker.in_range c r) as Hv2.
  { intros r Hr. apply Hv. by rewrite Hperm. }
  assert (Worker.count_none pre2 = num_downloaders - 1) as Hn2.
  { by rewrite <- (LoopFacts.count_none_perm pre1 pre2 Hperm). }
  eexists _, _. split; [|split].
  - rewrite (RunFacts.run_is_loop _ _ _ _ _ _ _ _ c) by (done || lia).
    apply LoopFacts.run_loop_returned; [done|done|lia].
  - rewrite (RunFacts.run_is_loop _ _ _ _ _ _ _ _ c) by (done || lia).
    apply LoopFacts.run_loop_returned; [done|done|lia].
  - simpl. split; [|split; [|split]].
    + intros r Hr.
      destruct (LoopFacts.index_in_range (Worker.items c) r (Hv r Hr))
        as (item & Hitem & _).
      exists item. split; [done|]. rewrite LoopFacts.cache_passes by done.
      replace (r + start_index - start_index) with r by lia.
      rewrite Hitem. simpl.
      destruct (decide (r ∈ Worker.indices pre1)) as [|Hno]; [done|].
      exfalso. by apply Hno, LoopFacts.elem_of_indices.
    + intros k v. rewrite LoopFacts.cache_passes by done.
      destruct (decide (k - start_index ∈ Worker.indices pre1)) as [Hin|];
        [|simpl; by rewrite lookup_empty].
      intros _. exists (k - start_index).
      split; [by apply LoopFacts.elem_of_indices|lia].
    + lia.
    + apply LoopFacts.cache_passes_perm; [done|]. by apply LoopFacts.indices_perm.
Qed.


(** C6.  Let an item of the worker have the file paths [ps], all with [s3]
    remote counterparts; [N = length ps] is the number of leaves that are
    file paths, which is the number of paths when they are distinct.
    - [_collect_paths] records exactly [ps] for the item.
    - When none of the cache locations exists, the downloader that reads
      the unit of the item issues one download per path, [N] in all, in
      the order of [ps], then reports the index and waits for the next
      message.
    - After these downloads the remover that reads [ps] removes the cache
      file of each path exactly once, and the file is gone; it returns at
      the sentinel.
    - With [remove=True] the worker that reads the index of the item,
      after any earlier messages, writes the cache slot of the item and
      after that puts exactly [ps] on the remove queue, and waits. *)
Theorem C6_downloads_and_removals `{Externals} `{FileSystemLaws Disk}
    (index start_index : Z)
    (prepare_item : option (PyTree.pytree → PyTree.pytree))
    (root remote_root : string) (has_worker_queue : bool)
    (num_downloaders : Z)
    (self_items : list PyTree.pytree) (c : Worker.collected)
    (r : Z) (item : PyTree.pytree) :
  Worker._collect_paths root self_items = Ok c →
  0 ≤ r → self_items !! Z.to_nat r = Some item →
  (∀ p, p ∈ Worker.item_paths root item → Downloader.is_s3 root remote_root p) →
  Worker._paths c !! Z.to_nat r = Some (Worker.item_paths root item)
  ∧ (∀ dst : Downloader.state Disk,
       (∀ p, p ∈ Worker.item_paths root item →
             path_exists (Downloader.fs dst)
               (PyStr.replace p root (Worker.cache_dir root)) = false) →
       ∃ dst',
         Downloader._download_data_target root remote_root (Worker.cache_dir root)
           [Some (r, Worker.item_paths root item)] dst = Blocked dst'
         ∧ (∀ rest,
              Downloader._download_data_target root remote_root
                (Worker.cache_dir root)
                (Some (r, Worker.item_paths root item) :: rest) dst
              = Downloader._download_data_target root remote_root
                  (Worker.cache_dir root) rest dst')
         ∧ Downloader.downloads dst'
           = Downloader.downloads dst
             ++ map (Downloader.request_of root remote_root (Worker.cache_dir root))
                    (Worker.item_paths root item)
         ∧ Downloader.queue_out dst' = Downloader.queue_out dst ++ [Some r]
         ∧ ∀ (rst : Remover.state Disk) rest',
             Remover.fs rst = Downloader.fs dst' →
             ∃ rst',
               Remover._remove_target root (Worker.cache_dir root)
                 [Some (Worker.item_paths root item)] rst = Blocked rst'
               ∧ Remover._remove_target root (Worker.cache_dir root)
                   (Some (Worker.item_paths root item) :: None :: rest') rst
                 = Returned rst'
               ∧ ∀ p, p ∈ Worker.item_paths root item →
                   Remover.occurrences
                     (PyStr.replace p root (Worker.cache_dir root))
                     (Remover.removed rst')
                   = S (Remover.occurrences
                          (PyStr.replace p root (Worker.cache_dir root))
                          (Remover.removed rst))
                   ∧ path_exists (Remover.fs rst')
                       (PyStr.replace p root (Worker.cache_dir root)) = false)
  ∧ (∀ pre : list (option Z),
       (∀ r', Some r' ∈ pre → Worker.in_range c r') →
       Worker.count_none pre < num_downloaders →
       ∃ st st' item',
         Worker.items c !! Z.to_nat r = Some item'
         ∧ Worker.run index start_index prepare_item root has_worker_queue
             num_downloaders true self_items pre = Blocked st
         ∧ Worker.run index start_index prepare_item root has_worker_queue
             num_downloaders true self_items (pre ++ [Some r]) = Blocked st'
         ∧ Worker.cache st'
           = <[r + start_index := Worker.prepared prepare_item item']>
               (Worker.cache st)
         ∧ Worker.trace st'
           = Worker.trace st
             ++ [Worker.CacheSet (r + start_index)
                   (Worker.prepared prepare_item item')]
             ++ (if has_worker_queue
                 then [Worker.ProgressPut index (Worker._counter st + 1)] else [])
             ++ [Worker.RemovePut (Some (Worker.item_paths root item))]).
Proof.
  intros Hc Hr Hitem Hs3.
  destruct (CollectFacts.collect_paths_lengths root self_items c Hc)
    as (Hpaths & Hlen1 & Hlen2).
  assert (Worker._paths c !! Z.to_nat r = Some (Worker.item_paths root item))
    as Hps.
  { by rewrite Hpaths, list_lookup_fmap, Hitem. }
  split; [done|]. split.
  - intros dst Hnone. simpl.
    destruct (Downloader.all_downloaded root (Worker.cache_dir root)
                (Worker.item_paths root item) dst) eqn:Eall.
    + pose proof (proj1 (DownloaderFacts.all_downloaded_true _ _ _ _) Eall)
        as Hall.
      clear Eall. rename Hall into Eall.
      destruct (Worker.item_paths root item) as [|p ps] eqn:Eps.
      2:{ specialize (Eall p ltac:(left)). specialize (Hnone p ltac:(left)).
          congruence. }
      exists (Downloader.put (Some r) dst). simpl. rewrite app_nil_r.
      split; [done|]. split; [done|]. split; [done|]. split; [done|].
      intros rst rest' _. exists rst. split; [done|]. split; [done|].
      by inversion 1.
    + destruct (DownloaderFacts.download_paths_s3 root remote_root
                  (Worker.cache_dir root) (Worker.item_paths root item) dst Hs3)
        as [Hnoexn Hdl].
      pose proof (DownloaderFacts.download_paths_queue_out root remote_root
                    (Worker.cache_dir root) (Worker.item_paths root item) dst) as Hq.
      pose proof (DownloaderFacts.download_paths_exists root remote_root
                    (Worker.cache_dir root) (Worker.item_paths root item) dst Hs3)
        as Hex.
      destruct (Downloader.download_paths root remote_root (Worker.cache_dir root)
                  (Worker.item_paths root item) dst) as [dst1 e].
      simpl in *. subst e. exists (Downloader.put (Some r) dst1). simpl.
      split; [done|]. split; [done|]. split; [done|]. split; [by rewrite Hq|].
      intros rst rest' Hfs.
      exists (Remover.remove_paths root (Worker.cache_dir root)
                (Worker.item_paths root item) rst).
      split; [done|]. split; [done|]. intros p Hp.
      apply RemoverFacts.remove_paths_once; [done|].
      rewrite Hfs. apply Hex. right. by exists p.
  - intros pre Hv Hn.
    pose proof (LoopFacts.count_none_nonneg pre) as Hnn.
    assert (Worker.in_range c r) as Hrange.
    { unfold Worker.in_range, Py.len. apply lookup_lt_Some in Hitem. lia. }
    destruct (LoopFacts.index_in_range (Worker.items c) r Hrange)
      as (item' & Hitem' & _).
    assert (Worker.count_none (pre ++ [Some r]) = Worker.count_none pre) as Hn'.
    { unfold Worker.count_none, Py.len. rewrite filter_app, length_app.
      simpl. lia. }
    assert (Worker.indices (pre ++ [Some r]) = Worker.indices pre ++ [r]) as Hi.
    { unfold Worker.indices. by rewrite omap_app. }
    exists (Worker.passes index start_index prepare_item has_worker_queue true c
              (Worker.indices pre) Worker.init),
      (Worker.pass index start_index prepare_item has_worker_queue true c
         (Worker.passes index start_index prepare_item has_worker_queue true c
            (Worker.indices pre) Worker.init) r),
      item'.
    split; [done|]. split; [|split].
    + rewrite (RunFacts.run_is_loop _ _ _ _ _ _ _ _ c) by (done || lia).
      apply LoopFacts.run_loop_blocked; [done|done|lia].
    + rewrite (RunFacts.run_is_loop _ _ _ _ _ _ _ _ c) by (done || lia).
      rewrite LoopFacts.run_loop_blocked; [|done| |lia].
      * rewrite Hi. unfold Worker.passes. by rewrite foldl_app.
      * intros r' [Hr'|Hr']%elem_of_app; [by apply Hv|].
        apply list_elem_of_singleton in Hr'. by injection Hr' as ->.
    + unfold Worker.pass. rewrite Hitem', Hps. simpl.
      destruct has_worker_queue; simpl; by rewrite <- ?app_assoc.
Qed.

(** ** The cached list of file paths *)

Module ListingFacts.
Import Listing.










Section facts.
Context `{Externals} `{TextCodec} `{FileSystemLaws Disk}.






End facts.
End ListingFacts.

Section listing_runs.
#[local] Existing Instances Sim.externals Sim.codec Sim.disk_fs.


(** A file name that is not valid in the encoding of the file system: the
    first call raises at its line and leaves a file with the paths before
    it, and the next call returns these without a walk. *)
Example unencodable_name_truncates :
  let st0 :=
    Sim.listing_on
      (Sim.disk_listing [("/d", ["a"; String "255" "b"; "c"])%string]) in
  let first := Listing._cached_list_filepaths "/d" st0 in
  let second := Listing._cached_list_filepaths "/d" first.2 in
  first.1 = Raise UnicodeEncodeError
  ∧ Listing.walked first.2 = ["/d"]%string
  ∧ second.1 = Ok ["/d/a"]%string
  ∧ Listing.walked second.2 = ["/d"]%string.
Proof. vm_compute. done. Qed.

End listing_runs.


(** ** The theorems on the sample world *)

(** Case analysis of a membership in an explicit list. *)
Ltac elems H :=
  repeat (apply elem_of_cons in H as [H|H];
          [try discriminate H; try (injection H as ->); try subst|]);
  try (by inversion H).

Section sample_runs.
#[local] Existing Instances Sim.externals Sim.codec Sim.disk_fs SimFacts.disk_laws.

Lemma C4_item_without_path_witness :
  (Worker._collect_paths "/r"
     (Sim.sample_items ++ [PyTree.Leaf (PyTree.LStr "/elsewhere/x")])
   = Raise ValueError
   ∧ ∀ ready, ∃ st,
       Worker.run 0 0 None "/r" true 2 true
         (Sim.sample_items ++ [PyTree.Leaf (PyTree.LStr "/elsewhere/x")]) ready
       = Raised ValueError st
       ∧ Worker.cache st = ∅ ∧ Worker.trace st = [])
  ∧ ∃ c, Worker._collect_paths "/r" Sim.sample_items = Ok c.
Proof.
  split.
  - apply (C4_item_without_path 0 0 None "/r" true 2 true
             (Sim.sample_items ++ [PyTree.Leaf (PyTree.LStr "/elsewhere/x")])).
    exists (PyTree.Leaf (PyTree.LStr "/elsewhere/x")). split.
    + apply elem_of_app. right. left.
    + by apply CollectFacts.no_root_path_paths.
  - apply (C4_item_without_path 0 0 None "/r" true 2 true Sim.sample_items).
    intros item Hitem. apply CollectFacts.has_root_path_paths.
    unfold Sim.sample_items in Hitem. elems Hitem; discriminate.
Defined.

Lemma C3_slots_by_index_witness :
  ∃ st1 st2,
    Worker.run 0 10 None "/r" true 2 true Sim.sample_items
      ([Some 0; None; Some 1] ++ [None]) = Returned st1
    ∧ Worker.run 0 10 None "/r" true 2 true Sim.sample_items
        ([Some 1; Some 0; None] ++ [None]) = Returned st2
    ∧ (∀ r, Some r ∈ [Some 0; None; Some 1] →
         ∃ item, Worker.items Sim.sample_collected !! Z.to_nat r = Some item
                 ∧ Worker.cache st1 !! (r + 10)
                   = Some (Worker.prepared None item))
    ∧ (∀ k v, Worker.cache st1 !! k = Some v →
         ∃ r, Some r ∈ [Some 0; None; Some 1] ∧ k = r + 10)
    ∧ (∀ r1 r2 : Z, r1 ≠ r2 → r1 + 10 ≠ r2 + 10)
    ∧ Worker.cache st1 = Worker.cache st2.
Proof.
  apply (C3_slots_by_index 0 10 None "/r" true 2 true Sim.sample_items
           Sim.sample_collected [Some 0; None; Some 1] [Some 1; Some 0; None]).
  - reflexivity.
  - reflexivity.
  - intros r Hr. elems Hr; unfold Worker.in_range; simpl; unfold Py.len; simpl; lia.
  - change [Some 0; None; Some 1] with ([Some 0; None] ++ [Some 1]).
    change [Some 1; Some 0; None] with ([Some 1] ++ [Some 0; None]).
    apply Permutation_app_comm.
Defined.


Lemma C6_downloads_and_removals_witness :
  let item :=
    PyTree.Node PyTree.CList
      [PyTree.Leaf (PyTree.LStr "/r/a"); PyTree.Leaf (PyTree.LInt 7);
       PyTree.Leaf (PyTree.LStr "/r/b")] in
  Worker.item_paths "/r" item = ["/r/a"; "/r/b"]%string
  ∧ Worker._paths Sim.sample_collected !! Z.to_nat 0
    = Some (Worker.item_paths "/r" item)
  ∧ (∃ dst' : Downloader.state Sim.disk,
       Downloader._download_data_target "/r" "s3://bkt/r" (Worker.cache_dir "/r")
         [Some (0, Worker.item_paths "/r" item)]
         (Sim.downloader_on Sim.empty_disk) = Blocked dst'
       ∧ Downloader.downloads dst'
         = [] ++ map (Downloader.request_of "/r" "s3://bkt/r"
                        (Worker.cache_dir "/r"))
                     (Worker.item_paths "/r" item)
       ∧ Downloader.queue_out dst' = [] ++ [Some 0]
       ∧ ∃ rst' : Remover.state Sim.disk,
           Remover._remove_target "/r" (Worker.cache_dir "/r")
             [Some (Worker.item_paths "/r" item)]
             (Sim.remover_on (Downloader.fs dst')) = Blocked rst'
           ∧ Remover._remove_target "/r" (Worker.cache_dir "/r")
               (Some (Worker.item_paths "/r" item) :: None :: [])
               (Sim.remover_on (Downloader.fs dst')) = Returned rst'
           ∧ ∀ p, p ∈ Worker.item_paths "/r" item →
               Remover.occurrences
                 (PyStr.replace p "/r" (Worker.cache_dir "/r"))
                 (Remover.removed rst')
               = S (Remover.occurrences
                      (PyStr.replace p "/r" (Worker.cache_dir "/r")) [])
               ∧ path_exists (Remover.fs rst')
                   (PyStr.replace p "/r" (Worker.cache_dir "/r")) = false)
  ∧ (∃ st st' item',
       Worker.items Sim.sample_collected !! Z.to_nat 0 = Some item'
       ∧ Worker.run 0 10 None "/r" true 2 true Sim.sample_items [Some 1; None]
         = Blocked st
       ∧ Worker.run 0 10 None "/r" true 2 true Sim.sample_items
           ([Some 1; None] ++ [Some 0]) = Blocked st'
       ∧ Worker.cache st'
         = <[0 + 10 := Worker.prepared None item']> (Worker.cache st)
       ∧ Worker.trace st'
         = Worker.trace st
           ++ [Worker.CacheSet (0 + 10) (Worker.prepared None item')]
           ++ [Worker.ProgressPut 0 (Worker._counter st + 1)]
           ++ [Worker.RemovePut (Some (Worker.item_paths "/r" item))]).
Proof.
  intros item. split; [reflexivity|].
  destruct (C6_downloads_and_removals (Disk := Sim.disk) 0 10 None "/r"
              "s3://bkt/r" true 2 Sim.sample_items Sim.sample_collected 0 item)
    as (Hpaths & Hdown & Hwork).
  - reflexivity.
  - lia.
  - reflexivity.
  - intros p Hp. vm_compute in Hp. elems Hp; reflexivity.
  - split; [exact Hpaths|]. split.
    + destruct (Hdown (Sim.downloader_on Sim.empty_disk))
        as (dst' & Hrun & _ & Hdl & Hq & Hrm).
      { intros p Hp. vm_compute in Hp. elems Hp; reflexivity. }
      exists dst'. split; [exact Hrun|]. split; [exact Hdl|].
      split; [exact Hq|].
      destruct (Hrm (Sim.remover_on (Downloader.fs dst')) [] eq_refl)
        as (rst' & Hblocked & Hreturned & Honce).
      exists rst'. split; [exact Hblocked|]. split; [exact Hreturned|].
      exact Honce.
    + apply (Hwork [Some 1; None]).
      * intros r' Hr'. elems Hr'; unfold Worker.in_range; simpl;
          unfold Py.len; simpl; lia.
      * reflexivity.
Defined.


End sample_runs.

(** ** The string functions on examples *)

Example replace_ex1 : PyStr.replace "/a/a" "/a" "/b" = "/b/b"%string.
Proof. reflexivity. Qed.
Example replace_ex2 : PyStr.replace "aaa" "aa" "b" = "ba"%string.
Proof. reflexivity. Qed.
Example replace_ex3 : PyStr.replace "abc" "" "-" = "-a-b-c-"%string.
Proof. reflexivity. Qed.
Example replace_ex4 : PyStr.replace "/data/x/1.jpg" "/data" "/cache/h/data" = "/cache/h/data/x/1.jpg"%string.
Proof. reflexivity. Qed.
Example dirname_ex1 : PyStr.dirname "/cache/h/data/x/1.jpg" = "/cache/h/data/x"%string.
Proof. reflexivity. Qed.
Example dirname_ex2 : PyStr.dirname "/x" = "/"%string.
Proof. reflexivity. Qed.
Example dirname_ex3 : PyStr.dirname "x" = ""%string.
Proof. reflexivity. Qed.
Example dirname_ex4 : PyStr.dirname "//x" = "//"%string.
Proof. reflexivity. Qed.
Example dirname_ex5 : PyStr.dirname "/a//b" = "/a"%string.
Proof. reflexivity. Qed.
Example dirname_ex6 : PyStr.dirname "/a/b/" = "/a/b"%string.
Proof. reflexivity. Qed.
Example readlines_ex1 : PyStr.readlines (String "a" (String PyStr.LF (String "b" (String PyStr.LF EmptyString)))) = [String "a" (String PyStr.LF EmptyString); String "b" (String PyStr.LF EmptyString)].
Proof. reflexivity. Qed.
Example join_ex1 : PyStr.path_join "/a" "b" = "/a/b"%string.
Proof. reflexivity. Qed.
Example join_ex2 : PyStr.path_join "/" "b" = "/b"%string.
Proof. reflexivity. Qed.
Example universal_newlines_ex1 :
  PyStr.universal_newlines
    (String "a" (String PyStr.CR (String PyStr.LF (String "b" (String PyStr.CR "c")))))
  = String "a" (String PyStr.LF (String "b" (String PyStr.LF "c"))).
Proof. reflexivity. Qed.

(** * Further properties *)

(** ** More on the partition *)

Module PartitionMore.
Import Partition.

Section facts.
Context {A : Type}.
Implicit Types (items : list A) (nw nn rank : Z).

(** The result for a valid rank and at least one worker, written out. *)
Lemma assoc_result nw nn rank items :
  nw ≠ 0 → 0 ≤ rank < nn →
  _associated_items_to_workers nw nn rank items =
    let n := Py.len (node_slice nn items rank) in
    Ok (Some (map (λ w, w * (n / nw)) (Py.range nw),
              map (λ w, Py.slice items (w * (n / nw))
                          (if w =? nw - 1 then n else (w + 1) * (n / nw)))
                  (Py.range nw))).
Proof.
  intros Hnw Hrank. unfold _associated_items_to_workers, Py.floordiv.
  destruct (Z.eqb_spec nn 0); [lia|]. simpl.
  rewrite PartitionFacts.node_loop_hit
    by (apply PartitionFacts.NoDup_range || by apply PartitionFacts.elem_of_range).
  unfold node_body, Py.floordiv. destruct (Z.eqb_spec nw 0); [lia|]. simpl.
  by rewrite PartitionFacts.worker_loop_map.
Qed.

Lemma range_lookup n (w : nat) :
  Z.of_nat w < n → Py.range n !! w = Some (Z.of_nat w).
Proof.
  intros Hw. unfold Py.range. rewrite list_lookup_fmap.
  rewrite lookup_seq_lt by lia. done.
Qed.

Lemma length_range n : length (Py.range n) = Z.to_nat n.
Proof. unfold Py.range. by rewrite length_fmap, length_seq. Qed.

Lemma len_slice items a b :
  0 ≤ a ≤ b → b ≤ Py.len items → Py.len (Py.slice items a b) = b - a.
Proof.
  intros Hab Hb. rewrite PartitionFacts.slice_nonneg by done.
  unfold Py.len in *. rewrite length_take, length_drop. lia.
Qed.

Lemma slice_lookup items a b (r : nat) x :
  0 ≤ a ≤ b → b ≤ Py.len items →
  Py.slice items a b !! r = Some x → items !! Z.to_nat (a + Z.of_nat r) = Some x.
Proof.
  intros Hab Hb. rewrite PartitionFacts.slice_nonneg by done.
  intros [Hx _]%lookup_take_Some. rewrite lookup_drop in Hx.
  by replace (Z.to_nat (a + Z.of_nat r)) with (Z.to_nat a + r)%nat by lia.
Qed.

(** The bounds of the blocks stay inside the part of the list that the
    blocks share out. *)
Lemma block_bounds n nw (w : nat) :
  1 ≤ nw → 0 ≤ n → Z.of_nat w < nw →
  0 ≤ Z.of_nat w * (n / nw)
  ∧ Z.of_nat w * (n / nw)
    ≤ (if Z.of_nat w =? nw - 1 then n else (Z.of_nat w + 1) * (n / nw))
  ∧ (if Z.of_nat w =? nw - 1 then n else (Z.of_nat w + 1) * (n / nw)) ≤ n.
Proof.
  intros Hnw Hn Hw.
  assert (0 ≤ n / nw) by (apply Z.div_pos; lia).
  pose proof (Z.mul_div_le n nw ltac:(lia)).
  destruct (Z.eqb_spec (Z.of_nat w) (nw - 1)); nia.
Qed.

Lemma block_lookup items n nw (w r : nat) x :
  1 ≤ nw → 0 ≤ n ≤ Py.len items → Z.of_nat w < nw →
  Py.slice items (Z.of_nat w * (n / nw))
    (if Z.of_nat w =? nw - 1 then n else (Z.of_nat w + 1) * (n / nw)) !! r
  = Some x →
  items !! Z.to_nat (Z.of_nat w * (n / nw) + Z.of_nat r) = Some x.
Proof.
  intros Hnw Hn Hw Hx.
  pose proof (block_bounds n nw w Hnw (proj1 Hn) Hw) as (Hb1 & Hb2 & Hb3).
  eapply slice_lookup; [| |exact Hx]; lia.
Qed.

Lemma num_items_concat (parts : list (list A)) :
  Coordinator.num_items parts = Py.len (concat parts).
Proof.
  unfold Coordinator.num_items.
  induction parts as [|p parts IH]; [done|].
  rewrite fmap_cons. cbn [foldr concat]. rewrite IH.
  unfold Py.len. rewrite length_app. lia.
Qed.

(** The slices that the method binds to [node_user_items] on the ranks
    [0 .. nn - 1], put end to end, are the item list. *)
Lemma node_slices_concat nn items :
  1 ≤ nn → concat (map (node_slice nn items) (Py.range nn)) = items.
Proof.
  intros Hnn.
  pose proof (PartitionFacts.concat_blocks items (Py.len items) nn Hnn) as Hc.
  rewrite PartitionFacts.slice_full in Hc. apply Hc. unfold Py.len. lia.
Qed.

(** The blocks of a rank hold as many items as the slice of its node. *)
Lemma num_items_blocks nw items n :
  1 ≤ nw → 0 ≤ n ≤ Py.len items →
  Coordinator.num_items
    (map (λ w, Py.slice items (w * (n / nw))
                 (if w =? nw - 1 then n else (w + 1) * (n / nw)))
         (Py.range nw)) = n.
Proof.
  intros Hnw Hn. rewrite num_items_concat, PartitionFacts.concat_blocks by done.
  rewrite len_slice; lia.
Qed.

End facts.
End PartitionMore.

(** X1.  Over the ranks [0 .. NUM_NODES - 1] the method hands out
    [len(user_items)] items in all: with [num_workers >= 1] it returns a
    result on every rank, and the numbers of items in the results add up
    to the length of the list.  The blocks of every rank, put end to end,
    are the first items of [user_items]: as many as its node has, taken
    from the head of the list. *)
Theorem X1_node_counts_cover {A : Type} (num_workers num_nodes : Z)
    (user_items : list A) :
  1 ≤ num_workers → 1 ≤ num_nodes →
  ∃ results : list (list Z * list (list A)),
    Py.len results = num_nodes
    ∧ (∀ (k : nat) res, results !! k = Some res →
         Partition._associated_items_to_workers num_workers num_nodes
           (Z.of_nat k) user_items = Ok (Some res)
         ∧ concat res.2
           = Py.slice user_items 0 (Coordinator.num_items res.2))
    ∧ foldr Z.add 0 ((λ res, Coordinator.num_items res.2) <$> results)
      = Py.len user_items.
Proof.
  intros Hnw Hnn.
  set (n := λ rank, Py.len (Partition.node_slice num_nodes user_items rank)).
  set (blocks := λ rank,
         map (λ w, Py.slice user_items (w * (n rank / num_workers))
                     (if w =? num_workers - 1 then n rank
                      else (w + 1) * (n rank / num_workers)))
             (Py.range num_workers)).
  set (result_of := λ rank,
         (map (λ w, w * (n rank / num_workers)) (Py.range num_workers),
          blocks rank)).
  assert (∀ rank, 0 ≤ n rank ≤ Py.len user_items) as Hn.
  { intros rank. split; [unfold n, Py.len; lia|apply PartitionFacts.len_slice_le]. }
  assert (∀ rank, Coordinator.num_items (blocks rank) = n rank) as Hcount.
  { intros rank. by apply PartitionMore.num_items_blocks. }
  exists (result_of <$> Py.range num_nodes). split; [|split].
  - unfold Py.len. rewrite length_fmap, PartitionMore.length_range. lia.
  - intros k res Hres. rewrite list_lookup_fmap in Hres.
    assert (Z.of_nat k < num_nodes) as Hk.
    { destruct (Py.range num_nodes !! k) eqn:E; [|done].
      apply lookup_lt_Some in E. rewrite PartitionMore.length_range in E. lia. }
    rewrite PartitionMore.range_lookup in Hres by done.
    simpl in Hres. injection Hres as <-. split.
    + by rewrite PartitionMore.assoc_result by lia.
    + simpl. rewrite Hcount. by apply PartitionFacts.concat_blocks.
  - rewrite <- list_fmap_compose.
    rewrite (list_fmap_ext _ n (Py.range num_nodes))
      by (intros; simpl; apply Hcount).
    pose proof (PartitionMore.num_items_concat
                  (map (Partition.node_slice num_nodes user_items)
                       (Py.range num_nodes))) as Hsum.
    rewrite PartitionMore.node_slices_concat in Hsum by done.
    unfold Coordinator.num_items in Hsum. rewrite <- Hsum.
    by rewrite <- list_fmap_compose.
Qed.

Lemma X1_node_counts_cover_witness :
  (∃ results : list (list Z * list (list Z)),
     Py.len results = 3
     ∧ (∀ (k : nat) res, results !! k = Some res →
          Partition._associated_items_to_workers 2 3 (Z.of_nat k)
            [0; 1; 2; 3; 4; 5; 6; 7] = Ok (Some res)
          ∧ concat res.2
            = Py.slice [0; 1; 2; 3; 4; 5; 6; 7] 0 (Coordinator.num_items res.2))
     ∧ foldr Z.add 0 ((λ res, Coordinator.num_items res.2) <$> results)
       = Py.len [0; 1; 2; 3; 4; 5; 6; 7])
  ∧ Partition._associated_items_to_workers 2 3 0 [0; 1; 2; 3; 4; 5; 6; 7]
    = Ok (Some ([0; 1], [[0]; [1]]))
  ∧ Partition._associated_items_to_workers 2 3 1 [0; 1; 2; 3; 4; 5; 6; 7]
    = Ok (Some ([0; 1], [[0]; [1]]))
  ∧ Partition._associated_items_to_workers 2 3 2 [0; 1; 2; 3; 4; 5; 6; 7]
    = Ok (Some ([0; 2], [[0; 1]; [2; 3]])).
Proof.
  split; [|by vm_compute].
  apply (X1_node_counts_cover 2 3 [0; 1; 2; 3; 4; 5; 6; 7]); lia.
Defined.

(** X2.  For a valid rank and [num_workers >= 1] the method returns one
    begin and one block per worker; the begin of worker [w] is
    [w * s] with [s = len(node_user_items) // num_workers]; every block
    but the last holds [s] items and the last holds the rest, so that the
    blocks hold [len(node_user_items)] items in all, which is the
    [num_items] that [run] waits for. *)
Theorem X2_block_sizes {A : Type} (num_workers num_nodes node_rank : Z)
    (user_items : list A) :
  1 ≤ num_workers → 0 ≤ node_rank < num_nodes →
  let n := Py.len (Partition.node_slice num_nodes user_items node_rank) in
  let s := n / num_workers in
  ∃ begins parts,
    Partition._associated_items_to_workers num_workers num_nodes node_rank
      user_items = Ok (Some (begins, parts))
    ∧ Py.len begins = num_workers ∧ Py.len parts = num_workers
    ∧ (∀ w : nat, Z.of_nat w < num_workers →
         begins !! w = Some (Z.of_nat w * s)
         ∧ ∃ block, parts !! w = Some block
             ∧ Py.len block
               = if Z.of_nat w =? num_workers - 1
                 then n - (num_workers - 1) * s else s)
    ∧ Coordinator.num_items parts = n.
Proof.
  intros Hnw Hrank n s. eexists _, _.
  split; [apply PartitionMore.assoc_result; [lia|done]|]. cbv zeta.
  fold n. fold s.
  assert (0 ≤ n ≤ Py.len user_items) as Hn.
  { split; [unfold n, Py.len; lia|apply PartitionFacts.len_slice_le]. }
  split; [|split; [|split]].
  - unfold Py.len. rewrite length_map, PartitionMore.length_range. lia.
  - unfold Py.len. rewrite length_map, PartitionMore.length_range. lia.
  - intros w Hw.
    rewrite !list_lookup_fmap, PartitionMore.range_lookup by done. simpl.
    split; [done|]. eexists. split; [done|].
    pose proof (PartitionMore.block_bounds n num_workers w Hnw (proj1 Hn) Hw)
      as (Hb1 & Hb2 & Hb3).
    fold s in Hb1, Hb2, Hb3.
    rewrite PartitionMore.len_slice by lia.
    destruct (Z.eqb_spec (Z.of_nat w) (num_workers - 1)) as [->|]; lia.
  - rewrite PartitionMore.num_items_concat.
    unfold s. rewrite PartitionFacts.concat_blocks by done.
    rewrite PartitionMore.len_slice; lia.
Qed.

Lemma X2_block_sizes_witness :
  ∃ begins parts,
    Partition._associated_items_to_workers 3 2 0 [0; 1; 2; 3; 4; 5; 6; 7; 8; 9; 10]
    = Ok (Some (begins, parts))
    ∧ Py.len begins = 3 ∧ Py.len parts = 3
    ∧ (∀ w : nat, Z.of_nat w < 3 →
         begins !! w = Some (Z.of_nat w * 1)
         ∧ ∃ block, parts !! w = Some block
             ∧ Py.len block = if Z.of_nat w =? 3 - 1 then 5 - (3 - 1) * 1 else 1)
    ∧ Coordinator.num_items parts = 5.
Proof.
  apply (X2_block_sizes 3 2 0 [0; 1; 2; 3; 4; 5; 6; 7; 8; 9; 10]); lia.
Defined.

(** X3.  Whatever the rank, the item at position [r] of the block of
    worker [w] is the item at position [begins[w] + r] of the item list:
    with [begins[w]] as its [start_index], a worker numbers the cache slot
    of an item with the position of the item in [user_items]. *)
Theorem X3_slot_is_position {A : Type} (num_workers num_nodes node_rank : Z)
    (user_items : list A) (begins : list Z) (parts : list (list A))
    (w r : nat) (b : Z) (block : list A) (x : A) :
  1 ≤ num_workers → 0 ≤ node_rank < num_nodes →
  Partition._associated_items_to_workers num_workers num_nodes node_rank
    user_items = Ok (Some (begins, parts)) →
  begins !! w = Some b → parts !! w = Some block → block !! r = Some x →
  user_items !! Z.to_nat (b + Z.of_nat r) = Some x.
Proof.
  intros Hnw Hrank Hres Hb Hblock Hx.
  rewrite PartitionMore.assoc_result in Hres by (lia || done).
  cbv zeta in Hres. injection Hres as <- <-.
  set (n := Py.len (Partition.node_slice num_nodes user_items node_rank)) in *.
  assert (0 ≤ n ≤ Py.len user_items) as Hn.
  { split; [unfold n, Py.len; lia|apply PartitionFacts.len_slice_le]. }
  assert (Z.of_nat w < num_workers) as Hw.
  { apply lookup_lt_Some in Hb.
    rewrite length_map, PartitionMore.length_range in Hb. lia. }
  rewrite (list_lookup_fmap _ (Py.range num_workers) w) in Hb.
  rewrite (list_lookup_fmap _ (Py.range num_workers) w) in Hblock.
  rewrite PartitionMore.range_lookup in Hb by done.
  rewrite PartitionMore.range_lookup in Hblock by done.
  simpl in Hb, Hblock. injection Hb as <-. injection Hblock as <-.
  pose proof (PartitionMore.block_bounds n num_workers w Hnw (proj1 Hn) Hw)
    as (Hb1 & Hb2 & Hb3).
  eapply PartitionMore.slice_lookup; [| |exact Hx]; lia.
Qed.

Lemma X3_slot_is_position_witness :
  [10; 11; 12; 13; 14; 15; 16] !! Z.to_nat (4 + Z.of_nat 1) = Some 15.
Proof.
  apply (X3_slot_is_position 3 1 0 [10; 11; 12; 13; 14; 15; 16]
           [0; 2; 4] [[10; 11]; [12; 13]; [14; 15; 16]] 2 1 4 [14; 15; 16] 15);
    (lia || reflexivity).
Defined.

(** X4.  On the node of rank 0, and so on a single node, the blocks put
    end to end are the slice of the node. *)
Theorem X4_first_node_blocks {A : Type} (num_workers num_nodes : Z)
    (user_items : list A) :
  1 ≤ num_workers → 1 ≤ num_nodes →
  ∃ begins parts,
    Partition._associated_items_to_workers num_workers num_nodes 0 user_items
    = Ok (Some (begins, parts))
    ∧ concat parts = Partition.node_slice num_nodes user_items 0.
Proof.
  intros Hnw Hnn.
  destruct (PartitionFacts.assoc_valid num_workers num_nodes 0 user_items)
    as (begins & parts & Hres & Hcat); [lia|lia|].
  exists begins, parts. split; [done|]. rewrite Hcat.
  unfold Partition.node_slice. rewrite Z.mul_0_l.
  set (e := if 0 =? num_nodes - 1 then Py.len user_items
            else (0 + 1) * (Py.len user_items / num_nodes)).
  assert (0 ≤ e ≤ Py.len user_items) as He.
  { unfold e. assert (0 ≤ Py.len user_items) by (unfold Py.len; lia).
    assert (0 ≤ Py.len user_items / num_nodes) by (apply Z.div_pos; lia).
    pose proof (Z.mul_div_le (Py.len user_items) num_nodes ltac:(lia)).
    destruct (0 =? num_nodes - 1); nia. }
  by rewrite PartitionMore.len_slice, Z.sub_0_r by lia.
Qed.

Lemma X4_first_node_blocks_witness :
  ∃ begins parts,
    Partition._associated_items_to_workers 2 2 0 [0; 1; 2; 3; 4; 5; 6]
    = Ok (Some (begins, parts))
    ∧ concat parts = Partition.node_slice 2 [0; 1; 2; 3; 4; 5; 6] 0.
Proof.
  apply (X4_first_node_blocks 2 2 [0; 1; 2; 3; 4; 5; 6]); lia.
Defined.

(** X5.  With a valid rank, [num_workers = 0] makes the method raise
    [ZeroDivisionError], and a negative [num_workers] makes it return two
    empty lists. *)
Theorem X5_no_workers {A : Type} (num_workers num_nodes node_rank : Z)
    (user_items : list A) :
  0 ≤ node_rank < num_nodes →
  (num_workers = 0 →
     Partition._associated_items_to_workers num_workers num_nodes node_rank
       user_items = Raise ZeroDivisionError)
  ∧ (num_workers < 0 →
     Partition._associated_items_to_workers num_workers num_nodes node_rank
       user_items = Ok (Some ([], []))).
Proof.
  intros Hrank. split.
  - intros ->. unfold Partition._associated_items_to_workers, Py.floordiv.
    destruct (Z.eqb_spec num_nodes 0); [lia|]. simpl.
    rewrite PartitionFacts.node_loop_hit
      by (apply PartitionFacts.NoDup_range
          || by apply PartitionFacts.elem_of_range).
    done.
  - intros Hneg. rewrite PartitionMore.assoc_result by (lia || done).
    cbv zeta. unfold Py.range. by replace (Z.to_nat num_workers) with 0%nat by lia.
Qed.

Lemma X5_no_workers_witness :
  Partition._associated_items_to_workers 0 2 1 [0; 1; 2] = Raise ZeroDivisionError
  ∧ Partition._associated_items_to_workers (-2) 2 1 [0; 1; 2] = Ok (Some ([], [])).
Proof.
  split.
  - apply (X5_no_workers 0 2 1 [0; 1; 2]); [lia|reflexivity].
  - apply (X5_no_workers (-2) 2 1 [0; 1; 2]); lia.
Defined.

(** ** More on the collection of paths *)

Module CollectMore.
Import PyTree Worker.

(** Rebuilding a tree and flattening it again gives back the leaves that
    were used and the shape. *)
Lemma flatten_unflatten_from spec :
  ∀ leaves t rest,
    unflatten_from spec leaves = Some (t, rest) →
    (tree_flatten t).2 = spec ∧ leaves = (tree_flatten t).1 ++ rest.
Proof.
  induction spec as [|c ss IH] using TreeSpec_rect'; intros leaves t rest.
  - destruct leaves as [|x leaves]; simpl; [done|].
    intros [= <- <-]. done.
  - simpl.
    destruct (unflatten_children unflatten_from ss leaves) as [[ts rest']|] eqn:E;
      [|done].
    intros [= <- <-]. simpl.
    assert (map snd (map tree_flatten ts) = ss
            ∧ leaves = concat (map fst (map tree_flatten ts)) ++ rest')
      as [Hs Hl]; [|by rewrite Hs, Hl].
    clear c. revert leaves ts rest' E.
    induction IH as [|s ss Hs _ IHss]; intros leaves ts rest' E; simpl in E.
    + injection E as <- <-. done.
    + destruct (unflatten_from s leaves) as [[t1 r1]|] eqn:E1; [|done].
      destruct (unflatten_children unflatten_from ss r1) as [[ts1 r2]|] eqn:E2;
        [|done].
      injection E as <- <-.
      destruct (Hs _ _ _ E1) as [Hs1 Hl1].
      destruct (IHss _ _ _ E2) as [Hs2 Hl2].
      simpl. rewrite Hs1, Hs2. split; [done|].
      rewrite Hl1, Hl2 at 1. by rewrite <- app_assoc.
Qed.

Lemma flatten_unflatten leaves spec t :
  tree_unflatten leaves spec = Ok t → tree_flatten t = (leaves, spec).
Proof.
  unfold tree_unflatten.
  destruct (length leaves =? num_leaves spec)%nat eqn:El; simpl; [|done].
  apply Nat.eqb_eq in El.
  destruct (unflatten_from spec leaves) as [[t' rest]|] eqn:E; [|done].
  intros [= ->].
  destruct (flatten_unflatten_from spec leaves t rest E) as [Hs Hl].
  pose proof (PyTreeFacts.num_leaves_flatten t) as Hn. rewrite Hs in Hn.
  assert (rest = []) as ->.
  { apply (f_equal length) in Hl. rewrite length_app in Hl.
    destruct rest; [done|]. simpl in Hl. lia. }
  rewrite app_nil_r in Hl. rewrite Hl, <- Hs. by destruct (tree_flatten t).
Qed.

Section facts.
Context `{Externals}.
Variable root : string.

Abbreviation relocate := (Observe.relocate root (cache_dir root)).

(** The loop over the recorded positions replaces exactly the leaves that
    are paths. *)
Lemma rewrite_paths_relocates suf :
  ∀ pre paths,
    (rewrite_paths root (indexed_paths root (length pre) suf) (pre ++ suf) paths).1
    = pre ++ map relocate suf.
Proof.
  induction suf as [|e suf IH]; intros pre paths; [done|].
  assert (∀ e', (pre ++ [e']) ++ suf = pre ++ e' :: suf) as Hmid.
  { intros e'. by rewrite <- app_assoc. }
  assert (S (length pre) = length (pre ++ [e])) as Hlen.
  { rewrite length_app. simpl. lia. }
  destruct e as [s| |]; simpl.
  - destruct (PyStr.startswith s root) eqn:Es; simpl.
    + rewrite insert_app_r_alt by lia. rewrite Nat.sub_diag. simpl.
      rewrite <- Hmid.
      replace (S (length pre))
        with (length (pre ++ [LStr (PyStr.replace s root (cache_dir root))]))
        by (rewrite length_app; simpl; lia).
      rewrite IH. by rewrite <- app_assoc.
    + rewrite <- Hmid, Hlen, IH. by rewrite <- app_assoc.
  - rewrite <- Hmid, Hlen, IH. by rewrite <- app_assoc.
  - rewrite <- Hmid, Hlen, IH. by rewrite <- app_assoc.
Qed.

Lemma collect_item_relocates item paths t :
  collect_item root item = Ok (paths, t) →
  tree_flatten t = (map relocate (tree_flatten item).1, (tree_flatten item).2).
Proof.
  unfold collect_item. destruct (tree_flatten item) as [flat spec]. simpl.
  destruct (length (indexed_paths root 0 flat) =? 0)%nat; [done|].
  pose proof (rewrite_paths_relocates flat [] []) as Hrel. simpl in Hrel.
  destruct (rewrite_paths root (indexed_paths root 0 flat) flat []) as [flat' ps].
  simpl in Hrel. subst flat'.
  destruct (tree_unflatten (map relocate flat) spec) as [t'|] eqn:E; [|done].
  simpl. intros [= <- <-]. by apply flatten_unflatten.
Qed.

Lemma collect_loop_items todo :
  ∀ acc c,
    collect_loop root todo acc = Ok c →
    _collected_items c = _collected_items acc + Py.len todo
    ∧ ∃ new, items c = items acc ++ new
        ∧ Forall2 (λ item item', ∃ ps, collect_item root item = Ok (ps, item'))
            todo new.
Proof.
  induction todo as [|item todo IH]; intros acc c; simpl.
  - intros [= <-]. split; [unfold Py.len; simpl; lia|].
    exists []. by rewrite app_nil_r.
  - destruct (collect_item root item) as [[ps item']|] eqn:E; [|done]. simpl.
    intros Hc. destruct (IH _ _ Hc) as (Hn & new & Hitems & Hall). simpl in *.
    split; [unfold Py.len in *; simpl; lia|].
    exists (item' :: new). split; [by rewrite Hitems, <- app_assoc|].
    constructor; [by exists ps|done].
Qed.

End facts.
End CollectMore.

(** X6.  When [_collect_paths] returns, [self._paths] and [self.items]
    have one entry for every item, in the order of the items,
    [self._collected_items] is the number of items, and the entry of
    [self._paths] for an item is the list of its string leaves that start
    with the root, from left to right. *)
Theorem X6_collect_bookkeeping `{Externals} (root : string)
    (self_items : list PyTree.pytree) (c : Worker.collected) :
  Worker._collect_paths root self_items = Ok c →
  Worker._paths c = map (Worker.item_paths root) self_items
  ∧ length (Worker.items c) = length self_items
  ∧ Worker._collected_items c = Py.len self_items
  ∧ ∀ paths, paths ∈ Worker._paths c → paths ≠ [].
Proof.
  intros Hc.
  destruct (CollectFacts.collect_paths_lengths root self_items c Hc)
    as (Hp & Hl & _).
  destruct (CollectMore.collect_loop_items root self_items _ c Hc) as [Hn _].
  split; [done|]. split; [done|]. split; [done|].
  intros paths. rewrite Hp. intros (item & -> & Hitem)%list_elem_of_fmap.
  intros Hnil. apply CollectFacts.no_root_path_paths in Hnil.
  unfold Worker._collect_paths in Hc.
  rewrite CollectFacts.collect_loop_raises in Hc; [done|by exists item].
Qed.

(** X7.  The item that [_collect_paths] stores for an item has the shape
    of the item, and its leaves are the leaves of the item with every
    string that starts with the root moved under the cache directory
    ([s.replace(root, cache_dir)]) and every other leaf unchanged. *)
Theorem X7_collect_relocates `{Externals} (root : string)
    (self_items : list PyTree.pytree) (c : Worker.collected)
    (i : nat) (item : PyTree.pytree) :
  Worker._collect_paths root self_items = Ok c →
  self_items !! i = Some item →
  ∃ item',
    Worker.items c !! i = Some item'
    ∧ PyTree.tree_flatten item'
      = (map (Observe.relocate root (Worker.cache_dir root))
           (PyTree.tree_flatten item).1,
         (PyTree.tree_flatten item).2).
Proof.
  intros Hc Hitem.
  destruct (CollectMore.collect_loop_items root self_items _ c Hc)
    as (_ & new & Hitems & Hall).
  simpl in Hitems. subst new.
  destruct (Forall2_lookup_l _ _ _ _ _ Hall Hitem) as (item' & Hitem' & ps & Hci).
  exists item'. split; [done|].
  by apply (CollectMore.collect_item_relocates root item ps).
Qed.

(** ** More on the main loop of the worker *)

Module LoopMore.
Import PyTree Worker.

Lemma index_out_of_range {A} (l : list A) (r : Z) :
  r < - Py.len l ∨ Py.len l ≤ r → Py.index l r = Raise IndexError.
Proof.
  intros Hr. unfold Py.index. cbv zeta.
  destruct (Z.ltb_spec r 0).
  - destruct (Z.ltb_spec (r + Py.len l) 0); [done|]. lia.
  - destruct (Z.ltb_spec r 0); [lia|].
    destruct (l !! Z.to_nat r) as [x|] eqn:E; [|done].
    apply lookup_lt_Some in E. unfold Py.len in Hr. lia.
Qed.

Abbreviation counters := Observe.counters.

Lemma counters_S index c n :
  counters index c (S n) = (index, c + 1) :: counters index (c + 1) n.
Proof.
  unfold Observe.counters. simpl. f_equal. rewrite <- fmap_S_seq, <- list_fmap_compose.
  apply list_fmap_ext. intros _ k _. simpl. f_equal. lia.
Qed.

Lemma counters_in_sequence index c n (seen : gmap Z Z) :
  default 0 (seen !! index) = c →
  Coordinator.in_sequence seen (counters index c n).
Proof.
  revert c seen. induction n as [|n IH]; intros c seen Hc; [done|].
  rewrite counters_S. simpl. split; [lia|].
  apply IH. by rewrite lookup_insert_eq.
Qed.

Section facts.
Variables (index start_index : Z).
Variable prepare_item : option (pytree → pytree).
Variable has_worker_queue : bool.
Variable num_downloaders : Z.
Variable remove : bool.
Variable c : collected.

Abbreviation run_loop :=
  (run_loop index start_index prepare_item has_worker_queue num_downloaders
     remove c).
Abbreviation pass :=
  (pass index start_index prepare_item has_worker_queue remove c).
Abbreviation passes :=
  (passes index start_index prepare_item has_worker_queue remove c).

Lemma trace_pass st r :
  trace (pass st r)
  = trace st
    ++ [CacheSet (r + start_index)
          (prepared prepare_item (default (Leaf LNone) (items c !! Z.to_nat r)))]
    ++ (if has_worker_queue then [ProgressPut index (_counter st + 1)] else [])
    ++ (if remove
        then [RemovePut (Some (default [] (_paths c !! Z.to_nat r)))] else []).
Proof.
  unfold Worker.pass. destruct has_worker_queue, remove; simpl;
    rewrite <- ?app_assoc; done.
Qed.

Lemma counter_pass st r : _counter (pass st r) = _counter st + 1.
Proof. unfold Worker.pass. by destruct has_worker_queue, remove. Qed.

Lemma counter_passes rs st :
  _counter (passes rs st) = _counter st + Py.len rs.
Proof.
  revert st. induction rs as [|r rs IH]; intros st.
  - unfold Py.len. simpl. lia.
  - change (passes (r :: rs) st) with (passes rs (pass st r)).
    rewrite IH, counter_pass. unfold Py.len. simpl. lia.
Qed.

Lemma progress_queue_passes rs st :
  Observe.progress_queue (passes rs st)
  = Observe.progress_queue st
    ++ if has_worker_queue then counters index (_counter st) (length rs) else [].
Proof.
  revert st. induction rs as [|r rs IH]; intros st.
  - simpl. destruct has_worker_queue; by rewrite app_nil_r.
  - change (passes (r :: rs) st) with (passes rs (pass st r)).
    rewrite IH, counter_pass. unfold Observe.progress_queue at 1.
    rewrite trace_pass, !omap_app. fold (Observe.progress_queue st).
    simpl length. rewrite counters_S.
    destruct has_worker_queue, remove; simpl; rewrite <- ?app_assoc; done.
Qed.

Lemma remove_queue_passes rs st :
  remove_queue (passes rs st)
  = remove_queue st
    ++ if remove
       then (λ r, Some (default [] (_paths c !! Z.to_nat r))) <$> rs else [].
Proof.
  revert st. induction rs as [|r rs IH]; intros st.
  - simpl. destruct remove; by rewrite app_nil_r.
  - change (passes (r :: rs) st) with (passes rs (pass st r)).
    rewrite IH. unfold remove_queue at 1.
    rewrite trace_pass, !omap_app. fold (remove_queue st).
    destruct has_worker_queue, remove; simpl; rewrite <- ?app_assoc; done.
Qed.

(** The loop reads a sequence of messages in range, with too few
    sentinels to stop, and goes on with what follows. *)
Lemma run_loop_app pre more is_none st :
  length (_paths c) = length (items c) →
  (∀ r, Some r ∈ pre → in_range c r) →
  is_none + count_none pre < num_downloaders →
  run_loop (pre ++ more) is_none st
  = run_loop more (is_none + count_none pre) (passes (indices pre) st).
Proof.
  intros Hlen. revert is_none st.
  induction pre as [|[r|] pre IH]; intros is_none st Hv Hn.
  - rewrite LoopFacts.count_none_nil, Z.add_0_r. done.
  - rewrite <- app_comm_cons, LoopFacts.run_loop_pass by (done || apply Hv; left).
    rewrite LoopFacts.count_none_cons_Some in *.
    rewrite IH; [done| |done]. intros; apply Hv; by right.
  - rewrite LoopFacts.count_none_cons_None in *. simpl.
    pose proof (LoopFacts.count_none_nonneg pre).
    destruct (Z.eqb_spec (is_none + 1) num_downloaders); [lia|].
    rewrite IH; [|intros; apply Hv; by right|lia].
    f_equal. lia.
Qed.

(** Without a downloader to wait for, the loop never returns. *)
Lemma run_loop_never_returns ready is_none st :
  num_downloaders ≤ is_none →
  ∀ st', run_loop ready is_none st ≠ Returned st'.
Proof.
  revert is_none st. induction ready as [|[r|] ready IH]; intros is_none st Hn st'.
  - done.
  - simpl. destruct (Py.index (items c) r); [|done].
    destruct remove; [destruct (Py.index (_paths c) r); [|done]|]; by apply IH.
  - simpl. destruct (Z.eqb_spec (is_none + 1) num_downloaders); [lia|].
    apply IH. lia.
Qed.

End facts.
End LoopMore.

(** X8.  When the loop of a worker returns, after the indices [pre] (all
    in range) and the last sentinel, [self._counter] is the number of
    indices handled, cache slots written; with a worker queue the worker
    has sent the messages [(index, 1)], [(index, 2)], ... one per index and
    in this order, and without one it has sent none. *)
Theorem X8_counter_and_progress `{Externals} (index start_index : Z)
    (prepare_item : option (PyTree.pytree → PyTree.pytree)) (root : string)
    (has_worker_queue : bool) (num_downloaders : Z) (remove : bool)
    (self_items : list PyTree.pytree) (c : Worker.collected)
    (pre : list (option Z)) :
  Worker._collect_paths root self_items = Ok c →
  Worker.count_none pre = num_downloaders - 1 →
  (∀ r, Some r ∈ pre → Worker.in_range c r) →
  ∃ st,
    Worker.run index start_index prepare_item root has_worker_queue
      num_downloaders remove self_items (pre ++ [None]) = Returned st
    ∧ Worker._counter st = Py.len (Worker.indices pre)
    ∧ Observe.progress_queue st
      = (if has_worker_queue
         then (λ k, (index, Z.of_nat k)) <$> seq 1 (length (Worker.indices pre))
         else [])
    ∧ Coordinator.in_sequence ∅ (Observe.progress_queue st).
Proof.
  intros Hc Hn Hv.
  pose proof (LoopFacts.count_none_nonneg pre) as Hnn.
  destruct (CollectFacts.collect_paths_lengths root self_items c Hc)
    as (_ & _ & Hlen).
  eexists. split.
  { rewrite (RunFacts.run_is_loop _ _ _ _ _ _ _ _ c) by (done || lia).
    apply LoopFacts.run_loop_returned; [done|done|lia]. }
  assert (Observe.progress_queue
            (Worker.emit Worker.CacheDone
               (Worker.emit (Worker.RemovePut None)
                  (Worker.passes index start_index prepare_item has_worker_queue
                     remove c (Worker.indices pre) Worker.init)))
          = if has_worker_queue
            then LoopMore.counters index 0 (length (Worker.indices pre)) else [])
    as Hq.
  { unfold Observe.progress_queue. simpl. rewrite !omap_app. simpl.
    rewrite !app_nil_r. fold (Observe.progress_queue
      (Worker.passes index start_index prepare_item has_worker_queue
         remove c (Worker.indices pre) Worker.init)).
    by rewrite LoopMore.progress_queue_passes. }
  split; [|split].
  - simpl. rewrite LoopMore.counter_passes. simpl. lia.
  - rewrite Hq. by destruct has_worker_queue.
  - rewrite Hq. destruct has_worker_queue; [|done].
    by apply LoopMore.counters_in_sequence.
Qed.

(** X9.  When the loop returns, the remove queue holds, with
    [remove=True], the path lists of the indices in the order in which the
    indices arrived and then the sentinel [None]; with [remove=False] it
    holds the sentinel only. *)
Theorem X9_remove_queue `{Externals} (index start_index : Z)
    (prepare_item : option (PyTree.pytree → PyTree.pytree)) (root : string)
    (has_worker_queue : bool) (num_downloaders : Z) (remove : bool)
    (self_items : list PyTree.pytree) (c : Worker.collected)
    (pre : list (option Z)) :
  Worker._collect_paths root self_items = Ok c →
  Worker.count_none pre = num_downloaders - 1 →
  (∀ r, Some r ∈ pre → Worker.in_range c r) →
  ∃ st,
    Worker.run index start_index prepare_item root has_worker_queue
      num_downloaders remove self_items (pre ++ [None]) = Returned st
    ∧ Worker.remove_queue st
      = (if remove
         then (λ r, Worker._paths c !! Z.to_nat r) <$> Worker.indices pre
         else [])
        ++ [None].
Proof.
  intros Hc Hn Hv.
  pose proof (LoopFacts.count_none_nonneg pre) as Hnn.
  destruct (CollectFacts.collect_paths_lengths root self_items c Hc)
    as (_ & _ & Hlen).
  eexists. split.
  { rewrite (RunFacts.run_is_loop _ _ _ _ _ _ _ _ c) by (done || lia).
    apply LoopFacts.run_loop_returned; [done|done|lia]. }
  unfold Worker.remove_queue. simpl. rewrite !omap_app. simpl.
  rewrite app_nil_r.
  fold (Worker.remove_queue
          (Worker.passes index start_index prepare_item has_worker_queue
             remove c (Worker.indices pre) Worker.init)).
  rewrite LoopMore.remove_queue_passes. simpl. f_equal.
  destruct remove; [|done].
  apply list_fmap_ext. intros i r Hr.
  apply list_elem_of_lookup_2, LoopFacts.elem_of_indices, Hv in Hr.
  destruct (LoopFacts.index_in_range (Worker._paths c) r) as (ps & Hps & _).
  { unfold Worker.in_range, Py.len in *. lia. }
  by rewrite Hps.
Qed.

(** X10.  An index that is not a position of the items, [r >= len(items)]
    or [r < -len(items)], kills the worker with [IndexError]: the loop
    stops in the state it had reached, and writes no cache slot for the
    index. *)
Theorem X10_bad_index `{Externals} (index start_index : Z)
    (prepare_item : option (PyTree.pytree → PyTree.pytree)) (root : string)
    (has_worker_queue : bool) (num_downloaders : Z) (remove : bool)
    (self_items : list PyTree.pytree) (c : Worker.collected)
    (pre rest : list (option Z)) (r : Z) :
  Worker._collect_paths root self_items = Ok c →
  Worker.count_none pre < num_downloaders →
  (∀ r, Some r ∈ pre → Worker.in_range c r) →
  r < - Py.len (Worker.items c) ∨ Py.len (Worker.items c) ≤ r →
  ∃ st,
    Worker.run index start_index prepare_item root has_worker_queue
      num_downloaders remove self_items pre = Blocked st
    ∧ Worker.run index start_index prepare_item root has_worker_queue
        num_downloaders remove self_items (pre ++ Some r :: rest)
      = Raised IndexError st.
Proof.
  intros Hc Hn Hv Hr.
  pose proof (LoopFacts.count_none_nonneg pre) as Hnn.
  destruct (CollectFacts.collect_paths_lengths root self_items c Hc)
    as (_ & _ & Hlen).
  eexists. split.
  - rewrite (RunFacts.run_is_loop _ _ _ _ _ _ _ _ c) by (done || lia).
    apply LoopFacts.run_loop_blocked; [done|done|lia].
  - rewrite (RunFacts.run_is_loop _ _ _ _ _ _ _ _ c) by (done || lia).
    rewrite LoopMore.run_loop_app by (done || lia). simpl.
    by rewrite LoopMore.index_out_of_range.
Qed.

(** X11.  With [num_downloaders <= 0] the worker never returns from [run],
    whatever arrives on the ready queue; with [num_downloaders = 0] and at
    least one item it dies with [ZeroDivisionError] while it shares out
    the work units, before the loop. *)
Theorem X11_no_downloaders `{Externals} (index start_index : Z)
    (prepare_item : option (PyTree.pytree → PyTree.pytree)) (root : string)
    (has_worker_queue : bool) (num_downloaders : Z) (remove : bool)
    (self_items : list PyTree.pytree) (ready : list (option Z)) :
  num_downloaders ≤ 0 →
  (∀ st, Worker.run index start_index prepare_item root has_worker_queue
           num_downloaders remove self_items ready ≠ Returned st)
  ∧ (num_downloaders = 0 → self_items ≠ [] →
     (∀ item, item ∈ self_items → Worker.has_root_path root item) →
     Worker.run index start_index prepare_item root has_worker_queue
       num_downloaders remove self_items ready
     = Raised ZeroDivisionError Worker.init).
Proof.
  intros HN. split.
  - intros st. unfold Worker.run.
    destruct (Worker._collect_paths root self_items) as [c|]; [|done].
    destruct (Worker._start_downloaders num_downloaders (Worker._paths c));
      [|done].
    apply LoopMore.run_loop_never_returns. lia.
  - intros -> Hne Hall. unfold Worker.run, Worker._collect_paths.
    destruct (CollectFacts.collect_loop_ok root self_items
                {| Worker._paths := []; Worker.items := [];
                   Worker._collected_items := 0 |} Hall)
      as (c & -> & Hp & _).
    simpl in Hp. rewrite Hp. destruct self_items as [|item rest]; [done|].
    reflexivity.
Qed.

(** ** More on the downloader and the remover *)

Module TransferMore.

Section downloader.
Context `{Externals} `{FileSystemLaws Disk}.
Variables (root remote_root cache_dir : string).

Abbreviation target p := (PyStr.replace p root cache_dir).
Abbreviation is_s3 := (Downloader.is_s3 root remote_root).
Abbreviation request_of := (Downloader.request_of root remote_root cache_dir).
Abbreviation download_paths :=
  (Downloader.download_paths root remote_root cache_dir).
Abbreviation _download_data_target :=
  (Downloader._download_data_target root remote_root cache_dir).

Lemma download_paths_app pre more (st : Downloader.state Disk) :
  (∀ p, p ∈ pre → is_s3 p) →
  download_paths (pre ++ more) st = download_paths more (download_paths pre st).1.
Proof.
  revert st. induction pre as [|p pre IH]; intros st Hs3; [done|].
  assert (is_s3 p) as Hp by (apply Hs3; left).
  unfold Downloader.is_s3 in Hp. simpl. rewrite Hp. simpl.
  apply IH. intros q Hq. apply Hs3. by right.
Qed.

(** The loop over the paths keeps the files that exist, and fetches for
    [s3] paths of the unit only. *)
Lemma download_paths_grows paths (st : Downloader.state Disk) :
  (∀ q, path_exists (Downloader.fs st) q = true →
        path_exists (Downloader.fs (download_paths paths st).1) q = true)
  ∧ ∃ done_,
      Downloader.downloads (download_paths paths st).1
      = Downloader.downloads st ++ map request_of done_
      ∧ ∀ p, p ∈ done_ → p ∈ paths ∧ is_s3 p.
Proof.
  revert st. induction paths as [|p paths IH]; intros st.
  - split; [done|]. exists []. split; [by rewrite app_nil_r|]. by inversion 1.
  - simpl.
    destruct (String.eqb_spec (scheme (urlparse (PyStr.replace p root remote_root)))
                "s3") as [Hs|Hs]; simpl.
    + match goal with
      | |- context [download_paths paths ?st0] =>
          destruct (IH st0) as (Hex & done_ & Hdl & Hdone)
      end.
      simpl in *. split.
      * intros q Hq. apply Hex.
        by apply exists_write_file_mono, exists_makedirs_mono.
      * exists (p :: done_). split.
        -- rewrite Hdl, <- app_assoc. done.
        -- intros q [->|Hq]%elem_of_cons; [split; [left|done]|].
           destruct (Hdone q Hq). split; [by right|done].
    + split; [done|]. exists []. split; [by rewrite app_nil_r|]. by inversion 1.
Qed.

Lemma all_downloaded_put paths msg (st : Downloader.state Disk) :
  Downloader.all_downloaded root cache_dir paths (Downloader.put msg st)
  = Downloader.all_downloaded root cache_dir paths st.
Proof. done. Qed.

(** The whole loop keeps the files that exist and fetches for [s3] paths
    of the units it has read only. *)
Lemma downloader_grows queue_in (st : Downloader.state Disk) :
  (∀ q, path_exists (Downloader.fs st) q = true →
        path_exists
          (Downloader.fs (final_state (_download_data_target queue_in st))) q
        = true)
  ∧ ∃ done_,
      Downloader.downloads (final_state (_download_data_target queue_in st))
      = Downloader.downloads st ++ map request_of done_
      ∧ ∀ p, p ∈ done_ →
          is_s3 p ∧ ∃ index paths, Some (index, paths) ∈ queue_in ∧ p ∈ paths.
Proof.
  revert st. induction queue_in as [|[[index paths]|] rest IH]; intros st.
  - split; [done|]. exists []. split; [by rewrite app_nil_r|]. by inversion 1.
  - simpl. destruct (Downloader.all_downloaded root cache_dir paths st).
    + destruct (IH (Downloader.put (Some index) st)) as (Hex & done_ & Hdl & Hd).
      split; [exact Hex|]. exists done_. split; [exact Hdl|].
      intros p Hp. destruct (Hd p Hp) as (Hs & i & ps & Hin & Hpin).
      split; [done|]. exists i, ps. split; [by right|done].
    + destruct (download_paths_grows paths st) as (Hex1 & done1 & Hdl1 & Hd1).
      destruct (download_paths paths st) as [st1 [e|]]; simpl in *.
      * split; [exact Hex1|]. exists done1. split; [exact Hdl1|].
        intros p Hp. destruct (Hd1 p Hp). split; [done|].
        exists index, paths. split; [left|done].
      * destruct (IH (Downloader.put (Some index) st1))
          as (Hex & done_ & Hdl & Hd).
        split; [intros q Hq; by apply Hex, Hex1|].
        exists (done1 ++ done_). split.
        -- rewrite Hdl. simpl. rewrite Hdl1, map_app, <- app_assoc. done.
        -- intros p [Hp|Hp]%elem_of_app.
           ++ destruct (Hd1 p Hp). split; [done|].
              exists index, paths. split; [left|done].
           ++ destruct (Hd p Hp) as (Hs & i & ps & Hin & Hpin).
              split; [done|]. exists i, ps. split; [by right|done].
  - split; [done|]. exists []. split; [by rewrite app_nil_r|]. by inversion 1.
Qed.

End downloader.

Section remover.
Context `{FileSystemLaws Disk}.
Variables (root cache_dir : string).

Abbreviation remove_paths := (Remover.remove_paths root cache_dir).
Abbreviation _remove_target := (Remover._remove_target root cache_dir).

Lemma remove_paths_app a b (st : Remover.state Disk) :
  remove_paths (a ++ b) st = remove_paths b (remove_paths a st).
Proof.
  revert st. induction a as [|p a IH]; intros st; [done|].
  simpl. by destruct (path_exists _ _).
Qed.

(** The remover handles the messages before the sentinel as one list of
    paths, and returns at the sentinel. *)
Lemma remove_target_returns pss rest (st : Remover.state Disk) :
  _remove_target ((Some <$> pss) ++ None :: rest) st
  = Returned (remove_paths (concat pss) st).
Proof.
  revert st. induction pss as [|ps pss IH]; intros st; [done|].
  simpl. by rewrite IH, remove_paths_app.
Qed.

End remover.
End TransferMore.

(** X12.  A downloader never deletes: every path that exists when it
    starts exists when it stops, however it stops.  And it fetches only
    for paths of the work units it has read whose remote counterpart is
    an [s3] URL: the download requests it has added are requests for such
    paths. *)
Theorem X12_downloader_only_adds `{Externals} `{FileSystemLaws Disk}
    (root remote_root cache_dir : string)
    (queue_in : list (option (Z * list string)))
    (st : Downloader.state Disk) :
  let st' :=
    final_state
      (Downloader._download_data_target root remote_root cache_dir queue_in st) in
  (∀ q, path_exists (Downloader.fs st) q = true →
        path_exists (Downloader.fs st') q = true)
  ∧ ∃ fetched,
      Downloader.downloads st'
      = Downloader.downloads st
        ++ map (Downloader.request_of root remote_root cache_dir) fetched
      ∧ ∀ p, p ∈ fetched →
          Downloader.is_s3 root remote_root p
          ∧ ∃ index paths, Some (index, paths) ∈ queue_in ∧ p ∈ paths.
Proof. apply TransferMore.downloader_grows. Qed.

(** X13.  A unit that is delivered twice is downloaded once: when the
    paths of a unit have [s3] remote counterparts, the downloader that
    reads the unit and then a unit with the same paths reports the first
    index, then the second, and waits; it issues at most one download per
    path for the two, none for the second, which leaves the disk as it
    is.  Whatever follows the two units is handled from that state. *)
Theorem X13_second_delivery_is_cached `{Externals} `{FileSystemLaws Disk}
    (root remote_root cache_dir : string) (i j : Z) (paths : list string)
    (rest : list (option (Z * list string))) (st : Downloader.state Disk) :
  (∀ p, p ∈ paths → Downloader.is_s3 root remote_root p) →
  ∃ st1 st2,
    Downloader._download_data_target root remote_root cache_dir
      [Some (i, paths)] st = Blocked st1
    ∧ Downloader._download_data_target root remote_root cache_dir
        [Some (i, paths); Some (j, paths)] st = Blocked st2
    ∧ Downloader._download_data_target root remote_root cache_dir
        (Some (i, paths) :: Some (j, paths) :: rest) st
      = Downloader._download_data_target root remote_root cache_dir rest st2
    ∧ Downloader.queue_out st1 = Downloader.queue_out st ++ [Some i]
    ∧ Downloader.queue_out st2 = Downloader.queue_out st ++ [Some i; Some j]
    ∧ Downloader.downloads st2 = Downloader.downloads st1
    ∧ Downloader.fs st2 = Downloader.fs st1
    ∧ (Downloader.downloads st1 = Downloader.downloads st
       ∨ Downloader.downloads st1
         = Downloader.downloads st
           ++ map (Downloader.request_of root remote_root cache_dir) paths).
Proof.
  intros Hs3.
  assert (∀ (st1 : Downloader.state Disk) more,
            (∀ p, p ∈ paths →
               path_exists (Downloader.fs st1) (PyStr.replace p root cache_dir)
               = true) →
            Downloader._download_data_target root remote_root cache_dir
              (Some (j, paths) :: more) st1
            = Downloader._download_data_target root remote_root cache_dir more
                (Downloader.put (Some j) st1)) as Hsecond.
  { intros st1 more Hall. simpl.
    by rewrite (proj2 (DownloaderFacts.all_downloaded_true _ _ _ _) Hall). }
  destruct (Downloader.all_downloaded root cache_dir paths st) eqn:Eall.
  - assert (∀ p, p ∈ paths →
              path_exists (Downloader.fs (Downloader.put (Some i) st))
                (PyStr.replace p root cache_dir) = true) as Hall.
    { by apply DownloaderFacts.all_downloaded_true. }
    exists (Downloader.put (Some i) st),
      (Downloader.put (Some j) (Downloader.put (Some i) st)).
    assert (∀ more,
              Downloader._download_data_target root remote_root cache_dir
                (Some (i, paths) :: more) st
              = Downloader._download_data_target root remote_root cache_dir
                  more (Downloader.put (Some i) st)) as Hfirst.
    { intros more. simpl. by rewrite Eall. }
    split; [by rewrite Hfirst|].
    split; [by rewrite Hfirst, Hsecond|].
    split; [by rewrite Hfirst, Hsecond|].
    simpl. rewrite <- app_assoc. split; [done|]. split; [done|].
    split; [done|]. split; [done|]. by left.
  - destruct (DownloaderFacts.download_paths_s3 root remote_root cache_dir
                paths st Hs3) as [Hnone Hdl].
    pose proof (DownloaderFacts.download_paths_queue_out root remote_root
                  cache_dir paths st) as Hq.
    pose proof (DownloaderFacts.download_paths_exists root remote_root
                  cache_dir paths st Hs3) as Hex.
    destruct (Downloader.download_paths root remote_root cache_dir paths st)
      as [st0 e] eqn:Edl.
    simpl in Hnone, Hdl, Hq, Hex. subst e.
    assert (∀ p, p ∈ paths →
              path_exists (Downloader.fs (Downloader.put (Some i) st0))
                (PyStr.replace p root cache_dir) = true) as Hall.
    { intros p Hp. simpl. apply Hex. right. by exists p. }
    exists (Downloader.put (Some i) st0),
      (Downloader.put (Some j) (Downloader.put (Some i) st0)).
    assert (∀ more,
              Downloader._download_data_target root remote_root cache_dir
                (Some (i, paths) :: more) st
              = Downloader._download_data_target root remote_root cache_dir
                  more (Downloader.put (Some i) st0)) as Hfirst.
    { intros more. simpl. by rewrite Eall, Edl. }
    split; [by rewrite Hfirst|].
    split; [by rewrite Hfirst, Hsecond|].
    split; [by rewrite Hfirst, Hsecond|].
    simpl. rewrite Hq, <- app_assoc. split; [done|]. split; [done|].
    split; [done|]. split; [done|]. by right.
Qed.

(** X14.  A unit that fails has been downloaded in part: when the first
    path without an [s3] remote counterpart comes after the paths [pre],
    the downloader has fetched the paths of [pre], one request each and in
    order, their files are in the cache, and it has fetched nothing for
    the paths after them. *)
Theorem X14_partial_download `{Externals} `{FileSystemLaws Disk}
    (root remote_root cache_dir : string) (index : Z)
    (pre post : list string) (bad : string)
    (rest : list (option (Z * list string))) (st : Downloader.state Disk) :
  Downloader.all_downloaded root cache_dir (pre ++ bad :: post) st = false →
  (∀ p, p ∈ pre → Downloader.is_s3 root remote_root p) →
  ¬ Downloader.is_s3 root remote_root bad →
  ∃ st',
    Downloader._download_data_target root remote_root cache_dir
      (Some (index, pre ++ bad :: post) :: rest) st = Raised ValueError st'
    ∧ Downloader.downloads st'
      = Downloader.downloads st
        ++ map (Downloader.request_of root remote_root cache_dir) pre
    ∧ Downloader.queue_out st' = Downloader.queue_out st
    ∧ ∀ p, p ∈ pre →
        path_exists (Downloader.fs st') (PyStr.replace p root cache_dir) = true.
Proof.
  intros Hnot Hs3 Hbad. simpl. rewrite Hnot.
  rewrite TransferMore.download_paths_app by done.
  destruct (DownloaderFacts.download_paths_s3 root remote_root cache_dir
              pre st Hs3) as [_ Hdl].
  pose proof (DownloaderFacts.download_paths_queue_out root remote_root
                cache_dir pre st) as Hq.
  pose proof (DownloaderFacts.download_paths_exists root remote_root
                cache_dir pre st Hs3) as Hex.
  destruct (Downloader.download_paths root remote_root cache_dir pre st)
    as [st0 e].
  simpl in *. unfold Downloader.is_s3 in Hbad.
  destruct (String.eqb_spec
              (scheme (urlparse (PyStr.replace bad root remote_root))) "s3");
    [done|].
  simpl. exists st0. split; [done|]. split; [done|]. split; [done|].
  intros p Hp. apply Hex. right. by exists p.
Qed.

(** X15.  The remover, run on the messages before the sentinel, returns at
    the sentinel.  Afterwards no file exists at the cache location of any
    path it was given; a path that is no such location exists as before
    and was not removed; and no path was removed twice, nor removed
    without existing when the remover started. *)
Theorem X15_remover_scope `{FileSystemLaws Disk}
    (root cache_dir : string) (pss : list (list string))
    (rest : list (option (list string))) (st : Remover.state Disk) :
  ∃ st',
    Remover._remove_target root cache_dir ((Some <$> pss) ++ None :: rest) st
    = Returned st'
    ∧ (∀ p, p ∈ concat pss →
         path_exists (Remover.fs st') (PyStr.replace p root cache_dir) = false)
    ∧ (∀ x, x ∉ Observe.targets root cache_dir (concat pss) →
         path_exists (Remover.fs st') x = path_exists (Remover.fs st) x
         ∧ Remover.occurrences x (Remover.removed st')
           = Remover.occurrences x (Remover.removed st))
    ∧ (∀ x, Remover.occurrences x (Remover.removed st')
              = Remover.occurrences x (Remover.removed st)
            ∨ (Remover.occurrences x (Remover.removed st')
               = S (Remover.occurrences x (Remover.removed st))
               ∧ path_exists (Remover.fs st) x = true)).
Proof.
  exists (Remover.remove_paths root cache_dir (concat pss) st).
  split; [apply TransferMore.remove_target_returns|].
  split; [|split].
  - intros p Hp.
    destruct (RemoverFacts.remove_paths_spec root cache_dir (concat pss) st
                (PyStr.replace p root cache_dir)) as [H1 H2].
    destruct (path_exists (Remover.fs st) (PyStr.replace p root cache_dir)) eqn:E.
    + apply H1; [|done]. apply list_elem_of_fmap. by exists p.
    + destruct H2 as [_ ->]; [by intros [_ ?]|done].
  - intros x Hx.
    destruct (RemoverFacts.remove_paths_spec root cache_dir (concat pss) st x)
      as [_ H2].
    destruct H2 as [Ho He]; [by intros [? _]|]. done.
  - intros x.
    destruct (RemoverFacts.remove_paths_spec root cache_dir (concat pss) st x)
      as [H1 H2].
    destruct (decide (x ∈ (λ p, PyStr.replace p root cache_dir) <$> concat pss))
      as [Hin|Hnotin];
      [destruct (path_exists (Remover.fs st) x) eqn:E|].
    + right. destruct (H1 Hin eq_refl). done.
    + left. destruct H2 as [Ho _]; [by intros [_ ?]|done].
    + left. destruct H2 as [Ho _]; [by intros [? _]|done].
Qed.

(** ** More on the queues and the directories of the worker *)

Module SetupMore.
Import Worker.

Lemma elem_of_enumerate {A} (l : list A) (i : Z) (x : A) :
  (i, x) ∈ Py.enumerate l ↔ 0 ≤ i ∧ l !! Z.to_nat i = Some x.
Proof.
  unfold Py.enumerate. rewrite elem_of_lookup_imap. split.
  - intros (k & y & [= -> ->] & Hk). split; [lia|]. by rewrite Nat2Z.id.
  - intros [Hi Hx]. exists (Z.to_nat i), x. split; [|done]. f_equal. lia.
Qed.

Lemma string_app_cancel (a x y : string) : a +:+ x = a +:+ y → x = y.
Proof.
  induction a as [|ch a IH]; [done|].
  change (String ch a +:+ x) with (String ch (a +:+ x)).
  change (String ch a +:+ y) with (String ch (a +:+ y)).
  intros [= Heq]. by apply IH.
Qed.

(** A string splits in one way at its first underscore. *)
Lemma split_underscore (s1 s2 t1 t2 : string) :
  PyStr.has_char "_"%char s1 = false → PyStr.has_char "_"%char s2 = false →
  s1 +:+ "_" +:+ t1 = s2 +:+ "_" +:+ t2 → s1 = s2 ∧ t1 = t2.
Proof.
  revert s2. induction s1 as [|c1 s1 IH]; intros [|c2 s2] H1 H2.
  - change ("" +:+ "_" +:+ t1) with (String "_" t1).
    change ("" +:+ "_" +:+ t2) with (String "_" t2).
    by intros [= ->].
  - change ("" +:+ "_" +:+ t1) with (String "_" t1).
    change (String c2 s2 +:+ "_" +:+ t2) with (String c2 (s2 +:+ "_" +:+ t2)).
    intros [= <- _]. simpl in H2. discriminate H2.
  - change ("" +:+ "_" +:+ t2) with (String "_" t2).
    change (String c1 s1 +:+ "_" +:+ t1) with (String c1 (s1 +:+ "_" +:+ t1)).
    intros [= -> _]. simpl in H1. discriminate H1.
  - change (String c1 s1 +:+ "_" +:+ t1) with (String c1 (s1 +:+ "_" +:+ t1)).
    change (String c2 s2 +:+ "_" +:+ t2) with (String c2 (s2 +:+ "_" +:+ t2)).
    intros [= -> Heq]. simpl in H1, H2.
    apply orb_false_iff in H1 as [_ H1]. apply orb_false_iff in H2 as [_ H2].
    destruct (IH s2 H1 H2 Heq) as [-> ->]. done.
Qed.

(** The decimal form of an integer has no underscore. *)
Lemma pretty_N_go_no_underscore (x : N) (s : string) :
  PyStr.has_char "_"%char s = false →
  PyStr.has_char "_"%char (pretty_N_go x s) = false.
Proof.
  revert s. induction (N.lt_wf_0 x) as [x _ IH]; intros s Hs.
  assert (x = 0 ∨ 0 < x)%N as [->|Hx] by lia.
  - by rewrite pretty_N_go_0.
  - rewrite pretty_N_go_step by done. apply IH.
    { by apply N.div_lt. }
    simpl. rewrite Hs. unfold pretty_N_char. by repeat case_match.
Qed.

Lemma pretty_N_no_underscore (x : N) :
  PyStr.has_char "_"%char (pretty x) = false.
Proof.
  unfold pretty, pretty_N. case_decide; [done|].
  by apply pretty_N_go_no_underscore.
Qed.

Lemma pretty_Z_no_underscore (x : Z) :
  PyStr.has_char "_"%char (pretty x) = false.
Proof.
  destruct x as [|p|p]; [done|apply pretty_N_no_underscore|].
  change (pretty (Z.neg p)) with (String "-" (pretty (N.pos p))).
  simpl. apply pretty_N_no_underscore.
Qed.

End SetupMore.

(** X16.  [_start_downloaders] makes one queue per downloader and puts
    every work unit on exactly one queue, the queue
    [index % num_downloaders].  Every queue holds the units whose index
    is its number modulo [num_downloaders], in the order of the items,
    and after them one sentinel [None], which is its last message. *)
Theorem X16_unit_on_one_queue (num_downloaders : Z)
    (paths : list (list string)) :
  1 ≤ num_downloaders →
  ∃ queues,
    Worker._start_downloaders num_downloaders paths = Ok queues
    ∧ Py.len queues = num_downloaders
    ∧ (∀ (i : nat) ps, paths !! i = Some ps →
         ∃ q, queues !! Z.to_nat (Z.of_nat i `mod` num_downloaders) = Some q
              ∧ Some (Z.of_nat i, ps) ∈ q
              ∧ ∀ d q', queues !! d = Some q' → Some (Z.of_nat i, ps) ∈ q' →
                  d = Z.to_nat (Z.of_nat i `mod` num_downloaders))
    ∧ (∀ d q, queues !! d = Some q →
         ∃ units,
           q = (Some <$> units) ++ [None]
           ∧ units `sublist_of` Py.enumerate paths
           ∧ ∀ u, u ∈ units
                  ↔ u ∈ Py.enumerate paths
                    ∧ u.1 `mod` num_downloaders = Z.of_nat d).
Proof.
  intros HN.
  destruct (QueueFacts.start_downloaders_spec num_downloaders HN paths)
    as (queues & Hq & Hlen & Hspec).
  exists queues. split; [done|]. split; [unfold Py.len; lia|].
  assert (∀ d q, queues !! d = Some q →
            q = (Some <$> Worker.units_of num_downloaders d
                            (Py.enumerate paths)) ++ [None]) as Hqueue.
  { intros d q Hd.
    assert (d < Z.to_nat num_downloaders)%nat as Hlt.
    { apply lookup_lt_Some in Hd. lia. }
    rewrite (Hspec d Hlt) in Hd. by injection Hd as <-. }
  assert (∀ d q (u : Z * list string), queues !! d = Some q →
            (Some u ∈ q ↔ u ∈ Py.enumerate paths
                           ∧ u.1 `mod` num_downloaders = Z.of_nat d))
    as Hmem.
  { intros d q u Hd. rewrite (Hqueue d q Hd).
    rewrite elem_of_app, list_elem_of_fmap. unfold Worker.units_of. split.
    - intros [(u' & [= <-] & Hu)|Hn]; [|by apply list_elem_of_singleton in Hn].
      by apply list_elem_of_filter in Hu as [? ?].
    - intros [Hu Hmod]. left. exists u. split; [done|].
      by apply list_elem_of_filter. }
  split.
  - intros i ps Hi.
    pose proof (Z.mod_pos_bound (Z.of_nat i) num_downloaders ltac:(lia)) as Hmod.
    destruct (queues !! Z.to_nat (Z.of_nat i `mod` num_downloaders))
      as [q|] eqn:Eq.
    2:{ apply lookup_ge_None in Eq. lia. }
    exists q. split; [done|]. split.
    + apply (Hmem _ _ (Z.of_nat i, ps) Eq). split.
      * apply SetupMore.elem_of_enumerate. split; [lia|]. by rewrite Nat2Z.id.
      * simpl. lia.
    + intros d q' Hd Hin. apply (Hmem _ _ (Z.of_nat i, ps) Hd) in Hin as [_ Hm].
      simpl in Hm. lia.
  - intros d q Hd.
    exists (Worker.units_of num_downloaders d (Py.enumerate paths)).
    split; [by apply Hqueue|]. split; [apply sublist_filter|].
    intros u. unfold Worker.units_of. rewrite list_elem_of_filter. tauto.
Qed.

Lemma X16_unit_on_one_queue_witness :
  (∃ queues,
     Worker._start_downloaders 2 [["/r/a"]; ["/r/b"]; ["/r/c"]]%string = Ok queues
     ∧ Py.len queues = 2
     ∧ (∀ (i : nat) ps, [["/r/a"]; ["/r/b"]; ["/r/c"]]%string !! i = Some ps →
          ∃ q, queues !! Z.to_nat (Z.of_nat i `mod` 2) = Some q
               ∧ Some (Z.of_nat i, ps) ∈ q
               ∧ ∀ d q', queues !! d = Some q' → Some (Z.of_nat i, ps) ∈ q' →
                   d = Z.to_nat (Z.of_nat i `mod` 2))
     ∧ (∀ d q, queues !! d = Some q →
          ∃ units,
            q = (Some <$> units) ++ [None]
            ∧ units `sublist_of` Py.enumerate [["/r/a"]; ["/r/b"]; ["/r/c"]]%string
            ∧ ∀ u, u ∈ units
                   ↔ u ∈ Py.enumerate [["/r/a"]; ["/r/b"]; ["/r/c"]]%string
                     ∧ u.1 `mod` 2 = Z.of_nat d))
  ∧ Worker._start_downloaders 2 [["/r/a"]; ["/r/b"]; ["/r/c"]]%string
    = Ok [[Some (0, ["/r/a"]); Some (2, ["/r/c"]); None];
          [Some (1, ["/r/b"]); None]]%string.
Proof.
  split; [|reflexivity].
  apply (X16_unit_on_one_queue 2 [["/r/a"]; ["/r/b"]; ["/r/c"]]%string). lia.
Defined.

(** X17.  The chunk directories that [_create_cache] gives to the workers
    of one root differ whenever the node rank or the worker index differs,
    and none of them is the directory of the downloaded files. *)
Theorem X17_worker_directories `{Externals} (root : string)
    (node_rank index node_rank' index' : Z) :
  (Worker.worker_cache_dir index node_rank root
   = Worker.worker_cache_dir index' node_rank' root →
   node_rank = node_rank' ∧ index = index')
  ∧ Worker.worker_cache_dir index node_rank root ≠ Worker.cache_dir root.
Proof.
  unfold Worker.worker_cache_dir, Worker.cache_dir. split.
  - intros Heq.
    apply SetupMore.string_app_cancel, SetupMore.string_app_cancel in Heq.
    apply (SetupMore.string_app_cancel "/w_") in Heq.
    apply SetupMore.split_underscore in Heq as [Hr Hi];
      [|apply SetupMore.pretty_Z_no_underscore..].
    split; by apply (inj pretty).
  - intros Heq.
    apply SetupMore.string_app_cancel, SetupMore.string_app_cancel in Heq.
    discriminate Heq.
Qed.

(** ** The coordinator *)

Module CoordinatorFacts.
Import Coordinator.

Lemma tracker_total_insert_fresh (m : gmap Z Z) i c :
  m !! i = None → tracker_total (<[i := c]> m) = c + tracker_total m.
Proof.
  intros Hi. unfold tracker_total.
  rewrite map_fold_insert_L; [done| |done]. intros; lia.
Qed.

(** Storing a counter changes the total by the difference to the counter
    stored before, which is 0 for a worker not seen yet. *)
Lemma tracker_total_insert (m : gmap Z Z) i c :
  tracker_total (<[i := c]> m)
  = tracker_total m - default 0 (m !! i) + c.
Proof.
  destruct (m !! i) as [y|] eqn:E; simpl.
  - rewrite <- (insert_delete_id m i y E) at 2.
    rewrite <- (insert_delete_eq m).
    rewrite !tracker_total_insert_fresh by apply lookup_delete_eq. lia.
  - rewrite tracker_total_insert_fresh by done. lia.
Qed.

(** The progress bar is moved by what the total has gained. *)
Lemma progress_loop_pbar num_items msgs (st : progress) :
  ∃ new,
    pbar (final_state (progress_loop num_items msgs st)) = pbar st ++ new
    ∧ foldr Z.add 0 new
      = current_total (final_state (progress_loop num_items msgs st))
        - current_total st
    ∧ (current_total st = tracker_total (workers_tracker st) →
       current_total (final_state (progress_loop num_items msgs st))
       = tracker_total
           (workers_tracker (final_state (progress_loop num_items msgs st)))).
Proof.
  revert st. induction msgs as [|[i c] msgs IH]; intros st.
  - exists []. simpl. rewrite app_nil_r. split; [done|]. split; [lia|done].
  - simpl.
    set (st1 := {| workers_tracker := <[i := c]> (workers_tracker st);
                   current_total := tracker_total (<[i := c]> (workers_tracker st));
                   pbar := pbar st ++ [tracker_total (<[i := c]> (workers_tracker st))
                                        - current_total st] |}).
    destruct (tracker_total (<[i := c]> (workers_tracker st)) =? num_items).
    + exists [current_total st1 - current_total st]. simpl.
      split; [done|]. split; [lia|done].
    + destruct (IH st1) as (new & Hp & Hs & Ht).
      exists ((current_total st1 - current_total st) :: new).
      rewrite Hp. simpl. rewrite <- app_assoc. split; [done|].
      split; [rewrite Hs; simpl; lia|]. intros _. by apply Ht.
Qed.

Section in_sequence.
Variable num_items : Z.

(** One more message in sequence adds one to the total. *)
Lemma in_sequence_step i c (st : progress) :
  c = default 0 (workers_tracker st !! i) + 1 →
  current_total st = tracker_total (workers_tracker st) →
  tracker_total (<[i := c]> (workers_tracker st)) = current_total st + 1.
Proof. intros -> ->. rewrite tracker_total_insert. lia. Qed.

Lemma progress_loop_blocked msgs (st : progress) :
  in_sequence (workers_tracker st) msgs →
  current_total st = tracker_total (workers_tracker st) →
  (num_items ≤ current_total st ∨ current_total st + Py.len msgs < num_items) →
  ∃ st',
    progress_loop num_items msgs st = Blocked st'
    ∧ current_total st' = current_total st + Py.len msgs
    ∧ pbar st' = pbar st ++ replicate (length msgs) 1.
Proof.
  revert st. induction msgs as [|[i c] msgs IH]; intros st Hseq Hcur Hn.
  - exists st. split; [done|]. unfold Py.len. simpl.
    rewrite app_nil_r. split; [lia|done].
  - destruct Hseq as [Hc Hseq]. simpl.
    rewrite (in_sequence_step i c st Hc Hcur).
    unfold Py.len in *. simpl length in *.
    destruct (Z.eqb_spec (current_total st + 1) num_items); [lia|].
    match goal with
    | |- context [progress_loop num_items msgs ?st1] =>
        destruct (IH st1) as (st' & Hrun & Ht & Hp)
    end.
    + done.
    + simpl. by rewrite (in_sequence_step i c st Hc Hcur).
    + simpl. lia.
    + exists st'. split; [exact Hrun|]. simpl in Ht, Hp.
      split; [lia|]. rewrite Hp, <- app_assoc.
      replace (current_total st + 1 - current_total st) with 1 by lia. done.
Qed.

Lemma progress_loop_returned pre m rest (st : progress) :
  in_sequence (workers_tracker st) (pre ++ m :: rest) →
  current_total st = tracker_total (workers_tracker st) →
  current_total st + Py.len pre + 1 = num_items →
  ∃ st',
    progress_loop num_items (pre ++ m :: rest) st = Returned st'
    ∧ current_total st' = num_items
    ∧ pbar st' = pbar st ++ replicate (S (length pre)) 1.
Proof.
  revert st. induction pre as [|[i c] pre IH]; intros st Hseq Hcur Hn.
  - destruct m as [i c]. destruct Hseq as [Hc _]. simpl.
    rewrite (in_sequence_step i c st Hc Hcur).
    unfold Py.len in Hn. simpl in Hn.
    destruct (Z.eqb_spec (current_total st + 1) num_items); [|lia].
    eexists. split; [done|]. simpl. split; [lia|].
    by replace (current_total st + 1 - current_total st) with 1 by lia.
  - destruct Hseq as [Hc Hseq]. rewrite <- app_comm_cons. simpl.
    rewrite (in_sequence_step i c st Hc Hcur).
    unfold Py.len in *. simpl length in *.
    destruct (Z.eqb_spec (current_total st + 1) num_items); [lia|].
    match goal with
    | |- context [progress_loop num_items (pre ++ m :: rest) ?st1] =>
        destruct (IH st1) as (st' & Hrun & Ht & Hp)
    end.
    + done.
    + simpl. by rewrite (in_sequence_step i c st Hc Hcur).
    + simpl. lia.
    + exists st'. split; [exact Hrun|]. split; [done|].
      simpl in Hp. rewrite Hp, <- app_assoc.
      replace (current_total st + 1 - current_total st) with 1 by lia. done.
Qed.

End in_sequence.

Section create.
Context {A : Type}.
Variables (node_rank num_downloaders : Z) (delete_cached_files : bool).

Abbreviation started :=
  (started node_rank num_downloaders delete_cached_files).

Lemma create_loop_array begins (parts : list (list A)) :
  ∀ (k : nat) workers,
    (k + length parts ≤ length begins)%nat →
    create_loop NdArray node_rank num_downloaders delete_cached_files begins
      (imap (λ i x, (Z.of_nat (k + i), x)) parts) workers
    = (workers ++ imap (λ i, started begins (k + i)) parts, None).
Proof.
  induction parts as [|p parts IH]; intros k workers Hlen.
  - simpl. by rewrite app_nil_r.
  - simpl in Hlen.
    destruct (LoopFacts.index_in_range begins (Z.of_nat (k + 0)))
      as (b & Hb & Hidx); [unfold Py.len; lia|].
    rewrite Nat2Z.id in Hb.
    assert (imap (λ i x, (Z.of_nat (k + i), x)) (p :: parts)
            = (Z.of_nat (k + 0), p)
              :: imap (λ i x, (Z.of_nat (S k + i), x)) parts) as ->.
    { rewrite imap_cons. f_equal. apply imap_ext. intros i x _. simpl.
      do 2 f_equal. lia. }
    assert (imap (λ i, started begins (k + i)) (p :: parts)
            = started begins (k + 0) p
              :: imap (λ i, started begins (S k + i)) parts) as ->.
    { rewrite imap_cons. f_equal. apply imap_ext. intros i x _. simpl.
      f_equal. lia. }
    cbn [create_loop]. rewrite Hidx. cbn [tolist].
    rewrite IH by lia. rewrite <- app_assoc. simpl.
    unfold Coordinator.started at 2. by rewrite Hb.
Qed.

Lemma create_loop_list begins (p : list A) rest (i : Z) workers :
  (∃ b, Py.index begins i = Ok b) →
  create_loop PyList node_rank num_downloaders delete_cached_files begins
    ((i, p) :: rest) workers
  = (workers, Some AttributeError).
Proof. intros [b Hb]. simpl. by rewrite Hb. Qed.

End create.
End CoordinatorFacts.

(** X18.  In the progress loop of the process mode the calls of
    [pbar.update] add up to [current_total], and [current_total] is the
    sum of the counters in [workers_tracker], whatever messages arrive and
    however the loop ends. *)
Theorem X18_progress_bar_total (num_items : Z) (msgs : list (Z * Z)) :
  let st' :=
    final_state (Coordinator.progress_loop num_items msgs Coordinator.start) in
  foldr Z.add 0 (Coordinator.pbar st') = Coordinator.current_total st'
  ∧ Coordinator.current_total st'
    = Coordinator.tracker_total (Coordinator.workers_tracker st').
Proof.
  destruct (CoordinatorFacts.progress_loop_pbar num_items msgs Coordinator.start)
    as (new & Hp & Hs & Ht).
  simpl in Hp. cbv zeta. rewrite Hp, Hs. simpl. split; [lia|].
  by apply Ht.
Qed.

(** X19.  When the workers' messages arrive in sequence (the counters of
    each worker are 1, 2, 3, ... in this order) the total is the number of
    messages read.  So with [num_items >= 1] the loop returns exactly when
    it has read [num_items] messages, each of which moves the bar by one,
    and it waits as long as fewer have arrived.  With [num_items <= 0]
    (no item on the node) it never returns. *)
Theorem X19_progress_loop_stops (num_items : Z) (msgs : list (Z * Z)) :
  Coordinator.in_sequence ∅ msgs →
  (Py.len msgs < num_items ∨ num_items ≤ 0 →
     ∃ st,
       Coordinator.progress_loop num_items msgs Coordinator.start = Blocked st
       ∧ Coordinator.current_total st = Py.len msgs
       ∧ Coordinator.pbar st = replicate (length msgs) 1)
  ∧ (1 ≤ num_items ≤ Py.len msgs →
     ∃ st,
       Coordinator.progress_loop num_items msgs Coordinator.start = Returned st
       ∧ Coordinator.current_total st = num_items
       ∧ Coordinator.pbar st = replicate (Z.to_nat num_items) 1).
Proof.
  intros Hseq. split.
  - intros Hn.
    destruct (CoordinatorFacts.progress_loop_blocked num_items msgs
                Coordinator.start Hseq eq_refl) as (st & Hrun & Ht & Hp).
    { simpl. lia. }
    exists st. split; [done|]. simpl in *. split; [lia|done].
  - intros Hn. unfold Py.len in Hn.
    assert (∃ pre m rest, msgs = pre ++ m :: rest
                          ∧ length pre = Z.to_nat (num_items - 1))
      as (pre & m & rest & -> & Hlen).
    { destruct (drop (Z.to_nat (num_items - 1)) msgs) as [|m rest] eqn:Ed.
      { apply (f_equal length) in Ed. rewrite length_drop in Ed.
        simpl in Ed. lia. }
      exists (take (Z.to_nat (num_items - 1)) msgs), m, rest.
      split; [by rewrite <- Ed, take_drop|]. rewrite length_take. lia. }
    destruct (CoordinatorFacts.progress_loop_returned num_items pre m rest
                Coordinator.start Hseq eq_refl) as (st & Hrun & Ht & Hp).
    { simpl. unfold Py.len. lia. }
    exists st. split; [done|]. split; [done|].
    rewrite Hp. by replace (Z.to_nat num_items) with (S (length pre)) by lia.
Qed.

Lemma X19_progress_loop_stops_witness :
  (∃ st,
     Coordinator.progress_loop 4 [(0, 1); (1, 1); (0, 2)] Coordinator.start
     = Blocked st
     ∧ Coordinator.current_total st = 3
     ∧ Coordinator.pbar st = [1; 1; 1])
  ∧ (∃ st,
       Coordinator.progress_loop 4 [(0, 1); (1, 1); (0, 2); (1, 2); (0, 3)]
         Coordinator.start = Returned st
       ∧ Coordinator.current_total st = 4
       ∧ Coordinator.pbar st = [1; 1; 1; 1]).
Proof.
  split.
  - apply (X19_progress_loop_stops 4 [(0, 1); (1, 1); (0, 2)]).
    + vm_compute. tauto.
    + left. vm_compute. reflexivity.
  - apply (X19_progress_loop_stops 4 [(0, 1); (1, 1); (0, 2); (1, 2); (0, 3)]).
    + vm_compute. tauto.
    + vm_compute. split; discriminate.
Defined.

(** X20.  [run] in process mode, from the partition to the started
    workers, for a valid rank and [num_workers >= 1].  When [setup]
    returned a list, the first [worker_user_items.tolist()] raises
    [AttributeError] and no worker is started.  When it returned an array,
    [num_workers] workers are started; worker [w] has the index [w], the
    node rank, the start index [w * s], and as its items a block whose
    item [r] is the item of [user_items] at position [start_index + r]. *)
Theorem X20_workers_started {A : Type}
    (num_workers num_nodes node_rank num_downloaders : Z)
    (delete_cached_files : bool) (user_items : list A) :
  1 ≤ num_workers → 0 ≤ node_rank < num_nodes →
  Coordinator.start_workers Coordinator.PyList num_workers num_nodes node_rank
    num_downloaders delete_cached_files user_items
  = ([], Some Coordinator.AttributeError)
  ∧ ∃ workers,
      Coordinator.start_workers Coordinator.NdArray num_workers num_nodes
        node_rank num_downloaders delete_cached_files user_items
      = (workers, None)
      ∧ Py.len workers = num_workers
      ∧ ∀ (w : nat) wa, workers !! w = Some wa →
          Coordinator.w_index wa = Z.of_nat w
          ∧ Coordinator.w_node_rank wa = node_rank
          ∧ Coordinator.w_start_index wa
            = Z.of_nat w
              * (Py.len (Partition.node_slice num_nodes user_items node_rank)
                 / num_workers)
          ∧ ∀ (r : nat) x, Coordinator.w_items wa !! r = Some x →
              user_items
                !! Z.to_nat (Coordinator.w_start_index wa + Z.of_nat r)
              = Some x.
Proof.
  intros Hnw Hrank.
  set (n := Py.len (Partition.node_slice num_nodes user_items node_rank)).
  assert (0 ≤ n ≤ Py.len user_items) as Hn.
  { split; [unfold n, Py.len; lia|apply PartitionFacts.len_slice_le]. }
  unfold Coordinator.start_workers, Partition.run_unpack.
  rewrite PartitionMore.assoc_result by (lia || done). cbv zeta. fold n. simpl.
  set (begins := map (λ w, w * (n / num_workers)) (Py.range num_workers)).
  set (parts := map (λ w, Py.slice user_items (w * (n / num_workers))
                            (if w =? num_workers - 1 then n
                             else (w + 1) * (n / num_workers)))
                    (Py.range num_workers)).
  assert (length begins = Z.to_nat num_workers) as Hlb.
  { unfold begins. by rewrite length_map, PartitionMore.length_range. }
  assert (length parts = Z.to_nat num_workers) as Hlp.
  { unfold parts. by rewrite length_map, PartitionMore.length_range. }
  unfold Coordinator._create_process_workers. split.
  - destruct parts as [|p parts']; [simpl in Hlp; lia|].
    unfold Py.enumerate. rewrite imap_cons.
    apply CoordinatorFacts.create_loop_list.
    destruct (LoopFacts.index_in_range begins (Z.of_nat 0)) as (b & _ & Hb);
      [unfold Py.len; lia|].
    by exists b.
  - eexists. split.
    { unfold Py.enumerate.
      apply (CoordinatorFacts.create_loop_array node_rank num_downloaders
               delete_cached_files begins parts 0 []). lia. }
    simpl. split.
    { unfold Py.len. rewrite length_imap. lia. }
    intros w wa Hw. rewrite list_lookup_imap in Hw.
    destruct (parts !! w) as [block|] eqn:Eb; [|done].
    simpl in Hw. injection Hw as <-. simpl.
    assert (Z.of_nat w < num_workers) as Hwlt.
    { apply lookup_lt_Some in Eb. lia. }
    assert (begins !! w = Some (Z.of_nat w * (n / num_workers))) as Hbw.
    { unfold begins.
      rewrite (list_lookup_fmap _ (Py.range num_workers) w).
      by rewrite PartitionMore.range_lookup. }
    rewrite Hbw. simpl. split; [done|]. split; [done|]. split; [done|].
    intros r x Hx. unfold parts in Eb.
    rewrite (list_lookup_fmap _ (Py.range num_workers) w) in Eb.
    rewrite PartitionMore.range_lookup in Eb by done.
    simpl in Eb. injection Eb as <-.
    by apply (PartitionMore.block_lookup user_items n num_workers w r x).
Qed.

Lemma X20_workers_started_witness :
  Coordinator.start_workers Coordinator.PyList 2 1 0 2 true [10; 11; 12; 13; 14]
  = ([], Some Coordinator.AttributeError)
  ∧ Coordinator.start_workers Coordinator.NdArray 2 1 0 2 true [10; 11; 12; 13; 14]
    = ([Coordinator.started 0 2 true [0; 2] 0 [10; 11];
        Coordinator.started 0 2 true [0; 2] 1 [12; 13; 14]], None).
Proof.
  destruct (X20_workers_started 2 1 0 2 true [10; 11; 12; 13; 14])
    as (Hlist & workers & Hrun & _); [lia|lia|].
  split; [exact Hlist|]. reflexivity.
Defined.

(** ** The worker and its downloaders together *)

Module ScheduleFacts.
Import Schedule.

Section facts.
Context {A : Type}.
Implicit Types (streams : list (list A)) (l : list A).

Lemma concat_take_out streams d x s :
  streams !! d = Some (x :: s) →
  concat streams ≡ₚ x :: concat (<[d := s]> streams).
Proof.
  revert d. induction streams as [|s0 streams IH]; intros [|d] Hd; simpl in *;
    try done.
  - by injection Hd as ->.
  - rewrite (IH d Hd). by rewrite Permutation_middle.
Qed.

(** An interleaving holds the messages of the writers and no others. *)
Lemma interleaved_perm streams l :
  interleaved streams l → l ≡ₚ concat streams.
Proof.
  induction 1 as [streams Hnil|streams d x s l Hd _ IH].
  - induction Hnil as [|s streams -> _ IH]; [done|]. simpl. exact IH.
  - rewrite IH. symmetry. by apply concat_take_out.
Qed.

(** When every writer ends with the same message, so does the queue. *)
Lemma interleaved_last streams l (z : A) :
  interleaved streams l →
  Forall (λ s, s = [] ∨ last s = Some z) streams →
  l = [] ∨ last l = Some z.
Proof.
  induction 1 as [streams Hnil|streams d x s l Hd Hil IH]; intros Hz; [by left|].
  right.
  assert (x :: s = [] ∨ last (x :: s) = Some z) as [?|Hlast]; [|done|].
  { rewrite Forall_lookup in Hz. by apply (Hz d). }
  assert (s = [] ∨ last s = Some z) as Hs.
  { destruct s as [|y s]; [by left|]. right. exact Hlast. }
  destruct IH as [->|IH].
  - apply Forall_insert; [done|exact Hs].
  - inversion Hil as [streams' Hnil|]; subst.
    rewrite Forall_lookup in Hnil.
    assert (s = []) as ->.
    { apply (Hnil d). apply list_lookup_insert_eq. by apply lookup_lt_Some in Hd. }
    exact Hlast.
  - destruct l as [|y l]; [done|]. exact IH.
Qed.

End facts.

Lemma elem_of_concat {A} (x : A) (ls : list (list A)) :
  x ∈ concat ls ↔ ∃ l, x ∈ l ∧ l ∈ ls.
Proof.
  induction ls as [|l ls IH]; simpl.
  - split; [by intros ?%elem_of_nil|by intros (? & _ & ?%elem_of_nil)].
  - rewrite elem_of_app, IH. split.
    + intros [?|(l' & ? & ?)]; [exists l|exists l']; split; try done;
        [by left|by right].
    + intros (l' & Hx & [->|?]%elem_of_cons); [by left|right; by exists l'].
Qed.

Lemma count_none_app {A} (l1 l2 : list (option A)) :
  Worker.count_none (l1 ++ l2) = Worker.count_none l1 + Worker.count_none l2.
Proof.
  unfold Worker.count_none, Py.len. rewrite filter_app, length_app. lia.
Qed.

Lemma count_none_somes {A} (l : list A) : Worker.count_none (Some <$> l) = 0.
Proof.
  induction l as [|x l IH]; [done|].
  rewrite fmap_cons, LoopFacts.count_none_cons_Some. exact IH.
Qed.

Lemma count_none_concat {A} (streams : list (list (option A))) :
  Forall (λ s, Worker.count_none s = 1) streams →
  Worker.count_none (concat streams) = Py.len streams.
Proof.
  induction 1 as [|s streams Hs _ IH]; [done|].
  simpl. rewrite count_none_app, Hs, IH. unfold Py.len. simpl. lia.
Qed.

End ScheduleFacts.

(** X21.  A worker and its downloaders when every download succeeds.  Let
    [num_downloaders >= 1], let all paths have [s3] remote counterparts,
    let every downloader run on the queue that [_start_downloaders] gave
    it, and let the ready queue deliver what the downloaders put on it, in
    any order that keeps the order of each downloader.  Then [run]
    returns, it has called [cache.done()], and the cache holds the
    prepared item of every item of the worker, item [i] in the slot
    [start_index + i], and nothing else. *)
Theorem X21_worker_completes `{Externals} `{FileSystem Disk}
    (index start_index : Z)
    (prepare_item : option (PyTree.pytree → PyTree.pytree))
    (root remote_root : string) (has_worker_queue : bool)
    (num_downloaders : Z) (remove : bool)
    (self_items : list PyTree.pytree) (c : Worker.collected)
    (queues : list (list (option (Z * list string))))
    (streams : list (list (option Z))) (ready : list (option Z)) :
  Worker._collect_paths root self_items = Ok c →
  1 ≤ num_downloaders →
  (∀ ps p, ps ∈ Worker._paths c → p ∈ ps →
           Downloader.is_s3 root remote_root p) →
  Worker._start_downloaders num_downloaders (Worker._paths c) = Ok queues →
  length streams = length queues →
  (∀ d q, queues !! d = Some q →
     ∃ st : Downloader.state Disk,
       Downloader.queue_out st = []
       ∧ streams !! d
         = Some (Downloader.queue_out
                   (final_state
                      (Downloader._download_data_target root remote_root
                         (Worker.cache_dir root) q st)))) →
  Schedule.interleaved streams ready →
  ∃ st,
    Worker.run index start_index prepare_item root has_worker_queue
      num_downloaders remove self_items ready = Returned st
    ∧ Worker.cache_done st = true
    ∧ (∀ (i : nat) item', Worker.items c !! i = Some item' →
         Worker.cache st !! (Z.of_nat i + start_index)
         = Some (Worker.prepared prepare_item item'))
    ∧ (∀ k v, Worker.cache st !! k = Some v →
         start_index ≤ k < start_index + Py.len self_items).
Proof.
  intros Hc HN Hs3 Hqueues Hlen Hstreams Hil.
  destruct (CollectFacts.collect_paths_lengths root self_items c Hc)
    as (_ & Hlen1 & Hlen2).
  destruct (QueueFacts.start_downloaders_spec num_downloaders HN (Worker._paths c))
    as (queues' & Hq' & Hlq & Hspec).
  rewrite Hqueues in Hq'. injection Hq' as <-.
  (* what every downloader puts on the ready queue *)
  assert (∀ d, (d < Z.to_nat num_downloaders)%nat →
            streams !! d
            = Some ((Some <$> (Worker.units_of num_downloaders d
                                 (Py.enumerate (Worker._paths c))).*1)
                    ++ [None])) as Hstream.
  { intros d Hd. destruct (Hstreams d _ (Hspec d Hd)) as (st & Hout & ->).
    destruct (DownloaderFacts.downloader_returns root remote_root
                (Worker.cache_dir root)
                (Worker.units_of num_downloaders d (Py.enumerate (Worker._paths c)))
                [] st) as (st' & Hrun & Hq).
    { intros u p Hu Hp. apply list_elem_of_filter in Hu as [_ Hu].
      destruct u as [i ps]. apply SetupMore.elem_of_enumerate in Hu as [_ Hu].
      apply (Hs3 ps p); [|done]. by apply list_elem_of_lookup_2 in Hu. }
    rewrite Hrun. simpl. by rewrite Hq, Hout. }
  assert (∀ d s, streams !! d = Some s →
            s = (Some <$> (Worker.units_of num_downloaders d
                             (Py.enumerate (Worker._paths c))).*1) ++ [None])
    as Hstream'.
  { intros d s Hd. assert (d < Z.to_nat num_downloaders)%nat as Hlt.
    { apply lookup_lt_Some in Hd. lia. }
    rewrite (Hstream d Hlt) in Hd. by injection Hd as <-. }
  pose proof (ScheduleFacts.interleaved_perm streams ready Hil) as Hperm.
  (* the last message is the last sentinel *)
  assert (Worker.count_none ready = num_downloaders) as Hcount.
  { rewrite (LoopFacts.count_none_perm _ _ Hperm).
    rewrite ScheduleFacts.count_none_concat; [unfold Py.len; lia|].
    apply Forall_lookup. intros d s Hd. rewrite (Hstream' d s Hd).
    by rewrite ScheduleFacts.count_none_app, ScheduleFacts.count_none_somes. }
  destruct (ScheduleFacts.interleaved_last streams ready None Hil) as [->|Hlast].
  { apply Forall_lookup. intros d s Hd. right. rewrite (Hstream' d s Hd).
    by rewrite last_snoc. }
  { rewrite LoopFacts.count_none_nil in Hcount. lia. }
  apply last_Some in Hlast as [pre ->].
  rewrite ScheduleFacts.count_none_app in Hcount.
  change (Worker.count_none [None]) with 1 in Hcount.
  (* the indices are the positions of the items *)
  assert (∀ r, Some r ∈ pre ↔ 0 ≤ r < Py.len (Worker.items c)) as Hidx.
  { intros r.
    assert (Some r ∈ pre ↔ Some r ∈ concat streams) as ->.
    { rewrite <- Hperm, elem_of_app, list_elem_of_singleton.
      split; [by left|]. by intros [?|?]. }
    rewrite ScheduleFacts.elem_of_concat. split.
    - intros (s & Hr & Hs). apply list_elem_of_lookup in Hs as [d Hd].
      rewrite (Hstream' d s Hd) in Hr.
      apply elem_of_app in Hr as [Hr|Hr];
        [|by apply list_elem_of_singleton in Hr].
      apply list_elem_of_fmap in Hr as (r' & [= <-] & Hr).
      apply list_elem_of_fmap in Hr as ([i ps] & -> & Hu). simpl.
      apply list_elem_of_filter in Hu as [_ Hu].
      apply SetupMore.elem_of_enumerate in Hu as [Hi Hu].
      apply lookup_lt_Some in Hu. unfold Py.len. lia.
    - intros Hr. unfold Py.len in Hr.
      destruct (Worker._paths c !! Z.to_nat r) as [ps|] eqn:Eps.
      2:{ apply lookup_ge_None in Eps. lia. }
      pose proof (Z.mod_pos_bound r num_downloaders ltac:(lia)) as Hmod.
      eexists. split; [|apply list_elem_of_lookup;
                         exists (Z.to_nat (r `mod` num_downloaders));
                         apply Hstream; lia].
      apply elem_of_app. left. apply list_elem_of_fmap. exists r.
      split; [done|]. apply list_elem_of_fmap. exists (r, ps). split; [done|].
      apply list_elem_of_filter. split; [simpl; lia|].
      apply SetupMore.elem_of_enumerate. split; [lia|done]. }
  eexists. split.
  { rewrite (RunFacts.run_is_loop _ _ _ _ _ _ _ _ c) by done.
    apply LoopFacts.run_loop_returned; [done| |lia].
    intros r Hr. by apply Hidx. }
  split; [|split].
  - unfold Worker.cache_done, Worker.emit. simpl.
    rewrite existsb_app. simpl. by rewrite orb_true_r.
  - intros i item' Hitem. simpl. rewrite LoopFacts.cache_passes by done.
    replace (Z.of_nat i + start_index - start_index) with (Z.of_nat i) by lia.
    rewrite Nat2Z.id, Hitem. simpl.
    destruct (decide (Z.of_nat i ∈ Worker.indices pre)) as [|Hno]; [done|].
    exfalso. apply Hno, LoopFacts.elem_of_indices, Hidx.
    apply lookup_lt_Some in Hitem. unfold Py.len. lia.
  - intros k v. simpl. rewrite LoopFacts.cache_passes by done.
    destruct (decide (k - start_index ∈ Worker.indices pre)) as [Hin|];
      [|simpl; by rewrite lookup_empty].
    intros _. apply LoopFacts.elem_of_indices, Hidx in Hin.
    unfold Py.len in *. lia.
Qed.

(** ** The further properties on the sample world *)

Section more_runs.
#[local] Existing Instances Sim.externals Sim.disk_fs SimFacts.disk_laws.

Lemma X6_collect_bookkeeping_witness :
  Worker._paths Sim.sample_collected
  = map (Worker.item_paths "/r") Sim.sample_items
  ∧ length (Worker.items Sim.sample_collected) = length Sim.sample_items
  ∧ Worker._collected_items Sim.sample_collected = Py.len Sim.sample_items
  ∧ ∀ paths, paths ∈ Worker._paths Sim.sample_collected → paths ≠ [].
Proof.
  apply (X6_collect_bookkeeping "/r" Sim.sample_items Sim.sample_collected).
  reflexivity.
Defined.

Lemma X7_collect_relocates_witness :
  ∃ item',
    Worker.items Sim.sample_collected !! 1%nat = Some item'
    ∧ PyTree.tree_flatten item'
      = (map (Observe.relocate "/r" (Worker.cache_dir "/r"))
           (PyTree.tree_flatten (PyTree.Leaf (PyTree.LStr "/r/c"))).1,
         (PyTree.tree_flatten (PyTree.Leaf (PyTree.LStr "/r/c"))).2).
Proof.
  apply (X7_collect_relocates "/r" Sim.sample_items Sim.sample_collected 1
           (PyTree.Leaf (PyTree.LStr "/r/c"))); reflexivity.
Defined.

Lemma X8_counter_and_progress_witness :
  ∃ st,
    Worker.run 0 10 None "/r" true 2 true Sim.sample_items
      ([Some 0; None; Some 1] ++ [None]) = Returned st
    ∧ Worker._counter st = Py.len (Worker.indices [Some 0; None; Some 1])
    ∧ Observe.progress_queue st
      = ((λ k, (0, Z.of_nat k))
           <$> seq 1 (length (Worker.indices [Some 0; None; Some 1])))
    ∧ Coordinator.in_sequence ∅ (Observe.progress_queue st).
Proof.
  apply (X8_counter_and_progress 0 10 None "/r" true 2 true Sim.sample_items
           Sim.sample_collected [Some 0; None; Some 1]).
  - reflexivity.
  - reflexivity.
  - intros r Hr. elems Hr; unfold Worker.in_range; simpl; unfold Py.len; simpl; lia.
Defined.

Lemma X9_remove_queue_witness :
  ∃ st,
    Worker.run 0 10 None "/r" true 2 true Sim.sample_items
      ([Some 1; None; Some 0] ++ [None]) = Returned st
    ∧ Worker.remove_queue st
      = ((λ r, Worker._paths Sim.sample_collected !! Z.to_nat r)
           <$> Worker.indices [Some 1; None; Some 0])
        ++ [None].
Proof.
  apply (X9_remove_queue 0 10 None "/r" true 2 true Sim.sample_items
           Sim.sample_collected [Some 1; None; Some 0]).
  - reflexivity.
  - reflexivity.
  - intros r Hr. elems Hr; unfold Worker.in_range; simpl; unfold Py.len; simpl; lia.
Defined.

Lemma X10_bad_index_witness :
  ∃ st,
    Worker.run 0 10 None "/r" true 2 true Sim.sample_items [Some 0; None]
    = Blocked st
    ∧ Worker.run 0 10 None "/r" true 2 true Sim.sample_items
        ([Some 0; None] ++ Some 2 :: [None])
      = Raised IndexError st.
Proof.
  apply (X10_bad_index 0 10 None "/r" true 2 true Sim.sample_items
           Sim.sample_collected [Some 0; None] [None] 2).
  - reflexivity.
  - reflexivity.
  - intros r Hr. elems Hr; unfold Worker.in_range; simpl; unfold Py.len; simpl; lia.
  - right. unfold Py.len. simpl. lia.
Defined.

Lemma X11_no_downloaders_witness :
  (∀ st, Worker.run 0 10 None "/r" true 0 true Sim.sample_items [None]
         ≠ Returned st)
  ∧ (0 = 0 → Sim.sample_items ≠ [] →
     (∀ item, item ∈ Sim.sample_items → Worker.has_root_path "/r" item) →
     Worker.run 0 10 None "/r" true 0 true Sim.sample_items [None]
     = Raised ZeroDivisionError Worker.init).
Proof.
  apply (X11_no_downloaders 0 10 None "/r" true 0 true Sim.sample_items [None]).
  lia.
Defined.

Lemma X12_downloader_only_adds_witness :
  let st' :=
    final_state
      (Downloader._download_data_target "/r" "s3://bkt/r" "/c"
         [Some (0, ["/r/a"]%string); None] (Sim.downloader_on Sim.empty_disk)) in
  (∀ q, path_exists (Downloader.fs (Sim.downloader_on Sim.empty_disk)) q = true →
        path_exists (Downloader.fs st') q = true)
  ∧ ∃ fetched,
      Downloader.downloads st'
      = Downloader.downloads (Sim.downloader_on Sim.empty_disk)
        ++ map (Downloader.request_of "/r" "s3://bkt/r" "/c") fetched
      ∧ ∀ p, p ∈ fetched →
          Downloader.is_s3 "/r" "s3://bkt/r" p
          ∧ ∃ index paths,
              Some (index, paths) ∈ [Some (0, ["/r/a"]%string); None]
              ∧ p ∈ paths.
Proof.
  apply (X12_downloader_only_adds "/r" "s3://bkt/r" "/c"
           [Some (0, ["/r/a"]%string); None] (Sim.downloader_on Sim.empty_disk)).
Defined.

Lemma X13_second_delivery_is_cached_witness :
  ∃ st1 st2 : Downloader.state Sim.disk,
    Downloader._download_data_target "/r" "s3://bkt/r" "/c"
      [Some (0, ["/r/a"]%string)] (Sim.downloader_on Sim.empty_disk)
    = Blocked st1
    ∧ Downloader._download_data_target "/r" "s3://bkt/r" "/c"
        [Some (0, ["/r/a"]%string); Some (1, ["/r/a"]%string)]
        (Sim.downloader_on Sim.empty_disk)
      = Blocked st2
    ∧ Downloader._download_data_target "/r" "s3://bkt/r" "/c"
        (Some (0, ["/r/a"]%string) :: Some (1, ["/r/a"]%string) :: [None])
        (Sim.downloader_on Sim.empty_disk)
      = Downloader._download_data_target "/r" "s3://bkt/r" "/c" [None] st2
    ∧ Downloader.queue_out st1 = [] ++ [Some 0]
    ∧ Downloader.queue_out st2 = [] ++ [Some 0; Some 1]
    ∧ Downloader.downloads st2 = Downloader.downloads st1
    ∧ Downloader.fs st2 = Downloader.fs st1
    ∧ (Downloader.downloads st1 = []
       ∨ Downloader.downloads st1
         = [] ++ map (Downloader.request_of "/r" "s3://bkt/r" "/c")
                     ["/r/a"]%string).
Proof.
  apply (X13_second_delivery_is_cached "/r" "s3://bkt/r" "/c" 0 1
           ["/r/a"]%string [None] (Sim.downloader_on Sim.empty_disk)).
  intros p Hp. elems Hp. reflexivity.
Defined.

Lemma X14_partial_download_witness :
  ∃ st' : Downloader.state Sim.disk,
    Downloader._download_data_target "/r" "s3://bkt/r" "/c"
      (Some (0, ["/r/a"%string] ++ "/x/b"%string :: ["/r/c"%string]) :: [None])
      (Sim.downloader_on Sim.empty_disk) = Raised ValueError st'
    ∧ Downloader.downloads st'
      = Downloader.downloads (Sim.downloader_on Sim.empty_disk)
        ++ map (Downloader.request_of "/r" "s3://bkt/r" "/c") ["/r/a"]%string
    ∧ Downloader.queue_out st'
      = Downloader.queue_out (Sim.downloader_on Sim.empty_disk)
    ∧ ∀ p, p ∈ ["/r/a"]%string →
        path_exists (Downloader.fs st') (PyStr.replace p "/r" "/c") = true.
Proof.
  apply (X14_partial_download "/r" "s3://bkt/r" "/c" 0 ["/r/a"]%string
           ["/r/c"]%string "/x/b" [None] (Sim.downloader_on Sim.empty_disk)).
  - reflexivity.
  - intros p Hp. elems Hp. reflexivity.
  - intros Hbad. discriminate Hbad.
Defined.

Lemma X15_remover_scope_witness :
  ∃ st' : Remover.state Sim.disk,
    Remover._remove_target "/r" "/c" ((Some <$> [["/r/a"]%string]) ++ None :: [])
      (Sim.remover_on (Sim.disk_with ["/c/a"; "/c/b"]%string))
    = Returned st'
    ∧ (∀ p, p ∈ concat [["/r/a"]%string] →
         path_exists (Remover.fs st') (PyStr.replace p "/r" "/c") = false).
Proof.
  destruct (X15_remover_scope "/r" "/c" [["/r/a"]%string] []
              (Sim.remover_on (Sim.disk_with ["/c/a"; "/c/b"]%string)))
    as (st' & Hrun & Hgone & _).
  exists st'. split; [exact Hrun|exact Hgone].
Defined.

Lemma X17_worker_directories_witness :
  (Worker.worker_cache_dir 0 1 "/r" = Worker.worker_cache_dir 1 0 "/r" →
   1 = 0 ∧ 0 = 1)
  ∧ Worker.worker_cache_dir 0 1 "/r" ≠ Worker.cache_dir "/r".
Proof. apply (X17_worker_directories "/r" 1 0 0 1). Defined.

Lemma X21_worker_completes_witness :
  ∃ st,
    Worker.run 0 10 None "/r" true 2 true Sim.sample_items
      [Some 1; Some 0; None; None] = Returned st
    ∧ Worker.cache_done st = true
    ∧ (∀ (i : nat) item', Worker.items Sim.sample_collected !! i = Some item' →
         Worker.cache st !! (Z.of_nat i + 10)
         = Some (Worker.prepared None item'))
    ∧ (∀ k v, Worker.cache st !! k = Some v →
         10 ≤ k < 10 + Py.len Sim.sample_items).
Proof.
  apply (X21_worker_completes (Disk := Sim.disk) 0 10 None "/r" "s3://bkt/r"
           true 2 true Sim.sample_items Sim.sample_collected
           [[Some (0, ["/r/a"; "/r/b"]%string); None];
            [Some (1, ["/r/c"]%string); None]]
           [[Some 0; None]; [Some 1; None]]
           [Some 1; Some 0; None; None]).
  - reflexivity.
  - lia.
  - intros ps p Hps Hp. simpl in Hps. elems Hps; elems Hp; reflexivity.
  - reflexivity.
  - reflexivity.
  - intros [|[|d]] q Hq; [| |discriminate Hq];
      injection Hq as <-; exists (Sim.downloader_on Sim.empty_disk);
      (split; [reflexivity|]); vm_compute; reflexivity.
  - apply (Schedule.interleaved_cons _ 1%nat (Some 1) [None]); [reflexivity|].
    apply (Schedule.interleaved_cons _ 0%nat (Some 0) [None]); [reflexivity|].
    apply (Schedule.interleaved_cons _ 0%nat None []); [reflexivity|].
    apply (Schedule.interleaved_cons _ 1%nat None []); [reflexivity|].
    apply Schedule.interleaved_nil. by repeat constructor.
Defined.

End more_runs.
